(** * Personal finance tracker: budget evaluation and monthly aggregation

    A shallow embedding of [app/routes.py] and [app/models.py]: the month
    window, the windowed sums, the budget evaluator and the routes that
    call it, followed by the properties of the specification that were
    checked against them.

    Conventions of the embedding.
    - A [Numeric(10, 2)] column is a [Z] counting hundredths (cents): the
      database adds such values exactly.
    - A Python [float] is an IEEE 754 binary64 number, taken from the
      executable specification of the Standard Library ([spec_float] with
      precision 53 and maximal exponent 1024).
    - The database is a record of tables, a table is the list of its rows
      in row order, and primary keys are the [id] fields.
    - A request runs in a state and exception monad whose state is the
      committed database together with the lines printed so far.  A
      write reaches the state where the source commits it; when a handler
      raises, what it had printed stays printed and the rows it had
      changed since its last commit are dropped with the session.
    - A commit of the model always succeeds.  The database refuses a row
      whose amount or limit does not fit [Numeric(10, 2)], whose year
      does not fit [INTEGER], or whose [category_id] has no row: the
      commit then raises and nothing is stored.  The rows it accepts
      are described by [storable_transaction] and [storable_budget]
      below.
    - The database returns the rows of a query without [ORDER BY] in an
      order of its choosing; the model visits them in table order, and no
      property below depends on the order in which alerts are printed. *)

From Stdlib Require Import ZArith List Bool String Ascii Lia Permutation Sorted.
From Stdlib Require Import Floats.SpecFloat.
Import ListNotations.
Open Scope string_scope.
Open Scope list_scope.
Open Scope Z_scope.

(** ** Errors *)

(** What leaves a request handler other than a response: [abort(code)] of
    Flask, or an uncaught exception (Flask answers 500). *)
Inductive error : Type :=
| HTTPException (code : Z)
| ValueError
| TypeError
| OverflowError.

Definition result (A : Type) : Type := (error + A)%type.

Abbreviation Ok := (@inr error _) (only parsing).
Abbreviation Raise := (@inl error _) (only parsing).

(** ** Calendar dates ([datetime.date]) *)

Module Calendar.

Record date : Type := mkdate { year : Z; month : Z; day : Z }.

Definition MINYEAR : Z := 1.
Definition MAXYEAR : Z := 9999.

Definition is_leap (y : Z) : bool :=
  (y mod 4 =? 0) && (negb (y mod 100 =? 0) || (y mod 400 =? 0)).

Definition days_in_month (y m : Z) : Z :=
  if m =? 2 then (if is_leap y then 29 else 28)
  else if (m =? 4) || (m =? 6) || (m =? 9) || (m =? 11) then 30
  else 31.

(** [date(year, month, day)]: raises [ValueError] outside the calendar.
    This is [date] for arguments that fit a C [int] ([c_int] below);
    beyond them [date] raises [OverflowError], which is not modelled, and
    a property about the kind of exception assumes [c_int]. *)
Definition date_new (y m d : Z) : result date :=
  if (MINYEAR <=? y) && (y <=? MAXYEAR)
     && (1 <=? m) && (m <=? 12)
     && (1 <=? d) && (d <=? days_in_month y m)
  then Ok (mkdate y m d)
  else Raise ValueError.

Definition valid_date (d : date) : Prop :=
  date_new (year d) (month d) (day d) = Ok d.

(** Dates compare as the triples (year, month, day). *)
Definition date_compare (a b : date) : comparison :=
  match year a ?= year b with
  | Eq => match month a ?= month b with
          | Eq => day a ?= day b
          | c => c
          end
  | c => c
  end.

Definition date_leb (a b : date) : bool :=
  match date_compare a b with Gt => false | _ => true end.

Definition date_ltb (a b : date) : bool :=
  match date_compare a b with Lt => true | _ => false end.

Definition digit (c : ascii) : option Z :=
  let n := Z.of_nat (nat_of_ascii c) in
  if (48 <=? n) && (n <=? 57) then Some (n - 48) else None.

Fixpoint number (acc : Z) (cs : list ascii) : option Z :=
  match cs with
  | [] => Some acc
  | c :: cs' => match digit c with
                | Some n => number (10 * acc + n) cs'
                | None => None
                end
  end.

(** [date.fromisoformat] on the format the route documents,
    [YYYY-MM-DD].  Where this returns a date, every version of Python
    returns that date.  Where it raises, Python up to 3.10 raises too,
    while Python 3.11 and later also read the basic and the week formats
    ([20240605], [2024-W23-3]): no property below says that a string is
    refused unless it has the form [YYYY-MM-DD]. *)
Definition fromisoformat (s : string) : result date :=
  match list_ascii_of_string s with
  | [y1; y2; y3; y4; s1; m1; m2; s2; d1; d2] =>
      if Ascii.eqb s1 "-"%char && Ascii.eqb s2 "-"%char then
        match number 0 [y1; y2; y3; y4], number 0 [m1; m2], number 0 [d1; d2] with
        | Some y, Some m, Some d => date_new y m d
        | _, _, _ => Raise ValueError
        end
      else Raise ValueError
  | _ => Raise ValueError
  end.

End Calendar.
Import Calendar.

(** ** Binary floating point ([float]) *)

Module Float64.

Definition float : Type := spec_float.

Definition prec : Z := 53.
Definition emax : Z := 1024.

(** [float(d)] for a [Decimal] [d] with two fraction digits, given in
    cents: the binary64 number nearest to [cents / 100], which is the
    correctly rounded quotient of the two integers. *)
Definition float_of_decimal (cents : Z) : float :=
  match cents with
  | Z0 => S754_zero false
  | Zpos p => SFdiv prec emax (S754_finite false p 0) (S754_finite false 100 0)
  | Zneg p => SFdiv prec emax (S754_finite true p 0) (S754_finite false 100 0)
  end.

(** [a > b] and [a <= b] on floats. *)
Definition gt (a b : float) : bool := SFltb b a.
Definition le (a b : float) : bool := SFleb a b.

(** [a - b] on floats. *)
Definition sub (a b : float) : float := SFsub prec emax a b.

End Float64.
Import Float64.

(** ** The models ([app/models.py]) *)

(** [created_at], [password_hash] and [profile_photo_url] are read by no
    function of [routes.py] modelled below and are left out. *)

Module User.
Record t : Type := mk { id : Z; email : string; name : option string }.
End User.

Module Category.
Record t : Type := mk {
  id : Z;
  user_id : option Z;
  name : string;
  type : string
}.
End Category.

Module Transaction.
Record t : Type := mk {
  id : Z;
  user_id : Z;
  category_id : option Z;
  amount : Z;                      (* Numeric(10, 2), in cents *)
  type : string;
  description : option string;
  transaction_date : date
}.
End Transaction.

Module Budget.
Record t : Type := mk {
  id : Z;
  user_id : Z;
  category_id : option Z;
  month : Z;
  year : Z;
  limit_amount : Z;                (* Numeric(10, 2), in cents *)
  alert_sent : bool
}.

(** [budget.alert_sent = v] *)
Definition set_alert_sent (v : bool) (b : t) : t :=
  mk (id b) (user_id b) (category_id b) (month b) (year b) (limit_amount b) v.
End Budget.

(** ** The state of the application *)

(** One call of [send_budget_alert]: the budget it was called for and the
    values it prints. *)
Record alert : Type := mkalert {
  alert_budget : Z;
  alert_email : string;
  alert_category_name : string;
  alert_month : Z;
  alert_year : Z;
  alert_spent : float;
  alert_limit : float
}.

Record world : Type := mkworld {
  users : list User.t;
  categories : list Category.t;
  transactions : list Transaction.t;
  budgets : list Budget.t;
  stdout : list alert
}.

Definition set_transactions (txs : list Transaction.t) (w : world) : world :=
  mkworld (users w) (categories w) txs (budgets w) (stdout w).

Definition set_budgets (bs : list Budget.t) (w : world) : world :=
  mkworld (users w) (categories w) (transactions w) bs (stdout w).

Definition add_stdout (a : alert) (w : world) : world :=
  mkworld (users w) (categories w) (transactions w) (budgets w) (stdout w ++ [a]).

(** ** The monad of request handlers *)

(** The state outlives an exception: what was committed and printed before
    a handler raises stays committed and printed. *)
Definition M (A : Type) : Type := world -> world * result A.

Definition ret {A : Type} (a : A) : M A := fun w => (w, Ok a).

Definition bind {A B : Type} (m : M A) (k : A -> M B) : M B :=
  fun w => match m w with
           | (w', inr a) => k a w'
           | (w', inl e) => (w', inl e)
           end.

Declare Scope monad_scope.
Delimit Scope monad_scope with monad.
Notation "x <- m ;; k" := (bind m (fun x => k))
  (at level 61, m at next level, right associativity) : monad_scope.
Notation "' pat <- m ;; k" := (bind m (fun x => match x with pat => k end))
  (at level 61, pat pattern, m at next level, right associativity) : monad_scope.
Notation "m ;;; k" := (bind m (fun _ => k))
  (at level 61, right associativity) : monad_scope.
Open Scope monad_scope.

Definition gets {A : Type} (f : world -> A) : M A := fun w => (w, Ok (f w)).
Definition modify (f : world -> world) : M unit := fun w => (f w, Ok tt).
Definition lift {A : Type} (r : result A) : M A := fun w => (w, r).
Definition abort {A : Type} (code : Z) : M A := lift (Raise (HTTPException code)).

(** The state a computation ends in, and what it returns. *)
Definition exec {A : Type} (m : M A) (w : world) : world := fst (m w).
Definition eval {A : Type} (m : M A) (w : world) : result A := snd (m w).

(** [[f(x) for x in xs]] *)
Fixpoint mapM {A B : Type} (f : A -> M B) (xs : list A) : M (list B) :=
  match xs with
  | [] => ret []
  | x :: xs' => y <- f x ;; ys <- mapM f xs' ;; ret (y :: ys)
  end.

(** [for row in Model.query.filter(sel).all(): body(row)], where the body
    may assign to attributes of the row it is given: the rows the query
    selects are visited in table order, and the result is the table with
    each visited row as the body left it.  The query has no [ORDER BY],
    so the database may return the rows in another order: the order of
    the visits, and of what the body prints, is the model's choice. *)
Fixpoint for_rows {R : Type} (sel : R -> bool) (body : R -> M R)
    (rows : list R) : M (list R) :=
  match rows with
  | [] => ret []
  | r :: rows' =>
      r' <- (if sel r then body r else ret r) ;;
      rest <- for_rows sel body rows' ;;
      ret (r' :: rest)
  end.

(** [setattr] on the object [query.first()] returned. *)
Fixpoint update_first {R : Type} (sel : R -> bool) (f : R -> R)
    (rows : list R) : list R :=
  match rows with
  | [] => []
  | r :: rows' => if sel r then f r :: rows' else r :: update_first sel f rows'
  end.

(** [db.session.delete] of the object [query.first()] returned. *)
Fixpoint delete_first {R : Type} (sel : R -> bool) (rows : list R) : list R :=
  match rows with
  | [] => []
  | r :: rows' => if sel r then rows' else r :: delete_first sel rows'
  end.

Definition opt_eqb (a : option Z) (b : Z) : bool :=
  match a with Some x => x =? b | None => false end.

(** ** Request payloads *)

(** The JSON body of a transaction request, for a body that is an object
    whose [type], [description] and [transaction_date] are strings or
    absent.  [amount] is a number with at most two fraction digits, in
    cents; an absent key and [null] are both [None], as [payload.get]
    makes them.  On a body of another shape the code raises [TypeError]
    or [AttributeError]; such bodies are outside this type, so no
    property below says that the parser fails with 400 only. *)
Record transaction_payload : Type := mk_transaction_payload {
  p_amount : option Z;
  p_type : option string;
  p_category_id : option Z;
  p_description : option string;
  p_transaction_date : option string
}.

(** What [parse_transaction_payload] returns. *)
Record transaction_data : Type := mk_transaction_data {
  d_amount : Z;
  d_type : string;
  d_category_id : option Z;
  d_description : option string;
  d_transaction_date : date
}.

(** A JSON value handed to [int()]: one that [int()] turns into [z]; one
    on which it raises [ValueError] (a string that is no numeral, a NaN);
    one on which it raises [OverflowError] (an infinite float, as
    [1e999] reads); one on which it raises [TypeError] (a list, an
    object). *)
Inductive json_int : Type :=
| JInt (z : Z)
| JNotInt
| JInfinite
| JNoNumber.

(** The JSON body of a budget request, for a body that is an object whose
    [limit_amount] is a number, in cents, and whose [category_id] is an
    integer; [month] and [year] are any JSON value.  An absent key and
    [null] are both [None]. *)
Record budget_payload : Type := mk_budget_payload {
  p_month : option json_int;
  p_year : option json_int;
  p_limit_amount : option Z;
  p_budget_category_id : option Z
}.

Record budget_data : Type := mk_budget_data {
  d_month : Z;
  d_year : Z;
  d_limit_amount : Z;
  d_budget_category_id : option Z
}.

(** ** [app/routes.py] *)

Definition get_current_user : M User.t :=
  us <- gets users ;;
  match find (fun u => User.id u =? 1) us with
  | Some user => ret user
  | None => abort 401
  end.

Definition get_current_user_id : M Z :=
  user <- get_current_user ;; ret (User.id user).

Definition valid_type (tx_type : option string) : bool :=
  match tx_type with
  | Some s => String.eqb s "income" || String.eqb s "expense"
  | None => false
  end.

Definition parse_transaction_payload (today : date)
    (payload : option transaction_payload) : result transaction_data :=
  match payload with
  | None => Raise (HTTPException 400)
  | Some payload =>
      match p_amount payload, p_type payload with
      | Some amount, Some tx_type =>
          if valid_type (Some tx_type) then
            let parsed :=
              match p_transaction_date payload with
              | Some (String c s) =>
                  match fromisoformat (String c s) with
                  | inr d => Ok d
                  | inl _ => Raise (HTTPException 400)
                  end
              | _ => Ok today
              end in
            match parsed with
            | inr tx_date =>
                Ok (mk_transaction_data amount tx_type (p_category_id payload)
                      (p_description payload) tx_date)
            | inl e => Raise e
            end
          else Raise (HTTPException 400)
      | _, _ => Raise (HTTPException 400)
      end
  end.

Definition int (v : json_int) : result Z :=
  match v with
  | JInt z => Ok z
  | JNotInt => Raise ValueError
  | JInfinite => Raise OverflowError
  | JNoNumber => Raise TypeError
  end.

(** [try: ... except ValueError: abort(400, ...)]: a [ValueError] becomes
    400, any other exception goes on. *)
Definition except_ValueError {A : Type} (r : result A) : result A :=
  match r with
  | inl ValueError => Raise (HTTPException 400)
  | other => other
  end.

Definition parse_budget_payload (payload : option budget_payload)
    : result budget_data :=
  match payload with
  | None => Raise (HTTPException 400)
  | Some payload =>
      match p_month payload, p_year payload, p_limit_amount payload with
      | Some m, Some y, Some limit =>
          match except_ValueError
                  (match int m with
                   | inl e => Raise e
                   | inr month =>
                       match int y with
                       | inl e => Raise e
                       | inr year => Ok (month, year)
                       end
                   end) with
          | inl e => Raise e
          | inr (month, year) =>
              if (1 <=? month) && (month <=? 12) then
                Ok (mk_budget_data month year limit (p_budget_category_id payload))
              else Raise (HTTPException 400)
          end
      | _, _, _ => Raise (HTTPException 400)
      end
  end.

Definition get_month_bounds (year month : Z) : result (date * date) :=
  match date_new year month 1 with
  | inl e => Raise e
  | inr start =>
      match (if month =? 12 then date_new (year + 1) 1 1
             else date_new year (month + 1) 1) with
      | inl e => Raise e
      | inr end_ => Ok (start, end_)
      end
  end.

(** [start <= transaction_date < end] *)
Definition in_window (start end_ d : date) : bool :=
  date_leb start d && date_ltb d end_.

(** [func.sum(Transaction.amount)] with [coalesce(..., 0)]: the exact sum
    of the decimal amounts, 0 for no row. *)
Definition sum_amount (rows : list Transaction.t) : Z :=
  fold_right (fun t acc => Transaction.amount t + acc) 0 rows.

(** [if category_id:] is false for [None] and for 0. *)
Definition truthy (category_id : option Z) : bool :=
  match category_id with
  | Some c => negb (c =? 0)
  | None => false
  end.

(** The rows the query of [get_expense_total] and [get_income_total]
    selects. *)
Definition total_rows (tx_type : string) (user_id : Z) (start end_ : date)
    (category_id : option Z) (txs : list Transaction.t) : list Transaction.t :=
  let rows :=
    filter (fun t => (Transaction.user_id t =? user_id)
                     && String.eqb (Transaction.type t) tx_type
                     && in_window start end_ (Transaction.transaction_date t))
           txs in
  match category_id with
  | Some c =>
      if truthy category_id
      then filter (fun t => opt_eqb (Transaction.category_id t) c) rows
      else rows
  | None => rows
  end.

Definition get_expense_total (user_id month year : Z) (category_id : option Z)
    : M float :=
  '(start, end_) <- lift (get_month_bounds year month) ;;
  txs <- gets transactions ;;
  ret (float_of_decimal
         (sum_amount (total_rows "expense" user_id start end_ category_id txs))).

Definition get_income_total (user_id month year : Z) : M float :=
  '(start, end_) <- lift (get_month_bounds year month) ;;
  txs <- gets transactions ;;
  ret (float_of_decimal
         (sum_amount (total_rows "income" user_id start end_ None txs))).

Record budget_status : Type := mk_budget_status {
  spent : float;
  remaining : float
}.

Definition compute_budget_status (budget : Budget.t) : M budget_status :=
  spent <- get_expense_total (Budget.user_id budget) (Budget.month budget)
             (Budget.year budget) (Budget.category_id budget) ;;
  let remaining := sub (float_of_decimal (Budget.limit_amount budget)) spent in
  ret (mk_budget_status spent remaining).

(** [budget.category]: the row the foreign key points to, if any. *)
Definition budget_category (budget : Budget.t) (cats : list Category.t)
    : option Category.t :=
  match Budget.category_id budget with
  | Some c => find (fun cat => Category.id cat =? c) cats
  | None => None
  end.

Definition send_budget_alert (user : User.t) (budget : Budget.t)
    (spent : float) : M unit :=
  cats <- gets categories ;;
  let category_name :=
    match budget_category budget cats with
    | Some cat => Category.name cat
    | None => "Overall"
    end in
  modify (add_stdout
            (mkalert (Budget.id budget) (User.email user) category_name
               (Budget.month budget) (Budget.year budget) spent
               (float_of_decimal (Budget.limit_amount budget)))).

(** [filter_by(user_id=user_id, month=month, year=year)] *)
Definition in_scope (user_id month year : Z) (b : Budget.t) : bool :=
  (Budget.user_id b =? user_id) && (Budget.month b =? month)
  && (Budget.year b =? year).

(** The body of the loop of [evaluate_budgets_for_month]. *)
Definition evaluate_budget (user : User.t) (budget : Budget.t) : M Budget.t :=
  status <- compute_budget_status budget ;;
  let over_limit :=
    gt (spent status) (float_of_decimal (Budget.limit_amount budget)) in
  if over_limit && negb (Budget.alert_sent budget) then
    send_budget_alert user budget (spent status) ;;;
    ret (Budget.set_alert_sent true budget)
  else if negb over_limit && Budget.alert_sent budget then
    ret (Budget.set_alert_sent false budget)
  else ret budget.

Definition evaluate_budgets_for_month (user_id month year : Z) : M unit :=
  table <- gets budgets ;;
  user <- get_current_user ;;
  table' <- for_rows (in_scope user_id month year) (evaluate_budget user) table ;;
  modify (set_budgets table').

Definition evaluate_budgets_for_transaction (transaction : Transaction.t)
    : M unit :=
  evaluate_budgets_for_month
    (Transaction.user_id transaction)
    (Calendar.month (Transaction.transaction_date transaction))
    (Calendar.year (Transaction.transaction_date transaction)).

(** The row of [transaction] after [setattr(transaction, key, value)] for
    every item of [data]. *)
Definition set_transaction_data (data : transaction_data)
    (transaction : Transaction.t) : Transaction.t :=
  Transaction.mk (Transaction.id transaction) (Transaction.user_id transaction)
    (d_category_id data) (d_amount data) (d_type data) (d_description data)
    (d_transaction_date data).

Definition set_budget_data (data : budget_data) (budget : Budget.t) : Budget.t :=
  Budget.mk (Budget.id budget) (Budget.user_id budget)
    (d_budget_category_id data) (d_month data) (d_year data)
    (d_limit_amount data) (Budget.alert_sent budget).

(** [filter_by(id=row_id, user_id=user_id)] *)
Definition transaction_is (transaction_id user_id : Z) (t : Transaction.t) : bool :=
  (Transaction.id t =? transaction_id) && (Transaction.user_id t =? user_id).

Definition budget_is (budget_id user_id : Z) (b : Budget.t) : bool :=
  (Budget.id b =? budget_id) && (Budget.user_id b =? user_id).

(** The attributes of [budget] as the session reloads them after a commit. *)
Definition refresh (budget : Budget.t) : M Budget.t :=
  table <- gets budgets ;;
  match find (fun b => Budget.id b =? Budget.id budget) table with
  | Some b => ret b
  | None => ret budget
  end.

(** POST /api/transactions.  [today] is [date.today()] and [new_id] the
    primary key the database gives the new row.  The response is the
    status code and the row that [to_dict] renders.  The commit of the
    new row is the one of a row the database accepts
    ([storable_transaction]); a refused commit is not modelled. *)
Definition create_transaction (today : date) (new_id : Z)
    (payload : option transaction_payload) : M (Z * Transaction.t) :=
  user_id <- get_current_user_id ;;
  data <- lift (parse_transaction_payload today payload) ;;
  let transaction :=
    Transaction.mk new_id user_id (d_category_id data) (d_amount data)
      (d_type data) (d_description data) (d_transaction_date data) in
  modify (fun w => set_transactions (transactions w ++ [transaction]) w) ;;;
  evaluate_budgets_for_transaction transaction ;;;
  ret (201, transaction).

(** PUT /api/transactions/<transaction_id>.  The commit is the one of a
    row the database accepts, as for POST. *)
Definition update_transaction (today : date) (transaction_id : Z)
    (payload : option transaction_payload) : M (Z * Transaction.t) :=
  user_id <- get_current_user_id ;;
  txs <- gets transactions ;;
  match find (transaction_is transaction_id user_id) txs with
  | None => abort 404
  | Some transaction =>
      data <- lift (parse_transaction_payload today payload) ;;
      modify (set_transactions
                (update_first (transaction_is transaction_id user_id)
                   (set_transaction_data data) txs)) ;;;
      let transaction := set_transaction_data data transaction in
      evaluate_budgets_for_transaction transaction ;;;
      ret (200, transaction)
  end.

(** DELETE /api/transactions/<transaction_id> *)
Definition delete_transaction (transaction_id : Z) : M (Z * Z) :=
  user_id <- get_current_user_id ;;
  txs <- gets transactions ;;
  match find (transaction_is transaction_id user_id) txs with
  | None => abort 404
  | Some transaction =>
      let transaction_month :=
        Calendar.month (Transaction.transaction_date transaction) in
      let transaction_year :=
        Calendar.year (Transaction.transaction_date transaction) in
      modify (set_transactions
                (delete_first (transaction_is transaction_id user_id) txs)) ;;;
      evaluate_budgets_for_month user_id transaction_month transaction_year ;;;
      ret (200, transaction_id)
  end.

(** POST /api/budgets.  The commit of the new row is the one of a row the
    database accepts ([storable_budget]); a refused commit is not
    modelled. *)
Definition create_budget (new_id : Z) (payload : option budget_payload)
    : M (Z * (Budget.t * budget_status)) :=
  user_id <- get_current_user_id ;;
  data <- lift (parse_budget_payload payload) ;;
  let budget :=
    Budget.mk new_id user_id (d_budget_category_id data) (d_month data)
      (d_year data) (d_limit_amount data) false in
  modify (fun w => set_budgets (budgets w ++ [budget]) w) ;;;
  evaluate_budgets_for_month user_id (Budget.month budget) (Budget.year budget) ;;;
  budget <- refresh budget ;;
  status <- compute_budget_status budget ;;
  ret (201, (budget, status)).

(** PUT /api/budgets/<budget_id>.  The commit is the one of a row the
    database accepts, as for POST. *)
Definition update_budget (budget_id : Z) (payload : option budget_payload)
    : M (Z * (Budget.t * budget_status)) :=
  user_id <- get_current_user_id ;;
  table <- gets budgets ;;
  match find (budget_is budget_id user_id) table with
  | None => abort 404
  | Some budget =>
      data <- lift (parse_budget_payload payload) ;;
      modify (set_budgets
                (update_first (budget_is budget_id user_id)
                   (set_budget_data data) table)) ;;;
      let budget := set_budget_data data budget in
      evaluate_budgets_for_month user_id (Budget.month budget) (Budget.year budget) ;;;
      budget <- refresh budget ;;
      status <- compute_budget_status budget ;;
      ret (200, (budget, status))
  end.

(** One element of ["by_category"]. *)
Record category_total : Type := mk_category_total {
  ct_category_id : Z;
  ct_category_name : string;
  ct_type : string;
  ct_total : float
}.

Record summary : Type := mk_summary {
  s_month : Z;
  s_year : Z;
  s_total_income : float;
  s_total_expense : float;
  s_net : float;
  s_by_category : list category_total;
  s_budgets : list (Budget.t * budget_status)
}.

(** [request.args.get(key, type=int) or default] *)
Definition arg_or (arg : option Z) (default : Z) : Z :=
  match arg with
  | Some v => if v =? 0 then default else v
  | None => default
  end.

(** [order_by(Category.name.asc())] *)
Fixpoint insert_by_name (c : Category.t) (cs : list Category.t)
    : list Category.t :=
  match cs with
  | [] => [c]
  | c' :: cs' =>
      if String.leb (Category.name c) (Category.name c') then c :: c' :: cs'
      else c' :: insert_by_name c cs'
  end.

Definition order_by_name (cs : list Category.t) : list Category.t :=
  fold_right insert_by_name [] cs.

(** The transactions the outer join of [monthly_summary] attaches to a
    category. *)
Definition joined (user_id : Z) (start end_ : date) (c : Category.t)
    (txs : list Transaction.t) : list Transaction.t :=
  filter (fun t => opt_eqb (Transaction.category_id t) (Category.id c)
                   && (Transaction.user_id t =? user_id)
                   && in_window start end_ (Transaction.transaction_date t))
         txs.

(** The query [category_rows] and the list built from it: the categories
    of the user, one group for each since they are grouped by primary
    key, each with the sum over the transactions joined to it. *)
Definition by_category (user_id : Z) (start end_ : date)
    (cats : list Category.t) (txs : list Transaction.t) : list category_total :=
  map (fun c => mk_category_total (Category.id c) (Category.name c)
                  (Category.type c)
                  (float_of_decimal (sum_amount (joined user_id start end_ c txs))))
      (order_by_name
         (filter (fun c => opt_eqb (Category.user_id c) user_id) cats)).

Definition is_overall (b : Budget.t) : bool :=
  match Budget.category_id b with None => true | Some _ => false end.

(** [order_by(Budget.category_id.is_(None).desc())] *)
Definition overall_first (bs : list Budget.t) : list Budget.t :=
  filter is_overall bs ++ filter (fun b => negb (is_overall b)) bs.

(** GET /api/summary/monthly?month=&year= *)
Definition monthly_summary (today : date) (arg_month arg_year : option Z)
    : M summary :=
  user_id <- get_current_user_id ;;
  let month := arg_or arg_month (Calendar.month today) in
  let year := arg_or arg_year (Calendar.year today) in
  '(start, end_) <- lift (get_month_bounds year month) ;;
  total_income <- get_income_total user_id month year ;;
  total_expense <- get_expense_total user_id month year None ;;
  cats <- gets categories ;;
  txs <- gets transactions ;;
  let category_rows := by_category user_id start end_ cats txs in
  table <- gets budgets ;;
  let budgets := overall_first (filter (in_scope user_id month year) table) in
  budgets_payload <-
    mapM (fun budget => status <- compute_budget_status budget ;;
                        ret (budget, status)) budgets ;;
  ret (mk_summary month year total_income total_expense
         (sub total_income total_expense) category_rows budgets_payload).

(** ** A pure reading of the evaluator

    What one pass of [evaluate_budgets_for_month] over a scope whose month
    window is [start, end_) computes, written without the monad; the
    lemmas below show that the evaluator computes exactly this. *)

(** [status["spent"] > float(budget.limit_amount)] *)
Definition over_limit (start end_ : date) (txs : list Transaction.t)
    (b : Budget.t) : bool :=
  gt (float_of_decimal
        (sum_amount (total_rows "expense" (Budget.user_id b) start end_
                       (Budget.category_id b) txs)))
     (float_of_decimal (Budget.limit_amount b)).

Definition settled (sel : Budget.t -> bool) (start end_ : date)
    (txs : list Transaction.t) (b : Budget.t) : Budget.t :=
  if sel b then Budget.set_alert_sent (over_limit start end_ txs b) b else b.

Definition alert_of (user : User.t) (cats : list Category.t)
    (start end_ : date) (txs : list Transaction.t) (b : Budget.t) : alert :=
  mkalert (Budget.id b) (User.email user)
    (match budget_category b cats with
     | Some cat => Category.name cat
     | None => "Overall"
     end)
    (Budget.month b) (Budget.year b)
    (float_of_decimal
       (sum_amount (total_rows "expense" (Budget.user_id b) start end_
                      (Budget.category_id b) txs)))
    (float_of_decimal (Budget.limit_amount b)).

Definition alerts_of (sel : Budget.t -> bool) (user : User.t)
    (cats : list Category.t) (start end_ : date) (txs : list Transaction.t)
    (table : list Budget.t) : list alert :=
  map (alert_of user cats start end_ txs)
      (filter (fun b => sel b && over_limit start end_ txs b
                        && negb (Budget.alert_sent b)) table).

Definition print_all (lines : list alert) (w : world) : world :=
  mkworld (users w) (categories w) (transactions w) (budgets w)
    (stdout w ++ lines).

(** The three ways a pass of the evaluator can end. *)
Inductive evaluation (u m y : Z) (w : world) : world -> result unit -> Prop :=
| eval_no_user :
    find (fun u => User.id u =? 1) (users w) = None ->
    evaluation u m y w w (Raise (HTTPException 401))
| eval_no_window user err :
    find (fun u => User.id u =? 1) (users w) = Some user ->
    get_month_bounds y m = inl err ->
    evaluation u m y w w
      (if existsb (in_scope u m y) (budgets w) then inl err else Ok tt)
| eval_done user s e :
    find (fun u => User.id u =? 1) (users w) = Some user ->
    get_month_bounds y m = Ok (s, e) ->
    evaluation u m y w
      (mkworld (users w) (categories w) (transactions w)
         (map (settled (in_scope u m y) s e (transactions w)) (budgets w))
         (stdout w ++
          alerts_of (in_scope u m y) user (categories w) s e (transactions w)
            (budgets w)))
      (Ok tt).

(** Primary keys are unique in a table. *)
Definition pk_unique {R : Type} (id : R -> Z) (rows : list R) : Prop :=
  NoDup (map id rows).

(** A handler that writes nothing and prints nothing. *)
Definition read_only {A : Type} (m : M A) : Prop :=
  forall w, exec m w = w.

(** Sample data: the demo user, one category and one budget for June
    2024 with a limit of 100.00. *)
Module Demo.
Definition user : User.t := User.mk 1 "demo@example.com" (Some "Demo User").
Definition food : Category.t := Category.mk 1 (Some 1) "Food" "expense".
Definition rent : Category.t := Category.mk 2 (Some 1) "Housing" "expense".
Definition today : date := mkdate 2024 6 15.

Definition june_budget (sent : bool) : Budget.t :=
  Budget.mk 1 1 (Some 1) 6 2024 10000 sent.

Definition expense (id amount : Z) (d : date) : Transaction.t :=
  Transaction.mk id 1 (Some 1) amount "expense" None d.

Definition payload (amount : Z) (d : string) : option transaction_payload :=
  Some (mk_transaction_payload (Some amount) (Some "expense") (Some 1) None
          (Some d)).

Definition world_with (txs : list Transaction.t) (sent : bool) : world :=
  mkworld [user] [food; rent] txs [june_budget sent] [].
End Demo.

(** ** The other routes *)

(** [date.isoformat()], which [Transaction.to_dict] puts in a response:
    ["%04d-%02d-%02d"]. *)
Definition digit_char (n : Z) : ascii := ascii_of_nat (Z.to_nat (48 + n)).

Definition isoformat (d : date) : string :=
  string_of_list_ascii
    [digit_char (Calendar.year d / 1000); digit_char (Calendar.year d / 100 mod 10);
     digit_char (Calendar.year d / 10 mod 10); digit_char (Calendar.year d mod 10);
     "-"%char;
     digit_char (Calendar.month d / 10); digit_char (Calendar.month d mod 10);
     "-"%char;
     digit_char (Calendar.day d / 10); digit_char (Calendar.day d mod 10)].

(** [query.order_by(...)]: the rows sorted by the order [leb].  The
    database leaves the order of rows that compare equal open; here they
    stay in table order, and nothing below depends on it. *)
Fixpoint insert_by {R : Type} (leb : R -> R -> bool) (r : R) (rows : list R)
    : list R :=
  match rows with
  | [] => [r]
  | r' :: rows' =>
      if leb r r' then r :: r' :: rows' else r' :: insert_by leb r rows'
  end.

Definition order_by {R : Type} (leb : R -> R -> bool) (rows : list R) : list R :=
  fold_right (insert_by leb) [] rows.

(** [Category.type.desc(), Category.name.asc()] *)
Definition category_leb (a b : Category.t) : bool :=
  match String.compare (Category.type a) (Category.type b) with
  | Gt => true
  | Lt => false
  | Eq => String.leb (Category.name a) (Category.name b)
  end.

(** [Transaction.transaction_date.desc()] *)
Definition transaction_leb (a b : Transaction.t) : bool :=
  date_leb (Transaction.transaction_date b) (Transaction.transaction_date a).

(** [Budget.year.desc(), Budget.month.desc()] *)
Definition budget_leb (a b : Budget.t) : bool :=
  (Budget.year b <? Budget.year a)
  || ((Budget.year b =? Budget.year a) && (Budget.month b <=? Budget.month a)).

(** GET /api/categories *)
Definition list_categories : M (list Category.t) :=
  user_id <- get_current_user_id ;;
  cats <- gets categories ;;
  ret (order_by category_leb
         (filter (fun c => opt_eqb (Category.user_id c) user_id) cats)).

(** GET /api/transactions *)
Definition list_transactions : M (list Transaction.t) :=
  user_id <- get_current_user_id ;;
  txs <- gets transactions ;;
  ret (order_by transaction_leb
         (filter (fun t => Transaction.user_id t =? user_id) txs)).

(** The query of [list_budgets]: [if month:] and [if year:] skip the
    filter for an absent argument and for 0. *)
Definition listed (user_id : Z) (arg_month arg_year : option Z) (b : Budget.t)
    : bool :=
  (Budget.user_id b =? user_id)
  && match arg_month with
     | Some m => if truthy arg_month then Budget.month b =? m else true
     | None => true
     end
  && match arg_year with
     | Some y => if truthy arg_year then Budget.year b =? y else true
     | None => true
     end.

(** GET /api/budgets?month=&year= *)
Definition list_budgets (arg_month arg_year : option Z)
    : M (list (Budget.t * budget_status)) :=
  user_id <- get_current_user_id ;;
  table <- gets budgets ;;
  let budgets := order_by budget_leb (filter (listed user_id arg_month arg_year) table) in
  mapM (fun budget => status <- compute_budget_status budget ;;
                      ret (budget, status)) budgets.

(** DELETE /api/budgets/<budget_id> *)
Definition delete_budget (budget_id : Z) : M (Z * Z) :=
  user_id <- get_current_user_id ;;
  table <- gets budgets ;;
  match find (budget_is budget_id user_id) table with
  | None => abort 404
  | Some budget =>
      let month := Budget.month budget in
      let year := Budget.year budget in
      modify (set_budgets (delete_first (budget_is budget_id user_id) table)) ;;;
      evaluate_budgets_for_month user_id month year ;;;
      ret (200, budget_id)
  end.

(** ** What the database and the C library accept *)

(** The integers of a C [int] and of an [INTEGER] column. *)
Definition c_int (z : Z) : Prop := - 2 ^ 31 <= z < 2 ^ 31.

(** The values of a [Numeric(10, 2)] column, in cents. *)
Definition numeric_10_2 (cents : Z) : Prop := - 10 ^ 10 < cents < 10 ^ 10.

(** A foreign key to [category.id]: null, or the id of a row. *)
Definition category_ref (w : world) (category_id : option Z) : Prop :=
  match category_id with
  | None => True
  | Some c => In c (map Category.id (categories w))
  end.

(** The data of a transaction row that a commit stores. *)
Definition storable_transaction (w : world) (data : transaction_data) : Prop :=
  numeric_10_2 (d_amount data) /\ category_ref w (d_category_id data).

(** The data of a budget row that a commit stores. *)
Definition storable_budget (w : world) (data : budget_data) : Prop :=
  c_int (d_year data) /\ numeric_10_2 (d_limit_amount data) /\
  category_ref w (d_budget_category_id data).

(** A budget row as the table can hold it: month and year are [INTEGER]. *)
Definition stored_budget (b : Budget.t) : Prop :=
  c_int (Budget.month b) /\ c_int (Budget.year b).

(** ** Conditions on rows *)

(** What the transaction routes let into the table: a type of income or
    expense and a date of the calendar. *)
Definition transaction_ok (t : Transaction.t) : Prop :=
  valid_type (Some (Transaction.type t)) = true /\
  valid_date (Transaction.transaction_date t).

(** What the budget routes let into the table. *)
Definition budget_ok (b : Budget.t) : Prop := 1 <= Budget.month b <= 12.

(** A budget without its flag. *)
Definition without_flag (b : Budget.t) : Budget.t := Budget.set_alert_sent false b.

(** The rows of the other users are all still there. *)
Definition others_kept (w w' : world) : Prop :=
  (forall t, In t (transactions w) -> Transaction.user_id t <> 1 ->
             In t (transactions w')) /\
  (forall b, In b (budgets w) -> Budget.user_id b <> 1 -> In b (budgets w')).

(** Every row of the two tables meets its condition. *)
Definition rows_ok (w : world) : Prop :=
  Forall transaction_ok (transactions w) /\ Forall budget_ok (budgets w).

(** What a list comprehension returns when its body only reads: the
    results in order, or the first error. *)
Fixpoint traverse {A B : Type} (r : A -> result B) (xs : list A)
    : result (list B) :=
  match xs with
  | [] => Ok []
  | x :: xs' =>
      match r x with
      | inl e => inl e
      | inr y => match traverse r xs' with
                 | inl e => inl e
                 | inr ys => Ok (y :: ys)
                 end
      end
  end.

(** The status of a budget, as [compute_budget_status] returns it. *)
Definition status_of (w : world) (b : Budget.t) : result budget_status :=
  eval (compute_budget_status b) w.

(** * Properties *)

(** ** The monad *)

Lemma print_all_nil w : print_all [] w = w.
Proof. destruct w; unfold print_all; simpl. now rewrite app_nil_r. Qed.

Lemma print_all_app l1 l2 w :
  print_all l2 (print_all l1 w) = print_all (l1 ++ l2) w.
Proof. unfold print_all; simpl. now rewrite app_assoc. Qed.

Lemma set_alert_sent_same b : Budget.set_alert_sent (Budget.alert_sent b) b = b.
Proof. now destruct b. Qed.

Lemma set_budgets_same w : set_budgets (budgets w) w = w.
Proof. now destruct w. Qed.

(** ** Running the queries *)

Lemma get_expense_total_run u m y c w :
  get_expense_total u m y c w =
  (w, match get_month_bounds y m with
      | inl e => inl e
      | inr (s, e) =>
          Ok (float_of_decimal
                (sum_amount (total_rows "expense" u s e c (transactions w))))
      end).
Proof.
  unfold get_expense_total, bind, lift, gets, ret.
  now destruct (get_month_bounds y m) as [e | [s e]].
Qed.

Lemma get_income_total_run u m y w :
  get_income_total u m y w =
  (w, match get_month_bounds y m with
      | inl e => inl e
      | inr (s, e) =>
          Ok (float_of_decimal
                (sum_amount (total_rows "income" u s e None (transactions w))))
      end).
Proof.
  unfold get_income_total, bind, lift, gets, ret.
  now destruct (get_month_bounds y m) as [e | [s e]].
Qed.

Lemma compute_budget_status_run b w :
  compute_budget_status b w =
  (w, match get_month_bounds (Budget.year b) (Budget.month b) with
      | inl e => inl e
      | inr (s, e) =>
          let spent :=
            float_of_decimal
              (sum_amount (total_rows "expense" (Budget.user_id b) s e
                             (Budget.category_id b) (transactions w))) in
          Ok (mk_budget_status spent
                (sub (float_of_decimal (Budget.limit_amount b)) spent))
      end).
Proof.
  unfold compute_budget_status, bind. rewrite get_expense_total_run.
  now destruct (get_month_bounds _ _) as [e | [s e]].
Qed.

(** ** Running the evaluator *)

Lemma evaluate_budget_run user b w s e :
  get_month_bounds (Budget.year b) (Budget.month b) = Ok (s, e) ->
  evaluate_budget user b w =
  (print_all
     (if over_limit s e (transactions w) b && negb (Budget.alert_sent b)
      then [alert_of user (categories w) s e (transactions w) b] else [])
     w,
   Ok (Budget.set_alert_sent (over_limit s e (transactions w) b) b)).
Proof.
  intros Hb. unfold evaluate_budget, bind.
  rewrite compute_budget_status_run, Hb. cbn [spent].
  change (gt _ _) with (over_limit s e (transactions w) b).
  destruct (over_limit s e (transactions w) b) eqn:Hover;
    destruct (Budget.alert_sent b) eqn:Hsent; cbn [andb negb].
  - rewrite print_all_nil, <- Hsent, set_alert_sent_same. reflexivity.
  - reflexivity.
  - rewrite print_all_nil. reflexivity.
  - rewrite print_all_nil, <- Hsent, set_alert_sent_same. reflexivity.
Qed.

Lemma evaluate_budget_raise user b w err :
  get_month_bounds (Budget.year b) (Budget.month b) = inl err ->
  evaluate_budget user b w = (w, inl err).
Proof.
  intros Hb. unfold evaluate_budget, bind.
  now rewrite compute_budget_status_run, Hb.
Qed.

Lemma in_scope_true u m y b :
  in_scope u m y b = true ->
  Budget.user_id b = u /\ Budget.month b = m /\ Budget.year b = y.
Proof. unfold in_scope. lia. Qed.

Lemma for_rows_evaluate u m y s e user rows : forall w,
  get_month_bounds y m = Ok (s, e) ->
  for_rows (in_scope u m y) (evaluate_budget user) rows w =
  (print_all
     (alerts_of (in_scope u m y) user (categories w) s e (transactions w) rows) w,
   Ok (map (settled (in_scope u m y) s e (transactions w)) rows)).
Proof.
  induction rows as [| b rows IH]; intros w Hb.
  - cbn. now rewrite print_all_nil.
  - cbn [for_rows]. unfold bind at 1.
    unfold alerts_of, settled. cbn [map filter].
    destruct (in_scope u m y b) eqn:Hsel.
    + destruct (in_scope_true _ _ _ _ Hsel) as (_ & Hm & Hy).
      rewrite (evaluate_budget_run user b w s e) by (now rewrite Hm, Hy).
      unfold bind. rewrite IH by assumption. cbn [categories transactions print_all].
      unfold ret. rewrite print_all_app. cbn [andb].
      destruct (over_limit s e (transactions w) b && negb (Budget.alert_sent b));
        reflexivity.
    + unfold ret at 1. unfold bind. rewrite IH by assumption.
      reflexivity.
Qed.

Lemma for_rows_raise u m y err user rows : forall w,
  get_month_bounds y m = inl err ->
  for_rows (in_scope u m y) (evaluate_budget user) rows w =
  (w, if existsb (in_scope u m y) rows then inl err else Ok rows).
Proof.
  induction rows as [| b rows IH]; intros w Hb.
  - reflexivity.
  - cbn [for_rows existsb]. unfold bind at 1.
    destruct (in_scope u m y b) eqn:Hsel.
    + destruct (in_scope_true _ _ _ _ Hsel) as (_ & Hm & Hy).
      rewrite evaluate_budget_raise with (err := err) by (now rewrite Hm, Hy).
      reflexivity.
    + unfold ret at 1. unfold bind. rewrite IH by assumption. cbn [orb].
      now destruct (existsb (in_scope u m y) rows).
Qed.

Lemma get_current_user_run w :
  get_current_user w =
  (w, match find (fun u => User.id u =? 1) (users w) with
      | Some user => Ok user
      | None => Raise (HTTPException 401)
      end).
Proof.
  unfold get_current_user, bind, gets.
  now destruct (find _ (users w)).
Qed.

Lemma evaluate_budgets_for_month_run u m y w :
  evaluation u m y w (exec (evaluate_budgets_for_month u m y) w)
    (eval (evaluate_budgets_for_month u m y) w).
Proof.
  unfold exec, eval, evaluate_budgets_for_month, bind, gets.
  rewrite get_current_user_run.
  destruct (find _ (users w)) as [user |] eqn:Huser; cbn [fst snd].
  2: { now apply eval_no_user. }
  destruct (get_month_bounds y m) as [err | [s e]] eqn:Hb.
  - rewrite for_rows_raise with (err := err) by assumption.
    pose proof (eval_no_window u m y w user err Huser Hb) as H.
    destruct (existsb (in_scope u m y) (budgets w)); cbn [fst snd modify].
    + exact H.
    + rewrite set_budgets_same. exact H.
  - rewrite for_rows_evaluate with (s := s) (e := e) by assumption.
    cbn [fst snd modify]. apply (eval_done u m y w user s e Huser Hb).
Qed.

(** ** Idempotence of the evaluator *)

Lemma in_scope_set_alert_sent u m y v b :
  in_scope u m y (Budget.set_alert_sent v b) = in_scope u m y b.
Proof. reflexivity. Qed.

Lemma over_limit_set_alert_sent s e txs v b :
  over_limit s e txs (Budget.set_alert_sent v b) = over_limit s e txs b.
Proof. reflexivity. Qed.

Lemma settled_settled u m y s e txs b :
  settled (in_scope u m y) s e txs (settled (in_scope u m y) s e txs b) =
  settled (in_scope u m y) s e txs b.
Proof.
  unfold settled. destruct (in_scope u m y b) eqn:Hsel.
  - now rewrite in_scope_set_alert_sent, Hsel, over_limit_set_alert_sent.
  - now rewrite Hsel.
Qed.

Lemma alerts_of_settled u m y user cats s e txs table :
  alerts_of (in_scope u m y) user cats s e txs
    (map (settled (in_scope u m y) s e txs) table) = [].
Proof.
  unfold alerts_of. induction table as [| b table IH]; [reflexivity |].
  cbn [map filter]. unfold settled at 1 2 3.
  destruct (in_scope u m y b) eqn:Hsel.
  - rewrite in_scope_set_alert_sent, Hsel, over_limit_set_alert_sent.
    cbn [Budget.alert_sent Budget.set_alert_sent].
    destruct (over_limit s e txs b); exact IH.
  - rewrite Hsel. exact IH.
Qed.

Lemma evaluate_twice u m y w :
  let w1 := exec (evaluate_budgets_for_month u m y) w in
  exec (evaluate_budgets_for_month u m y) w1 = w1.
Proof.
  intros w1.
  pose proof (evaluate_budgets_for_month_run u m y w) as H1.
  fold w1 in H1.
  pose proof (evaluate_budgets_for_month_run u m y w1) as H2.
  set (w2 := exec (evaluate_budgets_for_month u m y) w1) in *.
  clearbody w1 w2.
  inversion H1 as [Hu Hw Hr | user err Hu Hb Hw Hr | user s e Hu Hb Hw Hr].
  - rewrite <- Hw in H2.
    inversion H2 as [Hu' Hw' Hr' | user' err' Hu' Hb' Hw' Hr'
                    | user' s' e' Hu' Hb' Hw' Hr']; try congruence.
  - rewrite <- Hw in H2.
    inversion H2 as [Hu' Hw' Hr' | user' err' Hu' Hb' Hw' Hr'
                    | user' s' e' Hu' Hb' Hw' Hr']; try congruence.
  - rewrite <- Hw in H2.
    inversion H2 as [Hu' Hw' Hr' | user' err' Hu' Hb' Hw' Hr'
                    | user' s' e' Hu' Hb' Hw' Hr'];
      cbn [users categories transactions budgets stdout] in *; try congruence.
    assert (user' = user) as -> by congruence.
    assert (s' = s /\ e' = e) as [-> ->] by (split; congruence).
    rewrite alerts_of_settled, app_nil_r, map_map.
    f_equal. apply map_ext. intros b. apply settled_settled.
Qed.

(** C1.  Running [evaluate_budgets_for_month] a second time on the state
    the first run left, for any user, month and year and whatever way the
    first run ended, prints no alert and leaves every budget row, and so
    every [alert_sent] flag, as the first run left it. *)
Theorem evaluate_budgets_for_month_idempotent (user_id month year : Z)
    (w : world) :
  let w1 := exec (evaluate_budgets_for_month user_id month year) w in
  let w2 := exec (evaluate_budgets_for_month user_id month year) w1 in
  stdout w2 = stdout w1 /\
  budgets w2 = budgets w1 /\
  map Budget.alert_sent (budgets w2) = map Budget.alert_sent (budgets w1).
Proof.
  intros w1 w2. unfold w2, w1.
  rewrite (evaluate_twice user_id month year w). auto.
Qed.

(** ** Comparison of floats *)

Lemma SFcompare_refl_not_Lt x : SFcompare x x <> Some Lt.
Proof.
  destruct x as [s | s | | s m e]; cbn; try destruct s; try discriminate;
    rewrite Z.compare_refl, Pos.compare_cont_refl; discriminate.
Qed.

Lemma gt_irrefl x : gt x x = false.
Proof.
  unfold gt, SFltb. pose proof (SFcompare_refl_not_Lt x) as H.
  destruct (SFcompare x x) as [[| |] |]; congruence.
Qed.

Lemma SFcompare_swap x y :
  SFcompare y x = option_map CompOpp (SFcompare x y).
Proof.
  destruct x as [s | s | | s m e], y as [s' | s' | | s' m' e']; cbn;
    try destruct s; try destruct s'; try reflexivity;
    rewrite (Z.compare_antisym e e');
    destruct (e ?= e'); cbn; try reflexivity;
    rewrite (Pos.compare_cont_antisym m m' Eq); cbn;
    now rewrite ?CompOpp_involutive.
Qed.

Lemma le_not_gt x y : le x y = true -> gt x y = false.
Proof.
  unfold le, gt, SFleb, SFltb. rewrite (SFcompare_swap x y).
  destruct (SFcompare x y) as [[| |] |]; cbn; congruence.
Qed.

(** ** Rows and their alerts *)

Lemma pk_unique_inj {R : Type} (id : R -> Z) (rows : list R) (a b : R) :
  pk_unique id rows -> In a rows -> In b rows -> id a = id b -> a = b.
Proof.
  unfold pk_unique. induction rows as [| r rows IH]; cbn; [tauto |].
  intros Hnd [-> | Ha] [-> | Hb] Hid; inversion Hnd as [| ? ? Hnotin Hnd']; subst.
  - reflexivity.
  - exfalso. apply Hnotin. rewrite Hid. now apply in_map.
  - exfalso. apply Hnotin. rewrite <- Hid. now apply in_map.
  - now apply IH.
Qed.

Lemma in_alerts_of sel user cats s e txs table a :
  In a (alerts_of sel user cats s e txs table) ->
  exists b, In b table /\ sel b = true /\ over_limit s e txs b = true
            /\ Budget.alert_sent b = false /\ a = alert_of user cats s e txs b.
Proof.
  unfold alerts_of. rewrite in_map_iff. intros (b & <- & Hin).
  apply filter_In in Hin. destruct Hin as (Hin & Hcond).
  exists b. apply andb_prop in Hcond. destruct Hcond as (Hcond & Hsent).
  apply andb_prop in Hcond. destruct Hcond as (Hsel & Hover).
  apply negb_true_iff in Hsent. auto.
Qed.

Lemma eval_get_current_user w user :
  eval get_current_user w = Ok user ->
  find (fun u => User.id u =? 1) (users w) = Some user.
Proof.
  unfold eval. rewrite get_current_user_run. cbn.
  destruct (find _ (users w)); congruence.
Qed.

Lemma eval_compute_budget_status b w status :
  eval (compute_budget_status b) w = Ok status ->
  exists s e,
    get_month_bounds (Budget.year b) (Budget.month b) = Ok (s, e) /\
    spent status =
      float_of_decimal
        (sum_amount (total_rows "expense" (Budget.user_id b) s e
                       (Budget.category_id b) (transactions w))) /\
    remaining status =
      sub (float_of_decimal (Budget.limit_amount b)) (spent status).
Proof.
  unfold eval. rewrite compute_budget_status_run. cbn.
  destruct (get_month_bounds _ _) as [err | [s e]]; [discriminate |].
  intros H. injection H as <-. exists s, e. auto.
Qed.

(** What a pass does to one budget of its scope: the flag becomes the
    outcome of the comparison, and an alert is printed for the budget
    exactly when the comparison holds and the flag was not set. *)
Lemma evaluate_in_scope (user_id month year : Z) (w : world) (i : nat)
    (b : Budget.t) (user : User.t) (status : budget_status) :
  pk_unique Budget.id (budgets w) ->
  nth_error (budgets w) i = Some b ->
  in_scope user_id month year b = true ->
  eval get_current_user w = Ok user ->
  eval (compute_budget_status b) w = Ok status ->
  let over := gt (spent status) (float_of_decimal (Budget.limit_amount b)) in
  let w' := exec (evaluate_budgets_for_month user_id month year) w in
  nth_error (budgets w') i = Some (Budget.set_alert_sent over b) /\
  exists printed,
    stdout w' = stdout w ++ printed /\
    ((exists a, In a printed /\ alert_budget a = Budget.id b)
     <-> over = true /\ Budget.alert_sent b = false).
Proof.
  intros Hpk Hi Hsel Huser Hstatus over w'.
  apply eval_get_current_user in Huser.
  apply eval_compute_budget_status in Hstatus.
  destruct Hstatus as (s & e & Hb & Hspent & _).
  destruct (in_scope_true _ _ _ _ Hsel) as (_ & Hm & Hy).
  rewrite Hm, Hy in Hb.
  assert (Hover : over_limit s e (transactions w) b = over).
  { unfold over_limit, over. now rewrite <- Hspent. }
  pose proof (evaluate_budgets_for_month_run user_id month year w) as H.
  fold w' in H. clearbody w' over.
  inversion H as [Hu Hw Hr | user' err Hu Hb' Hw Hr | user' s' e' Hu Hb' Hw Hr];
    try congruence.
  assert (s' = s /\ e' = e) as [-> ->] by (split; congruence).
  cbn [stdout budgets]. split.
  - rewrite nth_error_map, Hi. cbn. unfold settled.
    now rewrite Hsel, Hover.
  - eexists. split; [reflexivity |]. split.
    + intros (a & Ha & Hid). apply in_alerts_of in Ha.
      destruct Ha as (b' & Hin & _ & Hover' & Hsent' & ->). cbn in Hid.
      assert (b' = b) as ->.
      { apply (pk_unique_inj Budget.id (budgets w)); auto.
        eapply nth_error_In; eassumption. }
      split; congruence.
    + intros (Hover' & Hsent).
      exists (alert_of user' (categories w) s e (transactions w) b).
      split; [| reflexivity].
      unfold alerts_of. apply in_map. apply filter_In.
      split; [eapply nth_error_In; eassumption |].
      now rewrite Hsel, Hover, Hover', Hsent.
Qed.

(** ** The strict comparison *)

(** C2.  The over-limit test of the evaluator is the strict comparison
    [spent > limit_amount] on floats: a pass sets the flag of every budget
    of its scope to the outcome of that comparison and prints an alert for
    it exactly when the comparison holds and the flag was not set.  With
    [spent] equal to the limit the comparison is false: no alert is
    printed for the budget and its row ends with [alert_sent] false. *)
Theorem spent_equal_to_limit_is_not_over (user_id month year : Z) (w : world)
    (i : nat) (b : Budget.t) (user : User.t) (status : budget_status) :
  pk_unique Budget.id (budgets w) ->
  nth_error (budgets w) i = Some b ->
  in_scope user_id month year b = true ->
  eval get_current_user w = Ok user ->
  eval (compute_budget_status b) w = Ok status ->
  let over := gt (spent status) (float_of_decimal (Budget.limit_amount b)) in
  let w' := exec (evaluate_budgets_for_month user_id month year) w in
  nth_error (budgets w') i = Some (Budget.set_alert_sent over b) /\
  (exists printed,
      stdout w' = stdout w ++ printed /\
      ((exists a, In a printed /\ alert_budget a = Budget.id b)
       <-> over = true /\ Budget.alert_sent b = false)) /\
  (spent status = float_of_decimal (Budget.limit_amount b) ->
   over = false /\
   nth_error (budgets w') i = Some (Budget.set_alert_sent false b) /\
   exists printed,
     stdout w' = stdout w ++ printed /\
     forall a, In a printed -> alert_budget a <> Budget.id b).
Proof.
  intros Hpk Hi Hsel Huser Hstatus over w'.
  destruct (evaluate_in_scope user_id month year w i b user status)
    as (Hrow & printed & Hout & Halert); auto.
  fold over w' in Hrow, Hout, Halert.
  split; [exact Hrow |]. split; [now exists printed |].
  intros Heq.
  assert (Hover : over = false) by (unfold over; rewrite Heq; apply gt_irrefl).
  split; [exact Hover |]. split; [now rewrite <- Hover |].
  exists printed. split; [exact Hout |].
  intros a Ha Hid.
  destruct (proj1 Halert (ex_intro _ a (conj Ha Hid))) as (Htrue & _).
  congruence.
Qed.

Lemma spent_equal_to_limit_is_not_over_witness :
  let w := Demo.world_with [Demo.expense 1 10000 (mkdate 2024 6 5)] false in
  let w' := exec (evaluate_budgets_for_month 1 6 2024) w in
  nth_error (budgets w') 0 = Some (Demo.june_budget false) /\
  exists printed,
    stdout w' = stdout w ++ printed /\
    forall a, In a printed -> alert_budget a <> 1.
Proof.
  intros w.
  destruct (spent_equal_to_limit_is_not_over 1 6 2024 w 0
              (Demo.june_budget false) Demo.user
              (mk_budget_status (float_of_decimal 10000)
                 (sub (float_of_decimal 10000) (float_of_decimal 10000))))
    as (_ & _ & Hequal).
  - repeat constructor. intros [].
  - reflexivity.
  - reflexivity.
  - reflexivity.
  - reflexivity.
  - destruct Hequal as (_ & Hrow & Hprinted); [reflexivity |].
    split; [exact Hrow | exact Hprinted].
Defined.

(** ** Resetting the flag *)

(** C3.  For a budget of the evaluated scope with [alert_sent] true whose
    recomputed [spent] is at or below its limit, the evaluation leaves its
    row with [alert_sent] false and prints nothing for it; alerts are the
    only thing the evaluator ever prints. *)
Theorem alert_sent_reset_when_not_over (user_id month year : Z) (w : world)
    (i : nat) (b : Budget.t) (user : User.t) (status : budget_status) :
  pk_unique Budget.id (budgets w) ->
  nth_error (budgets w) i = Some b ->
  in_scope user_id month year b = true ->
  Budget.alert_sent b = true ->
  eval get_current_user w = Ok user ->
  eval (compute_budget_status b) w = Ok status ->
  le (spent status) (float_of_decimal (Budget.limit_amount b)) = true ->
  let w' := exec (evaluate_budgets_for_month user_id month year) w in
  (exists b', nth_error (budgets w') i = Some b' /\
              Budget.alert_sent b' = false /\
              b' = Budget.set_alert_sent false b) /\
  (exists printed,
      stdout w' = stdout w ++ printed /\
      forall a, In a printed -> alert_budget a <> Budget.id b).
Proof.
  intros Hpk Hi Hsel Hsent Huser Hstatus Hle w'.
  destruct (evaluate_in_scope user_id month year w i b user status)
    as (Hrow & printed & Hout & Halert); auto.
  fold w' in Hrow, Hout. rewrite (le_not_gt _ _ Hle) in Hrow, Halert.
  split.
  - exists (Budget.set_alert_sent false b). auto.
  - exists printed. split; [exact Hout |].
    intros a Ha Hid.
    destruct (proj1 Halert (ex_intro _ a (conj Ha Hid))) as (Htrue & _).
    discriminate.
Qed.

Lemma alert_sent_reset_when_not_over_witness :
  let w := Demo.world_with [Demo.expense 1 5000 (mkdate 2024 6 5)] true in
  let w' := exec (evaluate_budgets_for_month 1 6 2024) w in
  (exists b', nth_error (budgets w') 0 = Some b' /\
              Budget.alert_sent b' = false /\
              b' = Budget.set_alert_sent false (Demo.june_budget true)) /\
  (exists printed,
      stdout w' = stdout w ++ printed /\
      forall a, In a printed -> alert_budget a <> 1).
Proof.
  intros w.
  apply (alert_sent_reset_when_not_over 1 6 2024 w 0 (Demo.june_budget true)
           Demo.user
           (mk_budget_status (float_of_decimal 5000)
              (sub (float_of_decimal 10000) (float_of_decimal 5000)))).
  - repeat constructor. intros [].
  - reflexivity.
  - reflexivity.
  - reflexivity.
  - reflexivity.
  - reflexivity.
  - vm_compute. reflexivity.
Defined.

(** ** The month window *)

Lemma days_in_month_bounds y m : 28 <= days_in_month y m <= 31.
Proof.
  unfold days_in_month.
  destruct (m =? 2); [destruct (is_leap y); lia |].
  destruct ((m =? 4) || (m =? 6) || (m =? 9) || (m =? 11)); lia.
Qed.

Lemma date_new_ok y m d :
  1 <= y <= 9999 -> 1 <= m <= 12 -> 1 <= d <= days_in_month y m ->
  date_new y m d = Ok (mkdate y m d).
Proof.
  intros Hy Hm Hd. unfold date_new, MINYEAR, MAXYEAR.
  destruct ((1 <=? y) && (y <=? 9999) && (1 <=? m) && (m <=? 12)
            && (1 <=? d) && (d <=? days_in_month y m)) eqn:E;
    [reflexivity | lia].
Qed.

Lemma valid_date_bounds d :
  valid_date d ->
  1 <= year d <= 9999 /\ 1 <= month d <= 12 /\
  1 <= day d <= days_in_month (year d) (month d).
Proof.
  unfold valid_date, date_new, MINYEAR, MAXYEAR.
  destruct ((1 <=? year d) && (year d <=? 9999) && (1 <=? month d)
            && (month d <=? 12) && (1 <=? day d)
            && (day d <=? days_in_month (year d) (month d))) eqn:E;
    [intros _; lia | discriminate].
Qed.

Lemma get_month_bounds_ok y m :
  1 <= y <= 9999 -> 1 <= m <= 12 -> (y, m) <> (9999, 12) ->
  get_month_bounds y m =
  Ok (mkdate y m 1,
      if m =? 12 then mkdate (y + 1) 1 1 else mkdate y (m + 1) 1).
Proof.
  intros Hy Hm Hne. unfold get_month_bounds.
  pose proof (days_in_month_bounds y m).
  rewrite (date_new_ok y m 1) by lia.
  destruct (m =? 12) eqn:E.
  - assert (y <> 9999) by (intros ->; apply Hne; f_equal; lia).
    pose proof (days_in_month_bounds (y + 1) 1).
    now rewrite (date_new_ok (y + 1) 1 1) by lia.
  - pose proof (days_in_month_bounds y (m + 1)).
    now rewrite (date_new_ok y (m + 1) 1) by lia.
Qed.

(** Inside the window of (y, m) are exactly the dates of that month. *)
Lemma in_window_iff y m d :
  1 <= m <= 12 -> 1 <= month d <= 12 -> 1 <= day d ->
  in_window (mkdate y m 1)
    (if m =? 12 then mkdate (y + 1) 1 1 else mkdate y (m + 1) 1) d = true
  <-> year d = y /\ month d = m.
Proof.
  intros Hm Hdm Hdd. destruct d as [dy dm dd]. cbn [year month day] in *.
  unfold in_window, date_leb, date_ltb, date_compare.
  destruct (m =? 12) eqn:E; cbn [year month day];
    destruct (Z.compare_spec y dy), (Z.compare_spec m dm),
      (Z.compare_spec 1 dd); cbn;
    repeat match goal with
           | |- context [?a ?= ?b] => destruct (Z.compare_spec a b); cbn
           end;
    split; intros; try discriminate; try lia.
Qed.

(** C4, as the code has it.  For every year in 1..9999 and month in 1..12
    other than December 9999, [get_month_bounds] returns the first day of
    the month and the first day of the following month, which for
    December is January 1 of the next year; the last day of the month is
    inside the window and the first day of the following month is not, and
    a calendar date is inside the window exactly when it is a date of
    that month. *)
Theorem get_month_bounds_window (y m : Z) :
  1 <= y <= 9999 -> 1 <= m <= 12 -> (y, m) <> (9999, 12) ->
  exists start end_,
    get_month_bounds y m = Ok (start, end_) /\
    start = mkdate y m 1 /\
    end_ = (if m =? 12 then mkdate (y + 1) 1 1 else mkdate y (m + 1) 1) /\
    valid_date (mkdate y m (days_in_month y m)) /\
    in_window start end_ (mkdate y m (days_in_month y m)) = true /\
    in_window start end_ end_ = false /\
    forall d, valid_date d ->
              (in_window start end_ d = true <-> year d = y /\ month d = m).
Proof.
  intros Hy Hm Hne. pose proof (days_in_month_bounds y m) as Hdays.
  eexists _, _. split; [apply get_month_bounds_ok; assumption |].
  split; [reflexivity |]. split; [reflexivity |].
  split; [| split; [| split]].
  - unfold valid_date. cbn [year month day]. apply date_new_ok; lia.
  - apply in_window_iff; cbn [year month day]; lia.
  - destruct (in_window _ _ _) eqn:E; [| reflexivity].
    apply in_window_iff in E; destruct (m =? 12) eqn:E12;
      cbn [year month day] in *; lia.
  - intros d Hd. apply valid_date_bounds in Hd.
    apply in_window_iff; lia.
Qed.

Lemma get_month_bounds_window_witness :
  exists start end_,
    get_month_bounds 2024 12 = Ok (start, end_) /\
    start = mkdate 2024 12 1 /\
    end_ = mkdate 2025 1 1 /\
    valid_date (mkdate 2024 12 31) /\
    in_window start end_ (mkdate 2024 12 31) = true /\
    in_window start end_ end_ = false /\
    forall d, valid_date d ->
              (in_window start end_ d = true <-> year d = 2024 /\ month d = 12).
Proof.
  apply (get_month_bounds_window 2024 12); [lia | lia | discriminate].
Defined.

(** C4 as stated fails in December 9999: the month exists, its window
    would end on January 1 of the year 10000, which [date] refuses, so
    the function raises; the summary route reaches it with these
    arguments. *)
Lemma get_month_bounds_december_9999 :
  date_new 9999 12 1 = Ok (mkdate 9999 12 1) /\
  get_month_bounds 9999 12 = Raise ValueError /\
  eval (monthly_summary Demo.today (Some 12) (Some 9999))
    (Demo.world_with [] false) = Raise ValueError.
Proof. repeat split. Qed.

(** ** What an evaluation leaves alone *)

Lemma evaluate_frame u m y w :
  let w' := exec (evaluate_budgets_for_month u m y) w in
  users w' = users w /\ categories w' = categories w /\
  transactions w' = transactions w /\
  (forall i b, nth_error (budgets w) i = Some b ->
               in_scope u m y b = false ->
               nth_error (budgets w') i = Some b) /\
  (exists printed,
      stdout w' = stdout w ++ printed /\
      forall a, In a printed -> alert_month a = m /\ alert_year a = y).
Proof.
  intros w'. pose proof (evaluate_budgets_for_month_run u m y w) as H.
  fold w' in H. set (r := eval _ w) in H. clearbody w' r.
  destruct H as [Hu | user err Hu Hb | user s e Hu Hb].
  1, 2: repeat split; auto; exists [];
        (split; [now rewrite app_nil_r | intros a []]).
  cbn [users categories transactions budgets stdout].
  repeat split.
  - intros i b Hi Hsel. rewrite nth_error_map, Hi. cbn.
    unfold settled. now rewrite Hsel.
  - eexists. split; [reflexivity |].
    intros a Ha. apply in_alerts_of in Ha.
    destruct Ha as (b & _ & Hsel & _ & _ & ->). cbn.
    apply in_scope_true in Hsel. tauto.
Qed.

Lemma nth_error_update_first {R : Type} (sel : R -> bool) (f : R -> R)
    (rows : list R) : forall i r,
  nth_error rows i = Some r -> sel r = false ->
  nth_error (update_first sel f rows) i = Some r.
Proof.
  induction rows as [| r0 rows IH]; intros [| i] r Hi Hsel; cbn in *;
    try discriminate.
  - injection Hi as ->. now rewrite Hsel.
  - destruct (sel r0); cbn; auto.
Qed.

Lemma eval_get_current_user_id w uid :
  eval get_current_user_id w = Ok uid ->
  exists user, find (fun u => User.id u =? 1) (users w) = Some user /\
               User.id user = uid.
Proof.
  unfold eval, get_current_user_id, bind. rewrite get_current_user_run.
  destruct (find _ (users w)) as [user |]; cbn; [| discriminate].
  intros H. injection H as <-. now exists user.
Qed.

Lemma update_transaction_run today transaction_id payload w uid t data :
  eval get_current_user_id w = Ok uid ->
  find (transaction_is transaction_id uid) (transactions w) = Some t ->
  parse_transaction_payload today payload = Ok data ->
  exec (update_transaction today transaction_id payload) w =
  exec (evaluate_budgets_for_month (Transaction.user_id t)
          (Calendar.month (d_transaction_date data))
          (Calendar.year (d_transaction_date data)))
    (set_transactions
       (update_first (transaction_is transaction_id uid)
          (set_transaction_data data) (transactions w)) w).
Proof.
  intros Huid Ht Hdata.
  apply eval_get_current_user_id in Huid. destruct Huid as (user & Hu & <-).
  unfold exec, update_transaction, get_current_user_id, bind, gets.
  rewrite get_current_user_run, Hu. cbn [ret]. rewrite Ht.
  unfold lift, modify. rewrite Hdata.
  unfold evaluate_budgets_for_transaction. cbn [set_transaction_data
    Transaction.user_id Transaction.transaction_date].
  now destruct (evaluate_budgets_for_month _ _ _ _) as [w' [err | []]].
Qed.

(** ** Moving a transaction to another month *)



(** ** Handlers that only read *)

Lemma read_only_ret {A : Type} (a : A) : read_only (ret a).
Proof. intros w. reflexivity. Qed.

Lemma read_only_gets {A : Type} (f : world -> A) : read_only (gets f).
Proof. intros w. reflexivity. Qed.

Lemma read_only_lift {A : Type} (r : result A) : read_only (lift r).
Proof. intros w. reflexivity. Qed.

Lemma read_only_bind {A B : Type} (m : M A) (k : A -> M B) :
  read_only m -> (forall a, read_only (k a)) -> read_only (bind m k).
Proof.
  intros Hm Hk w. specialize (Hm w). unfold exec, bind in *.
  destruct (m w) as [w' [err | a]]; cbn in *; subst; [reflexivity |].
  apply Hk.
Qed.

Lemma read_only_get_current_user : read_only get_current_user.
Proof. intros w. unfold exec. now rewrite get_current_user_run. Qed.

Lemma read_only_get_expense_total u m y c :
  read_only (get_expense_total u m y c).
Proof. intros w. unfold exec. now rewrite get_expense_total_run. Qed.

Lemma read_only_get_income_total u m y : read_only (get_income_total u m y).
Proof. intros w. unfold exec. now rewrite get_income_total_run. Qed.

Lemma read_only_compute_budget_status b : read_only (compute_budget_status b).
Proof. intros w. unfold exec. now rewrite compute_budget_status_run. Qed.

Lemma read_only_mapM {A B : Type} (f : A -> M B) (xs : list A) :
  (forall x, read_only (f x)) -> read_only (mapM f xs).
Proof.
  intros Hf. induction xs as [| x xs IH]; cbn [mapM].
  - apply read_only_ret.
  - apply read_only_bind; [apply Hf |]. intros y.
    apply read_only_bind; [exact IH |]. intros ys. apply read_only_ret.
Qed.

Create HintDb read_only.
#[local] Hint Resolve read_only_ret read_only_gets read_only_lift
  read_only_get_current_user read_only_get_expense_total
  read_only_get_income_total read_only_compute_budget_status : read_only.

Lemma read_only_monthly_summary today arg_month arg_year :
  read_only (monthly_summary today arg_month arg_year).
Proof.
  unfold monthly_summary, get_current_user_id.
  repeat first
    [ solve [auto with read_only]
    | apply read_only_mapM; intros ?
    | match goal with |- read_only (match ?p with (_, _) => _ end) =>
        destruct p
      end
    | apply read_only_bind; [| intros ?] ].
Qed.

(** C8.  GET /api/summary/monthly writes nothing: whatever the state, the
    arguments and the outcome, the state after the handler is the state
    before it, so every stored transaction, budget and category, every
    [alert_sent] flag and the printed output are unchanged. *)
Theorem monthly_summary_is_read_only (today : date)
    (arg_month arg_year : option Z) (w : world) :
  let w' := exec (monthly_summary today arg_month arg_year) w in
  w' = w /\
  transactions w' = transactions w /\
  budgets w' = budgets w /\
  categories w' = categories w /\
  map Budget.alert_sent (budgets w') = map Budget.alert_sent (budgets w) /\
  stdout w' = stdout w.
Proof.
  intros w'. unfold w'.
  rewrite (read_only_monthly_summary today arg_month arg_year w). tauto.
Qed.

(** ** The categories of the summary *)

Lemma insert_by_name_perm c cs : Permutation (insert_by_name c cs) (c :: cs).
Proof.
  induction cs as [| c' cs IH]; cbn; [reflexivity |].
  destruct (String.leb (Category.name c) (Category.name c')); [reflexivity |].
  rewrite IH. apply perm_swap.
Qed.

Lemma order_by_name_perm cs : Permutation (order_by_name cs) cs.
Proof.
  induction cs as [| c cs IH]; cbn; [reflexivity |].
  rewrite insert_by_name_perm. now constructor.
Qed.

Lemma count_perm {R : Type} (p : R -> bool) (l l' : list R) :
  Permutation l l' -> List.length (filter p l) = List.length (filter p l').
Proof.
  induction 1 as [| x l l' _ IH | x y l | l l' l'' _ IH1 _ IH2]; cbn.
  - reflexivity.
  - destruct (p x); cbn; now rewrite IH.
  - destruct (p x), (p y); reflexivity.
  - now rewrite IH1.
Qed.

Lemma count_map {R S : Type} (g : R -> S) (p : S -> bool) (l : list R) :
  List.length (filter p (map g l)) = List.length (filter (fun r => p (g r)) l).
Proof.
  induction l as [| r l IH]; cbn; [reflexivity |].
  destruct (p (g r)); cbn; now rewrite IH.
Qed.

Lemma pk_unique_filter {R : Type} (id : R -> Z) (p : R -> bool) (l : list R) :
  pk_unique id l -> pk_unique id (filter p l).
Proof.
  unfold pk_unique. induction l as [| r l IH]; cbn; [auto |].
  intros Hnd. inversion Hnd as [| ? ? Hnotin Hnd']; subst.
  destruct (p r); cbn; [constructor |]; auto.
  rewrite in_map_iff in *. intros (r' & Hid & Hin).
  apply Hnotin. exists r'. apply filter_In in Hin. tauto.
Qed.

Lemma pk_unique_count {R : Type} (id : R -> Z) (l : list R) (r : R) :
  pk_unique id l -> In r l ->
  List.length (filter (fun r' => id r' =? id r) l) = 1%nat.
Proof.
  unfold pk_unique. induction l as [| r0 l IH]; cbn; [tauto |].
  intros Hnd Hin. inversion Hnd as [| ? ? Hnotin Hnd']; subst.
  destruct Hin as [-> | Hin].
  - rewrite Z.eqb_refl. cbn. f_equal.
    rewrite (proj2 (length_zero_iff_nil _)); [reflexivity |].
    destruct (filter _ l) as [| r' rest] eqn:E; [reflexivity |].
    exfalso. assert (Hr' : In r' (filter (fun r' => id r' =? id r) l))
      by (rewrite E; now left).
    apply filter_In in Hr'. destruct Hr' as (Hr' & Hid).
    apply Hnotin. apply Z.eqb_eq in Hid. rewrite <- Hid. now apply in_map.
  - destruct (id r0 =? id r) eqn:E; [| now apply IH].
    exfalso. apply Hnotin. apply Z.eqb_eq in E. rewrite E. now apply in_map.
Qed.

Lemma eval_monthly_summary today arg_month arg_year w resp :
  eval (monthly_summary today arg_month arg_year) w = Ok resp ->
  exists user start end_,
    find (fun u => User.id u =? 1) (users w) = Some user /\
    get_month_bounds (arg_or arg_year (Calendar.year today))
      (arg_or arg_month (Calendar.month today)) = Ok (start, end_) /\
    s_by_category resp =
      by_category (User.id user) start end_ (categories w) (transactions w).
Proof.
  unfold eval, monthly_summary, get_current_user_id, bind at 1 2.
  rewrite get_current_user_run.
  destruct (find _ (users w)) as [user |]; [| discriminate].
  cbn [ret]. unfold bind at 1, lift.
  destruct (get_month_bounds _ _) as [err | [start end_]] eqn:Hb;
    [discriminate |].
  unfold bind at 1. rewrite get_income_total_run, Hb.
  unfold bind at 1. rewrite get_expense_total_run, Hb.
  unfold bind at 1 2 3, gets.
  unfold bind.
  destruct (mapM _ _ w) as [w' [err | payload]]; cbn; [discriminate |].
  intros H. injection H as <-. exists user, start, end_. auto.
Qed.

(** C6.  The per-category breakdown of a monthly summary has exactly one
    entry for each category of the user, carrying its id, name and type;
    for a category none of whose transactions falls in the month window
    that entry is there all the same, with total 0. *)
Theorem monthly_summary_lists_every_category (today : date)
    (arg_month arg_year : option Z) (w : world) (uid : Z) (resp : summary)
    (start end_ : date) (c : Category.t) :
  pk_unique Category.id (categories w) ->
  eval get_current_user_id w = Ok uid ->
  eval (monthly_summary today arg_month arg_year) w = Ok resp ->
  get_month_bounds (arg_or arg_year (Calendar.year today))
    (arg_or arg_month (Calendar.month today)) = Ok (start, end_) ->
  In c (categories w) ->
  Category.user_id c = Some uid ->
  List.length (filter (fun row => ct_category_id row =? Category.id c)
            (s_by_category resp)) = 1%nat /\
  exists row,
    In row (s_by_category resp) /\
    ct_category_id row = Category.id c /\
    ct_category_name row = Category.name c /\
    ct_type row = Category.type c /\
    ((forall t, In t (transactions w) ->
                Transaction.category_id t = Some (Category.id c) ->
                in_window start end_ (Transaction.transaction_date t) = false) ->
     ct_total row = float_of_decimal 0).
Proof.
  intros Hpk Huid Hresp Hb Hin Hown.
  apply eval_get_current_user_id in Huid. destruct Huid as (user & Hu & <-).
  apply eval_monthly_summary in Hresp.
  destruct Hresp as (user' & s' & e' & Hu' & Hb' & ->).
  assert (user' = user) as -> by congruence.
  assert (s' = start /\ e' = end_) as [-> ->] by (split; congruence).
  set (owned := filter (fun c => opt_eqb (Category.user_id c) (User.id user))
                  (categories w)).
  assert (Hc : In c owned).
  { apply filter_In. split; [assumption |]. rewrite Hown. cbn. apply Z.eqb_refl. }
  unfold by_category. fold owned. split.
  - rewrite count_map. cbn [ct_category_id].
    rewrite (count_perm _ _ _ (order_by_name_perm owned)).
    apply pk_unique_count; [now apply pk_unique_filter | assumption].
  - eexists. split.
    + apply in_map. apply (Permutation_in c (Permutation_sym (order_by_name_perm owned))).
      exact Hc.
    + cbn. repeat split. intros Hnone.
      replace (joined (User.id user) start end_ c (transactions w)) with
        (@nil Transaction.t); [reflexivity |].
      symmetry. unfold joined.
      induction (transactions w) as [| t txs IH]; cbn; [reflexivity |].
      rewrite IH by (intros; apply Hnone; cbn; auto).
      destruct (Transaction.category_id t) as [k |] eqn:Hk; cbn; [| reflexivity].
      destruct (k =? Category.id c) eqn:E; cbn; [| reflexivity].
      apply Z.eqb_eq in E. subst k.
      rewrite (Hnone t) by (cbn; auto).
      now rewrite andb_false_r.
Qed.

Lemma monthly_summary_lists_every_category_witness :
  let w := Demo.world_with [Demo.expense 1 5000 (mkdate 2024 6 5)] false in
  exists resp, eval (monthly_summary Demo.today None None) w = Ok resp /\
  List.length (filter (fun row => ct_category_id row =? 2) (s_by_category resp))
    = 1%nat /\
  exists row,
    In row (s_by_category resp) /\
    ct_category_id row = 2 /\
    ct_category_name row = "Housing" /\
    ct_type row = "expense" /\
    ((forall t, In t (transactions w) ->
                Transaction.category_id t = Some 2 ->
                in_window (mkdate 2024 6 1) (mkdate 2024 7 1)
                  (Transaction.transaction_date t) = false) ->
     ct_total row = S754_zero false).
Proof.
  intros w. eexists. split; [reflexivity |].
  apply (monthly_summary_lists_every_category Demo.today None None w 1 _
           (mkdate 2024 6 1) (mkdate 2024 7 1) Demo.rent).
  - repeat constructor; cbn; intuition discriminate.
  - reflexivity.
  - reflexivity.
  - reflexivity.
  - cbn. auto.
  - reflexivity.
Defined.

(** ** What the transaction routes accept *)

Lemma in_update_first {R : Type} (sel : R -> bool) (f : R -> R)
    (rows : list R) (r : R) :
  find sel rows = Some r -> In (f r) (update_first sel f rows).
Proof.
  induction rows as [| r0 rows IH]; cbn; [discriminate |].
  destruct (sel r0).
  - intros H. injection H as ->. now left.
  - intros H. right. auto.
Qed.

Lemma create_transaction_run today new_id payload w uid data :
  eval get_current_user_id w = Ok uid ->
  parse_transaction_payload today payload = Ok data ->
  let transaction :=
    Transaction.mk new_id uid (d_category_id data) (d_amount data)
      (d_type data) (d_description data) (d_transaction_date data) in
  exec (create_transaction today new_id payload) w =
  exec (evaluate_budgets_for_transaction transaction)
    (set_transactions (transactions w ++ [transaction]) w).
Proof.
  intros Huid Hdata transaction.
  apply eval_get_current_user_id in Huid. destruct Huid as (user & Hu & <-).
  unfold exec, create_transaction, get_current_user_id, bind.
  rewrite get_current_user_run, Hu. cbn [ret].
  unfold lift, modify. rewrite Hdata. fold transaction.
  now destruct (evaluate_budgets_for_transaction transaction _)
    as [w' [err | []]].
Qed.

Lemma parse_transaction_payload_amount today payload a :
  p_amount payload = Some a ->
  valid_type (p_type payload) = true ->
  (p_transaction_date payload = None \/
   p_transaction_date payload = Some EmptyString \/
   exists s d, p_transaction_date payload = Some s /\ fromisoformat s = Ok d) ->
  exists data,
    parse_transaction_payload today (Some payload) = Ok data /\
    d_amount data = a.
Proof.
  intros Ha Htype Hdate. unfold parse_transaction_payload. rewrite Ha.
  destruct (p_type payload) as [tx_type |]; [| discriminate].
  rewrite Htype.
  destruct Hdate as [-> | [-> | (s & d & -> & Hd)]].
  - eexists. split; reflexivity.
  - eexists. split; reflexivity.
  - destruct s as [| c s]; [eexists; split; reflexivity |].
    rewrite Hd. eexists. split; reflexivity.
Qed.

Lemma parse_transaction_payload_no_amount today payload :
  p_amount payload = None ->
  parse_transaction_payload today (Some payload) = Raise (HTTPException 400).
Proof. intros Ha. unfold parse_transaction_payload. now rewrite Ha. Qed.

(** C9, as the code has it.  The transaction routes check that [amount]
    is present, and not its sign.  Without an amount POST and PUT answer
    400.  With an amount of either sign that the column can hold
    ([Numeric(10, 2)]), a category that is null or has a row, a type of
    income or expense and a date that is absent, empty or of the form
    [YYYY-MM-DD], the payload is accepted and the row is stored with
    exactly that amount. *)
Theorem transaction_amount_is_only_required (today : date)
    (payload : transaction_payload) (w : world) (uid new_id : Z) :
  eval get_current_user_id w = Ok uid ->
  (p_amount payload = None ->
   eval (create_transaction today new_id (Some payload)) w
     = Raise (HTTPException 400) /\
   forall id t,
     find (transaction_is id uid) (transactions w) = Some t ->
     eval (update_transaction today id (Some payload)) w
       = Raise (HTTPException 400)) /\
  (forall a,
     p_amount payload = Some a ->
     numeric_10_2 a ->
     category_ref w (p_category_id payload) ->
     valid_type (p_type payload) = true ->
     (p_transaction_date payload = None \/
      p_transaction_date payload = Some EmptyString \/
      exists s d, p_transaction_date payload = Some s /\ fromisoformat s = Ok d) ->
     exists data,
       parse_transaction_payload today (Some payload) = Ok data /\
       d_amount data = a /\
       In (Transaction.mk new_id uid (d_category_id data) a (d_type data)
             (d_description data) (d_transaction_date data))
          (transactions
             (exec (create_transaction today new_id (Some payload)) w)) /\
       forall id t,
         find (transaction_is id uid) (transactions w) = Some t ->
         Transaction.amount (set_transaction_data data t) = a /\
         In (set_transaction_data data t)
            (transactions
               (exec (update_transaction today id (Some payload)) w))).
Proof.
  intros Huid. split.
  - intros Ha. pose proof (parse_transaction_payload_no_amount today payload Ha)
      as Hparse.
    apply eval_get_current_user_id in Huid. destruct Huid as (user & Hu & <-).
    split.
    + unfold eval, create_transaction, get_current_user_id, bind.
      rewrite get_current_user_run, Hu. cbn [ret]. unfold lift.
      now rewrite Hparse.
    + intros id t Ht.
      unfold eval, update_transaction, get_current_user_id, bind, gets.
      rewrite get_current_user_run, Hu. cbn [ret]. rewrite Ht. unfold lift.
      now rewrite Hparse.
  - intros a Ha _ _ Htype Hdate.
    destruct (parse_transaction_payload_amount today payload a Ha Htype Hdate)
      as (data & Hparse & Hamount).
    exists data. split; [assumption |]. split; [assumption |]. split.
    + rewrite (create_transaction_run _ _ _ _ _ _ Huid Hparse).
      unfold evaluate_budgets_for_transaction.
      match goal with |- context [exec (evaluate_budgets_for_month ?u ?m ?y) ?w0] =>
        destruct (evaluate_frame u m y w0) as (_ & _ & -> & _)
      end.
      cbn [transactions set_transactions]. rewrite Hamount.
      apply in_or_app. right. now left.
    + intros id t Ht. split; [exact Hamount |].
      rewrite (update_transaction_run _ _ _ _ _ _ _ Huid Ht Hparse).
      match goal with |- context [exec (evaluate_budgets_for_month ?u ?m ?y) ?w0] =>
        destruct (evaluate_frame u m y w0) as (_ & _ & -> & _)
      end.
      cbn [transactions set_transactions]. now apply in_update_first.
Qed.

Lemma transaction_amount_is_only_required_witness :
  let w := Demo.world_with [Demo.expense 1 5000 (mkdate 2024 6 5)] false in
  In (Demo.expense 2 (-500) (mkdate 2024 6 7))
     (transactions
        (exec (create_transaction Demo.today 2 (Demo.payload (-500) "2024-06-07"))
           w)) /\
  In (Demo.expense 1 (-500) (mkdate 2024 6 7))
     (transactions
        (exec (update_transaction Demo.today 1 (Demo.payload (-500) "2024-06-07"))
           w)).
Proof.
  intros w.
  destruct (transaction_amount_is_only_required Demo.today
              (mk_transaction_payload (Some (-500)) (Some "expense") (Some 1) None
                 (Some "2024-06-07"))
              w 1 2)
    as (_ & Haccepted).
  - reflexivity.
  - destruct (Haccepted (-500)) as (data & Hparse & _ & Hcreate & Hupdate).
    + reflexivity.
    + unfold numeric_10_2. cbn. lia.
    + left. reflexivity.
    + reflexivity.
    + right. right. exists "2024-06-07", (mkdate 2024 6 7). split; reflexivity.
    + injection Hparse as <-. split; [exact Hcreate |].
      apply (Hupdate 1 (Demo.expense 1 5000 (mkdate 2024 6 5))). reflexivity.
Defined.

(** C9 as stated fails: a payload with the amount -5.00 is answered 201 by
    POST and 200 by PUT, and the row is stored with that amount. *)
Lemma negative_amount_is_stored :
  let w := Demo.world_with [Demo.expense 1 5000 (mkdate 2024 6 5)] false in
  let post := create_transaction Demo.today 2 (Demo.payload (-500) "2024-06-07") in
  let put := update_transaction Demo.today 1 (Demo.payload (-500) "2024-06-07") in
  eval post w = Ok (201, Demo.expense 2 (-500) (mkdate 2024 6 7)) /\
  transactions (exec post w)
    = [Demo.expense 1 5000 (mkdate 2024 6 5);
       Demo.expense 2 (-500) (mkdate 2024 6 7)] /\
  eval put w = Ok (200, Demo.expense 1 (-500) (mkdate 2024 6 7)) /\
  transactions (exec put w) = [Demo.expense 1 (-500) (mkdate 2024 6 7)] /\
  Transaction.amount (Demo.expense 2 (-500) (mkdate 2024 6 7)) < 0.
Proof. repeat split. Qed.

(** ** Moving a budget to another month *)

Lemma read_only_refresh b : read_only (refresh b).
Proof.
  intros w. unfold exec, refresh, bind, gets.
  now destruct (find _ (budgets w)).
Qed.

Lemma update_budget_run budget_id payload w uid b0 data :
  eval get_current_user_id w = Ok uid ->
  find (budget_is budget_id uid) (budgets w) = Some b0 ->
  parse_budget_payload payload = Ok data ->
  exec (update_budget budget_id payload) w =
  exec (evaluate_budgets_for_month uid (d_month data) (d_year data))
    (set_budgets
       (update_first (budget_is budget_id uid) (set_budget_data data)
          (budgets w)) w).
Proof.
  intros Huid Hb0 Hdata.
  apply eval_get_current_user_id in Huid. destruct Huid as (user & Hu & <-).
  unfold exec, update_budget, get_current_user_id. unfold bind at 1 2.
  rewrite get_current_user_run, Hu. cbn [ret].
  unfold bind at 1, gets. rewrite Hb0.
  unfold bind at 1, lift. rewrite Hdata.
  unfold bind at 1, modify. cbn [set_budget_data Budget.month Budget.year].
  unfold bind at 1.
  destruct (evaluate_budgets_for_month _ _ _ _) as [w' [err | []]];
    [reflexivity |].
  cbn [fst].
  match goal with |- fst (?m w') = _ =>
    change (exec m w' = w'); revert w'; fold (read_only m)
  end.
  apply read_only_bind; [apply read_only_refresh |]. intros b.
  apply read_only_bind; [apply read_only_compute_budget_status |]. intros st.
  apply read_only_ret.
Qed.



(** ** Decimal sums and float results *)

Lemma filter_perm {R : Type} (p : R -> bool) (l l' : list R) :
  Permutation l l' -> Permutation (filter p l) (filter p l').
Proof.
  induction 1 as [| x l l' _ IH | x y l | l l' l'' _ IH1 _ IH2]; cbn.
  - constructor.
  - destruct (p x); [now constructor | assumption].
  - destruct (p x), (p y); try reflexivity. apply perm_swap.
  - now rewrite IH1.
Qed.

Lemma sum_amount_perm l l' : Permutation l l' -> sum_amount l = sum_amount l'.
Proof.
  induction 1 as [| x l l' _ IH | x y l | l l' l'' _ IH1 _ IH2].
  - reflexivity.
  - cbn. fold (sum_amount l) (sum_amount l'). lia.
  - cbn. lia.
  - congruence.
Qed.

Lemma sum_amount_app l l' : sum_amount (l ++ l') = sum_amount l + sum_amount l'.
Proof.
  induction l as [| t l IH]; [reflexivity |].
  cbn. fold (sum_amount (l ++ l')) (sum_amount l). lia.
Qed.

Lemma total_rows_perm tx_type u s e c l l' :
  Permutation l l' ->
  Permutation (total_rows tx_type u s e c l) (total_rows tx_type u s e c l').
Proof.
  intros H. unfold total_rows.
  destruct c as [k |]; [destruct (truthy (Some k)) |];
    repeat apply filter_perm; assumption.
Qed.

(** C7, as the code has it.  The windowed sum behind [spent] is the exact
    decimal sum of the stored amounts, converted to a float once, after
    the sum: [spent] is the float of that sum whatever the order of the
    rows, and no float is accumulated.  [remaining] is the difference of
    two floats, [float(limit_amount) - spent]. *)
Theorem spent_is_float_of_exact_sum (b : Budget.t) (w w' : world)
    (status : budget_status) :
  eval (compute_budget_status b) w = Ok status ->
  Permutation (transactions w) (transactions w') ->
  eval (compute_budget_status b) w' = Ok status /\
  exists start end_,
    get_month_bounds (Budget.year b) (Budget.month b) = Ok (start, end_) /\
    spent status =
      float_of_decimal
        (sum_amount (total_rows "expense" (Budget.user_id b) start end_
                       (Budget.category_id b) (transactions w))) /\
    remaining status =
      sub (float_of_decimal (Budget.limit_amount b)) (spent status).
Proof.
  intros Hstatus Hperm. split.
  - revert Hstatus. unfold eval. rewrite !compute_budget_status_run. cbn.
    destruct (get_month_bounds _ _) as [err | [s e]]; [discriminate |].
    now rewrite (sum_amount_perm _ _
                   (total_rows_perm "expense" (Budget.user_id b) s e
                      (Budget.category_id b) _ _ Hperm)).
  - now apply eval_compute_budget_status.
Qed.

Lemma spent_is_float_of_exact_sum_witness :
  let b := Budget.mk 1 1 None 6 2024 30 false in
  let t1 := Transaction.mk 1 1 None 10 "expense" None (mkdate 2024 6 5) in
  let t2 := Transaction.mk 2 1 None 20 "expense" None (mkdate 2024 6 6) in
  let w := mkworld [Demo.user] [] [t1; t2] [b] [] in
  let w' := mkworld [Demo.user] [] [t2; t1] [b] [] in
  eval (compute_budget_status b) w'
    = Ok (mk_budget_status (float_of_decimal 30) (S754_zero false)).
Proof.
  intros b t1 t2 w w'.
  apply (spent_is_float_of_exact_sum b w w'
           (mk_budget_status (float_of_decimal 30) (S754_zero false))).
  - reflexivity.
  - apply perm_swap.
Defined.

(** C7 as stated fails for [remaining]: with a limit of 0.30 and 0.10
    spent it is the float 0.19999999999999998, not the float of the
    decimal 0.20. *)
Lemma remaining_is_a_float_difference :
  let b := Budget.mk 1 1 None 6 2024 30 false in
  let t := Transaction.mk 1 1 None 10 "expense" None (mkdate 2024 6 5) in
  let w := mkworld [Demo.user] [] [t] [b] [] in
  exists status,
    eval (compute_budget_status b) w = Ok status /\
    spent status = float_of_decimal 10 /\
    remaining status = S754_finite false 7205759403792793 (-55) /\
    float_of_decimal (30 - 10) = S754_finite false 7205759403792794 (-55) /\
    remaining status <> float_of_decimal (30 - 10).
Proof.
  intros b t w. eexists. split; [reflexivity |].
  repeat split. discriminate.
Qed.

(** ** A session, end to end *)

(** A budget of 100.00 for Food in June 2024; an expense of 50.00 leaves
    it unalerted, a second one of 60.00 prints one alert and sets the
    flag, and deleting the second one resets the flag without printing. *)
Example budget_follows_the_transactions :
  let w0 := mkworld [Demo.user] [Demo.food] [] [] [] in
  let w1 := exec (create_budget 1
                    (Some (mk_budget_payload (Some (JInt 6)) (Some (JInt 2024))
                             (Some 10000) (Some 1)))) w0 in
  let w2 := exec (create_transaction Demo.today 1
                    (Demo.payload 5000 "2024-06-05")) w1 in
  let w3 := exec (create_transaction Demo.today 2
                    (Demo.payload 6000 "2024-06-10")) w2 in
  let w4 := exec (delete_transaction 2) w3 in
  budgets w2 = [Demo.june_budget false] /\ stdout w2 = [] /\
  budgets w3 = [Demo.june_budget true] /\
  map alert_spent (stdout w3) = [float_of_decimal 11000] /\
  budgets w4 = [Demo.june_budget false] /\ stdout w4 = stdout w3 /\
  transactions w4 = [Demo.expense 1 5000 (mkdate 2024 6 5)].
Proof. vm_compute. repeat split. Qed.

(** One cent above the limit is over it. *)
Example one_cent_over_the_limit :
  let w := Demo.world_with [Demo.expense 1 10001 (mkdate 2024 6 5)] false in
  let w' := exec (evaluate_budgets_for_month 1 6 2024) w in
  budgets w' = [Demo.june_budget true] /\
  map alert_budget (stdout w') = [1].
Proof. vm_compute. repeat split. Qed.

(** * Further properties of the code *)

(** ** The month window, continued *)

Lemma date_new_inv y m d x :
  date_new y m d = Ok x ->
  x = mkdate y m d /\ 1 <= y <= 9999 /\ 1 <= m <= 12 /\
  1 <= d <= days_in_month y m.
Proof.
  unfold date_new, MINYEAR, MAXYEAR.
  destruct ((1 <=? y) && (y <=? 9999) && (1 <=? m) && (m <=? 12)
            && (1 <=? d) && (d <=? days_in_month y m)) eqn:E;
    [| discriminate].
  intros H. injection H as <-. split; [reflexivity | lia].
Qed.

Lemma date_new_error y m d e : date_new y m d = inl e -> e = ValueError.
Proof.
  unfold date_new. destruct (_ && _); [discriminate | congruence].
Qed.

Lemma get_month_bounds_failure (y m : Z) :
  (get_month_bounds y m = Raise ValueError <->
   ~ (1 <= y <= 9999 /\ 1 <= m <= 12 /\ (y, m) <> (9999, 12))) /\
  (forall e, get_month_bounds y m = inl e -> e = ValueError).
Proof.
  split.
  - split.
    + intros Hraise (Hy & Hm & Hne).
      rewrite (get_month_bounds_ok y m Hy Hm Hne) in Hraise. discriminate.
    + intros Hout. unfold get_month_bounds.
      destruct (date_new y m 1) as [e | start] eqn:Hs.
      { now rewrite (date_new_error _ _ _ _ Hs). }
      apply date_new_inv in Hs. destruct Hs as (_ & Hy & Hm & _).
      destruct (m =? 12) eqn:E12.
      * destruct (date_new (y + 1) 1 1) as [e | end_] eqn:He.
        { now rewrite (date_new_error _ _ _ _ He). }
        apply date_new_inv in He. exfalso. apply Hout.
        repeat split; try lia. intros Heq. injection Heq as -> _. lia.
      * destruct (date_new y (m + 1) 1) as [e | end_] eqn:He.
        { now rewrite (date_new_error _ _ _ _ He). }
        exfalso. apply Hout. repeat split; try lia.
        intros Heq. injection Heq as _ ->. discriminate.
  - intros e. unfold get_month_bounds.
    destruct (date_new y m 1) as [e1 | start] eqn:Hs.
    { intros H. injection H as <-. eapply date_new_error; eassumption. }
    destruct (if m =? 12 then date_new (y + 1) 1 1 else date_new y (m + 1) 1)
      as [e2 | end_] eqn:He; [| discriminate].
    intros H. injection H as <-.
    destruct (m =? 12); eapply date_new_error; eassumption.
Qed.

(** X1.  For a year and a month that fit a C [int], [get_month_bounds]
    raises exactly when the year is outside 1..9999, the month outside
    1..12, or the month is December 9999, and what it raises is
    [ValueError].  (Beyond a C [int], [date] raises [OverflowError], on
    which nothing is said here.) *)
Theorem get_month_bounds_raises_iff (y m : Z) :
  c_int y -> c_int m ->
  (get_month_bounds y m = Raise ValueError <->
   ~ (1 <= y <= 9999 /\ 1 <= m <= 12 /\ (y, m) <> (9999, 12))) /\
  (forall e, get_month_bounds y m = inl e -> e = ValueError).
Proof.
  intros _ _. split.
  - apply (proj1 (get_month_bounds_failure y m)).
  - apply (proj2 (get_month_bounds_failure y m)).
Qed.

Lemma get_month_bounds_raises_iff_witness :
  c_int 2024 /\ c_int 13 /\ get_month_bounds 2024 13 = Raise ValueError /\
  c_int 0 /\ c_int 6 /\ get_month_bounds 0 6 = Raise ValueError.
Proof.
  assert (H2024 : c_int 2024) by (unfold c_int; lia).
  assert (H13 : c_int 13) by (unfold c_int; lia).
  assert (H0 : c_int 0) by (unfold c_int; lia).
  assert (H6 : c_int 6) by (unfold c_int; lia).
  split; [exact H2024 |]. split; [exact H13 |]. split.
  { apply (proj1 (get_month_bounds_raises_iff 2024 13 H2024 H13)). lia. }
  split; [exact H0 |]. split; [exact H6 |].
  apply (proj1 (get_month_bounds_raises_iff 0 6 H0 H6)). lia.
Defined.

Lemma get_month_bounds_inv y m s e :
  get_month_bounds y m = Ok (s, e) ->
  1 <= y <= 9999 /\ 1 <= m <= 12 /\ (y, m) <> (9999, 12) /\
  s = mkdate y m 1 /\
  e = (if m =? 12 then mkdate (y + 1) 1 1 else mkdate y (m + 1) 1).
Proof.
  intros H.
  assert (Hin : 1 <= y <= 9999 /\ 1 <= m <= 12 /\ (y, m) <> (9999, 12)).
  { destruct (Z_le_dec 1 y), (Z_le_dec y 9999), (Z_le_dec 1 m),
      (Z_le_dec m 12); try (exfalso;
        assert (Hr : get_month_bounds y m = Raise ValueError)
          by (apply (proj1 (get_month_bounds_failure y m)); lia);
        congruence).
    repeat split; try assumption.
    intros Heq.
    assert (Hr : get_month_bounds y m = Raise ValueError).
    { apply (proj1 (get_month_bounds_failure y m)). tauto. }
    congruence. }
  destruct Hin as (Hy & Hm & Hne).
  rewrite (get_month_bounds_ok y m Hy Hm Hne) in H.
  injection H as <- <-. auto.
Qed.

(** X2.  The window of a month is not empty, and it ends where the window
    of the following month starts: the windows neither overlap nor leave
    a day out. *)
Theorem consecutive_windows_abut (y m : Z) (s e s' e' : date) :
  get_month_bounds y m = Ok (s, e) ->
  get_month_bounds (if m =? 12 then y + 1 else y)
    (if m =? 12 then 1 else m + 1) = Ok (s', e') ->
  date_ltb s e = true /\ s' = e /\
  forall d, in_window s e d = true -> in_window s' e' d = false.
Proof.
  intros H1 H2.
  apply get_month_bounds_inv in H1, H2.
  destruct H1 as (Hy & Hm & _ & -> & ->), H2 as (_ & _ & _ & -> & He').
  assert (Hlt : date_ltb (mkdate y m 1)
                  (if m =? 12 then mkdate (y + 1) 1 1 else mkdate y (m + 1) 1)
                = true).
  { unfold date_ltb, date_compare. destruct (m =? 12) eqn:E; cbn.
    - now rewrite (proj2 (Z.compare_lt_iff y (y + 1))) by lia.
    - rewrite Z.compare_refl.
      now rewrite (proj2 (Z.compare_lt_iff m (m + 1))) by lia. }
  split; [exact Hlt |]. split.
  - destruct (m =? 12); reflexivity.
  - intros d Hd. unfold in_window in *.
    apply andb_prop in Hd. destruct Hd as (_ & Hd).
    replace (mkdate (if m =? 12 then y + 1 else y)
               (if m =? 12 then 1 else m + 1) 1)
      with (if m =? 12 then mkdate (y + 1) 1 1 else mkdate y (m + 1) 1)
      by (destruct (m =? 12); reflexivity).
    unfold date_leb, date_ltb in *.
    set (b := if m =? 12 then mkdate (y + 1) 1 1 else mkdate y (m + 1) 1) in *.
    assert (Hswap : date_compare b d = CompOpp (date_compare d b)).
    { unfold date_compare.
      rewrite (Z.compare_antisym (Calendar.year d) (Calendar.year b)),
        (Z.compare_antisym (Calendar.month d) (Calendar.month b)),
        (Z.compare_antisym (Calendar.day d) (Calendar.day b)).
      destruct (Calendar.year d ?= Calendar.year b); try reflexivity.
      destruct (Calendar.month d ?= Calendar.month b); reflexivity. }
    rewrite Hswap. destruct (date_compare d b); try discriminate. reflexivity.
Qed.

Lemma consecutive_windows_abut_witness :
  date_ltb (mkdate 2024 12 1) (mkdate 2025 1 1) = true /\
  mkdate 2025 1 1 = mkdate 2025 1 1 /\
  forall d, in_window (mkdate 2024 12 1) (mkdate 2025 1 1) d = true ->
            in_window (mkdate 2025 1 1) (mkdate 2025 2 1) d = false.
Proof.
  apply (consecutive_windows_abut 2024 12); reflexivity.
Defined.

(** ** Dates in requests and responses *)

Lemma digit_digit_char n : 0 <= n <= 9 -> digit (digit_char n) = Some n.
Proof.
  intros H. rewrite <- (Z2Nat.id n) by lia.
  assert (Hk : (Z.to_nat n < 10)%nat) by lia.
  revert Hk. generalize (Z.to_nat n). intros k Hk.
  do 10 (destruct k as [| k]; [reflexivity |]). lia.
Qed.

Lemma fromisoformat_isoformat d :
  valid_date d -> fromisoformat (isoformat d) = Ok d.
Proof.
  intros Hd. pose proof (valid_date_bounds d Hd) as (Hy & Hm & Hdd).
  pose proof (days_in_month_bounds (Calendar.year d) (Calendar.month d)).
  destruct d as [y m dd]. cbn [Calendar.year Calendar.month Calendar.day] in *.
  unfold fromisoformat, isoformat.
  rewrite list_ascii_of_string_of_list_ascii.
  cbn [Ascii.eqb Bool.eqb andb number].
  cbn [Calendar.year Calendar.month Calendar.day].
  rewrite !digit_digit_char by (Z.div_mod_to_equations; lia).
  replace (10 * (10 * (10 * (10 * 0 + y / 1000) + y / 100 mod 10)
                 + y / 10 mod 10) + y mod 10) with y
    by (Z.div_mod_to_equations; lia).
  replace (10 * (10 * 0 + m / 10) + m mod 10) with m
    by (Z.div_mod_to_equations; lia).
  replace (10 * (10 * 0 + dd / 10) + dd mod 10) with dd
    by (Z.div_mod_to_equations; lia).
  exact Hd.
Qed.

(** X3.  A date as [to_dict] renders it ([isoformat]) is accepted by
    [parse_transaction_payload] and read back as the same date. *)
Theorem transaction_date_round_trip (today d : date)
    (payload : transaction_payload) (amount : Z) :
  valid_date d ->
  p_amount payload = Some amount ->
  valid_type (p_type payload) = true ->
  p_transaction_date payload = Some (isoformat d) ->
  exists data,
    parse_transaction_payload today (Some payload) = Ok data /\
    d_transaction_date data = d.
Proof.
  intros Hd Ha Htype Hdate. unfold parse_transaction_payload.
  rewrite Ha. destruct (p_type payload) as [tx_type |]; [| discriminate].
  rewrite Htype, Hdate.
  pose proof (fromisoformat_isoformat d Hd) as Hround.
  destruct (isoformat d) as [| c s] eqn:E; [discriminate |].
  rewrite Hround. eexists. split; reflexivity.
Qed.

Lemma transaction_date_round_trip_witness :
  exists data,
    parse_transaction_payload Demo.today
      (Demo.payload 5000 (isoformat (mkdate 2024 2 29))) = Ok data /\
    d_transaction_date data = mkdate 2024 2 29.
Proof.
  apply (transaction_date_round_trip Demo.today (mkdate 2024 2 29)
           (mk_transaction_payload (Some 5000) (Some "expense") (Some 1) None
              (Some (isoformat (mkdate 2024 2 29)))) 5000);
    reflexivity.
Defined.

(** ** What the parsers let through *)

Lemma fromisoformat_valid s d : fromisoformat s = Ok d -> valid_date d.
Proof.
  unfold fromisoformat.
  destruct (list_ascii_of_string s)
    as [| y1 [| y2 [| y3 [| y4 [| s1 [| m1 [| m2 [| s2 [| d1 [| d2 [| ? ?]]]]]]]]]]];
    try discriminate.
  destruct (Ascii.eqb s1 "-" && Ascii.eqb s2 "-"); [| discriminate].
  destruct (number 0 [y1; y2; y3; y4]) as [y |]; [| discriminate].
  destruct (number 0 [m1; m2]) as [m |]; [| discriminate].
  destruct (number 0 [d1; d2]) as [dd |]; [| discriminate].
  intros H. apply date_new_inv in H. destruct H as (-> & Hy & Hm & Hd).
  unfold valid_date. cbn. now apply date_new_ok.
Qed.

Lemma valid_type_inv tx_type :
  valid_type (Some tx_type) = true -> tx_type = "income" \/ tx_type = "expense".
Proof.
  cbn. intros H. apply orb_prop in H.
  destruct H as [H | H]; apply String.eqb_eq in H; auto.
Qed.

(** X4.  What [parse_transaction_payload] accepts carries the amount,
    type, category and description of the payload, the type being income
    or expense; its date is a date of the calendar: today for an absent
    or empty [transaction_date], else the date [fromisoformat] reads.  A
    missing body, a missing amount and a type that is absent or neither
    income nor expense are refused with 400. *)
Theorem parse_transaction_payload_result (today : date)
    (p : transaction_payload) :
  valid_date today ->
  parse_transaction_payload today None = Raise (HTTPException 400) /\
  (p_amount p = None \/ valid_type (p_type p) = false ->
   parse_transaction_payload today (Some p) = Raise (HTTPException 400)) /\
  (forall data,
     parse_transaction_payload today (Some p) = Ok data ->
     p_amount p = Some (d_amount data) /\
     p_type p = Some (d_type data) /\
     (d_type data = "income" \/ d_type data = "expense") /\
     d_category_id data = p_category_id p /\
     d_description data = p_description p /\
     valid_date (d_transaction_date data) /\
     match p_transaction_date p with
     | None | Some EmptyString => d_transaction_date data = today
     | Some s => fromisoformat s = Ok (d_transaction_date data)
     end).
Proof.
  intros Htoday. split; [reflexivity |]. split.
  - unfold parse_transaction_payload.
    destruct (p_amount p) as [amount |]; [| reflexivity].
    intros [H | H]; [discriminate |].
    destruct (p_type p) as [tx_type |]; [| reflexivity].
    now rewrite H.
  - intros data. unfold parse_transaction_payload.
    destruct (p_amount p) as [amount |] eqn:Ha; [| discriminate].
    destruct (p_type p) as [tx_type |] eqn:Ht; [| discriminate].
    destruct (valid_type (Some tx_type)) eqn:Hv; [| discriminate].
    apply valid_type_inv in Hv.
    destruct (p_transaction_date p) as [[| c s] |] eqn:Hd.
    + intros H. injection H as <-. cbn. repeat split; auto.
    + destruct (fromisoformat (String c s)) as [e | d] eqn:Hiso;
        [discriminate |].
      intros H. injection H as <-. cbn. repeat split; auto.
      eapply fromisoformat_valid; eassumption.
    + intros H. injection H as <-. cbn. repeat split; auto.
Qed.

Lemma parse_transaction_payload_result_witness :
  exists data,
    parse_transaction_payload Demo.today
      (Some (mk_transaction_payload (Some 5000) (Some "expense") (Some 1)
               None (Some "2024-02-29"))) = Ok data /\
    d_amount data = 5000 /\
    d_type data = "expense" /\
    d_category_id data = Some 1 /\
    d_transaction_date data = mkdate 2024 2 29 /\
    valid_date (d_transaction_date data).
Proof.
  eexists. split; [reflexivity |].
  destruct (parse_transaction_payload_result Demo.today
              (mk_transaction_payload (Some 5000) (Some "expense") (Some 1)
                 None (Some "2024-02-29")))
    as (_ & _ & H).
  - reflexivity.
  - destruct (H _ eq_refl) as (_ & _ & _ & _ & _ & Hvalid & _).
    do 4 (split; [reflexivity |]). exact Hvalid.
Defined.

Lemma parse_budget_payload_error payload e :
  parse_budget_payload payload = inl e ->
  e = HTTPException 400 \/ e = TypeError \/ e = OverflowError.
Proof.
  unfold parse_budget_payload.
  destruct payload as [q |]; [| intros H; injection H as <-; auto].
  destruct (p_month q) as [[m | | |] |];
    destruct (p_year q) as [[y | | |] |];
    destruct (p_limit_amount q) as [l |]; cbn;
    try (intros H; injection H as <-; auto).
  destruct ((1 <=? m) && (m <=? 12)); [discriminate |].
  intros H. injection H as <-. auto.
Qed.

Lemma parse_budget_payload_inv p data :
  parse_budget_payload (Some p) = Ok data ->
  p_month p = Some (JInt (d_month data)) /\
  p_year p = Some (JInt (d_year data)) /\
  p_limit_amount p = Some (d_limit_amount data) /\
  p_budget_category_id p = d_budget_category_id data /\
  1 <= d_month data <= 12.
Proof.
  unfold parse_budget_payload.
  destruct (p_month p) as [[m | | |] |];
    destruct (p_year p) as [[y | | |] |];
    destruct (p_limit_amount p) as [l |]; cbn; try discriminate.
  destruct ((1 <=? m) && (m <=? 12)) eqn:E; [| discriminate].
  intros H. injection H as <-. cbn. repeat split; lia.
Qed.

(** X5.  [parse_budget_payload] on a body that is a JSON object.  It
    accepts the payload exactly when month, year and limit are present,
    [int()] reads month and year, and the month is in 1..12; the year and
    the limit are not constrained, and the data are those of the payload.
    It does not fail with 400 only: a [TypeError] or an [OverflowError]
    leaves it exactly when month, year and limit are present and
    [int()] raises it on the month, or reads the month and raises it on
    the year; what else it refuses, it refuses with 400. *)
Theorem parse_budget_payload_result (p : budget_payload) (data : budget_data) :
  (parse_budget_payload (Some p) = Ok data <->
   p_month p = Some (JInt (d_month data)) /\
   p_year p = Some (JInt (d_year data)) /\
   p_limit_amount p = Some (d_limit_amount data) /\
   p_budget_category_id p = d_budget_category_id data /\
   1 <= d_month data <= 12) /\
  (forall e, e = TypeError \/ e = OverflowError ->
     (parse_budget_payload (Some p) = Raise e <->
      exists m y l,
        p_month p = Some m /\ p_year p = Some y /\
        p_limit_amount p = Some l /\
        (int m = Raise e \/ (exists z, int m = Ok z) /\ int y = Raise e))) /\
  (forall e,
     parse_budget_payload (Some p) = Raise e ->
     e = HTTPException 400 \/ e = TypeError \/ e = OverflowError).
Proof.
  split; [| split].
  - split; [apply parse_budget_payload_inv |].
    unfold parse_budget_payload.
    intros (-> & -> & -> & Hc & Hm). cbn.
    destruct ((1 <=? d_month data) && (d_month data <=? 12)) eqn:E; [| lia].
    destruct data; cbn in *. now subst.
  - intros e He. unfold parse_budget_payload. split.
    + destruct (p_month p) as [m |]; [| destruct He; congruence].
      destruct (p_year p) as [y |]; [| destruct He; congruence].
      destruct (p_limit_amount p) as [l |]; [| destruct He; congruence].
      intros H. exists m, y, l. repeat split.
      destruct m as [zm | | |]; cbn in H |- *;
        try (destruct He; congruence).
      * right. split; [now exists zm |].
        destruct y as [zy | | |]; cbn in H |- *;
          try (destruct He; congruence).
        destruct ((1 <=? zm) && (zm <=? 12)); destruct He; congruence.
      * left. congruence.
      * left. congruence.
    + intros (m & y & l & -> & -> & -> & [Hm | ((z & Hm) & Hy)]).
      * destruct m; cbn in Hm |- *; destruct He; congruence.
      * destruct m; cbn in Hm; try discriminate.
        destruct y; cbn in Hy |- *; destruct He; congruence.
  - intros e. apply parse_budget_payload_error.
Qed.

(** ** The evaluator, continued *)

Lemma evaluation_cases u m y w w' r :
  evaluate_budgets_for_month u m y w = (w', r) -> evaluation u m y w w' r.
Proof.
  intros E. pose proof (evaluate_budgets_for_month_run u m y w) as H.
  unfold exec, eval in H. now rewrite E in H.
Qed.

(** X6.  The outcomes of an evaluation: 401 exactly when there is no user
    1; [ValueError] exactly when there is one, the month has no window
    and the scope has a budget, so a scope without budgets is evaluated
    without error whatever its month and year; and an evaluation that
    fails leaves the state as it was. *)
Theorem evaluation_outcome (u m y : Z) (w : world) :
  (eval (evaluate_budgets_for_month u m y) w = Raise (HTTPException 401) <->
   find (fun u => User.id u =? 1) (users w) = None) /\
  (eval (evaluate_budgets_for_month u m y) w = Raise ValueError <->
   find (fun u => User.id u =? 1) (users w) <> None /\
   get_month_bounds y m = Raise ValueError /\
   existsb (in_scope u m y) (budgets w) = true) /\
  (forall e, eval (evaluate_budgets_for_month u m y) w = inl e ->
             exec (evaluate_budgets_for_month u m y) w = w).
Proof.
  unfold eval, exec.
  destruct (evaluate_budgets_for_month u m y w) as [w' r] eqn:E.
  apply evaluation_cases in E. cbn [fst snd].
  destruct E as [Hu | user err Hu Hb | user s e Hu Hb].
  - repeat split; try congruence. intros (Hne & _). congruence.
  - pose proof (proj2 (get_month_bounds_failure y m) err Hb) as ->.
    destruct (existsb (in_scope u m y) (budgets w)) eqn:Hex;
      repeat split; try congruence; try tauto.
    all: intros H; try discriminate; destruct H as (_ & _ & H); discriminate.
  - repeat split; try congruence.
    intros (_ & H & _). congruence.
Qed.

Lemma evaluate_keeps (u m y : Z) (w : world) :
  let w' := exec (evaluate_budgets_for_month u m y) w in
  users w' = users w /\ categories w' = categories w /\
  transactions w' = transactions w /\
  map without_flag (budgets w') = map without_flag (budgets w) /\
  exists printed, stdout w' = stdout w ++ printed.
Proof.
  intros w'. unfold w', exec.
  destruct (evaluate_budgets_for_month u m y w) as [w1 r] eqn:E.
  apply evaluation_cases in E. cbn [fst].
  destruct E as [Hu | user err Hu Hb | user s e Hu Hb].
  1, 2: repeat split; exists []; now rewrite app_nil_r.
  cbn [users categories transactions budgets stdout].
  repeat split; [| eexists; reflexivity].
  rewrite map_map. apply map_ext. intros b. unfold settled.
  now destruct (in_scope u m y b).
Qed.

(** X7.  An evaluation changes no user, category or transaction, and of a
    budget nothing but [alert_sent]; it only adds to what was printed. *)
Theorem evaluation_changes_flags_only (u m y : Z) (w : world) :
  let w' := exec (evaluate_budgets_for_month u m y) w in
  users w' = users w /\ categories w' = categories w /\
  transactions w' = transactions w /\
  map without_flag (budgets w') = map without_flag (budgets w) /\
  exists printed, stdout w' = stdout w ++ printed.
Proof.
  intros w'. destruct (evaluate_keeps u m y w) as (Hu & Hc & Ht & Hb & Hp).
  fold w' in Hu, Hc, Ht, Hb, Hp. auto.
Qed.

Lemma alerts_of_ids sel user cats s e txs table :
  map alert_budget (alerts_of sel user cats s e txs table) =
  map Budget.id
    (filter (fun b => sel b && over_limit s e txs b
                      && negb (Budget.alert_sent b)) table).
Proof. unfold alerts_of. now rewrite map_map. Qed.

Lemma settled_id sel s e txs b : Budget.id (settled sel s e txs b) = Budget.id b.
Proof. unfold settled. now destruct (sel b). Qed.

Lemma flag_set_iff sel s e txs table k :
  pk_unique Budget.id table ->
  In k (map Budget.id
          (filter (fun b => sel b && over_limit s e txs b
                            && negb (Budget.alert_sent b)) table)) <->
  exists b b',
    In b table /\ In b' (map (settled sel s e txs) table) /\
    Budget.id b = k /\ Budget.id b' = k /\
    Budget.alert_sent b = false /\ Budget.alert_sent b' = true.
Proof.
  intros Hpk. rewrite in_map_iff. split.
  - intros (b & <- & Hin). apply filter_In in Hin. destruct Hin as (Hin & Hc).
    apply andb_prop in Hc. destruct Hc as (Hc & Hsent).
    apply andb_prop in Hc. destruct Hc as (Hsel & Hover).
    apply negb_true_iff in Hsent.
    exists b, (settled sel s e txs b). repeat split; auto.
    + now apply in_map.
    + apply settled_id.
    + unfold settled. rewrite Hsel. cbn. exact Hover.
  - intros (b & b' & Hin & Hin' & Hid & Hid' & Hsent & Hsent').
    apply in_map_iff in Hin'. destruct Hin' as (b0 & <- & Hin0).
    rewrite settled_id in Hid'.
    assert (b0 = b)
      by (apply (pk_unique_inj Budget.id table); auto; congruence).
    subst b0. exists b. split; [exact Hid |]. apply filter_In.
    split; [exact Hin |]. revert Hsent'. unfold settled.
    destruct (sel b); [| congruence]. cbn. intros ->. now rewrite Hsent.
Qed.

Lemma flag_kept_iff table k :
  pk_unique Budget.id table ->
  In k (map alert_budget []) <->
  exists b b',
    In b table /\ In b' table /\
    Budget.id b = k /\ Budget.id b' = k /\
    Budget.alert_sent b = false /\ Budget.alert_sent b' = true.
Proof.
  intros Hpk. split; [intros [] |].
  intros (b & b' & Hin & Hin' & Hid & Hid' & Hsent & Hsent').
  assert (b = b')
    by (apply (pk_unique_inj Budget.id table); auto; congruence).
  subst b'. congruence.
Qed.

(** X8.  In a table with unique ids, an evaluation prints one alert for
    each budget whose [alert_sent] it turns from false to true, and no
    other: the ids of the printed alerts are without repetition, and they
    are the ids of the budgets whose flag was false and is true.  The
    order of the alerts is that in which the database returns the rows,
    and nothing is said about it. *)
Theorem one_alert_per_flag_set (u m y : Z) (w : world) :
  pk_unique Budget.id (budgets w) ->
  let w' := exec (evaluate_budgets_for_month u m y) w in
  exists printed,
    stdout w' = stdout w ++ printed /\
    NoDup (map alert_budget printed) /\
    forall k,
      In k (map alert_budget printed) <->
      exists b b',
        In b (budgets w) /\ In b' (budgets w') /\
        Budget.id b = k /\ Budget.id b' = k /\
        Budget.alert_sent b = false /\ Budget.alert_sent b' = true.
Proof.
  intros Hpk w'. unfold w', exec.
  destruct (evaluate_budgets_for_month u m y w) as [w1 r] eqn:E.
  apply evaluation_cases in E. cbn [fst].
  destruct E as [Hu | user err Hu Hb | user s e Hu Hb].
  1, 2: exists []; rewrite app_nil_r; split; [reflexivity |];
        split; [constructor |]; intros k; now apply flag_kept_iff.
  cbn [budgets stdout]. eexists. split; [reflexivity |].
  rewrite alerts_of_ids. split.
  - now apply pk_unique_filter.
  - intros k. now apply flag_set_iff.
Qed.

Lemma one_alert_per_flag_set_witness :
  let w := Demo.world_with [Demo.expense 1 12000 (mkdate 2024 6 5)] false in
  let w' := exec (evaluate_budgets_for_month 1 6 2024) w in
  pk_unique Budget.id (budgets w) /\
  exists printed,
    stdout w' = stdout w ++ printed /\
    NoDup (map alert_budget printed) /\
    forall k,
      In k (map alert_budget printed) <->
      exists b b',
        In b (budgets w) /\ In b' (budgets w') /\
        Budget.id b = k /\ Budget.id b' = k /\
        Budget.alert_sent b = false /\ Budget.alert_sent b' = true.
Proof.
  intros w w'.
  assert (Hpk : pk_unique Budget.id (budgets w))
    by (constructor; [intros [] | constructor]).
  split; [exact Hpk |].
  exact (one_alert_per_flag_set 1 6 2024 w Hpk).
Defined.

(** X9.  Every alert an evaluation prints is for a budget of the table,
    of the evaluated month and year; it reports a [spent] greater than
    the limit, the float of the budget's [limit_amount], and the name of
    the budget's category, or Overall for a budget without one. *)
Theorem printed_alerts_are_over_limit (u m y : Z) (w : world) :
  let w' := exec (evaluate_budgets_for_month u m y) w in
  exists printed,
    stdout w' = stdout w ++ printed /\
    forall a, In a printed ->
      gt (alert_spent a) (alert_limit a) = true /\
      alert_month a = m /\ alert_year a = y /\
      exists b, In b (budgets w) /\
                alert_budget a = Budget.id b /\
                Budget.user_id b = u /\
                Budget.alert_sent b = false /\
                alert_limit a = float_of_decimal (Budget.limit_amount b) /\
                alert_category_name a =
                  match budget_category b (categories w) with
                  | Some cat => Category.name cat
                  | None => "Overall"
                  end.
Proof.
  intros w'. unfold w', exec.
  destruct (evaluate_budgets_for_month u m y w) as [w1 r] eqn:E.
  apply evaluation_cases in E. cbn [fst].
  destruct E as [Hu | user err Hu Hb | user s e Hu Hb].
  1, 2: exists []; rewrite app_nil_r; split; [reflexivity | intros a []].
  cbn [stdout]. eexists. split; [reflexivity |].
  intros a Ha. apply in_alerts_of in Ha.
  destruct Ha as (b & Hin & Hsel & Hover & Hsent & ->).
  apply in_scope_true in Hsel. destruct Hsel as (Hu' & Hm & Hy).
  cbn. repeat split; auto.
  exists b. repeat split; auto.
Qed.

(** X10.  After an evaluation that did not fail, the flag of every budget
    of the scope says whether the budget is over its limit: it equals
    [spent > limit_amount] for the [spent] that [compute_budget_status]
    returns in the new state. *)
Theorem evaluation_settles_the_scope (u m y : Z) (w : world) (b : Budget.t)
    (status : budget_status) :
  eval (evaluate_budgets_for_month u m y) w = Ok tt ->
  let w' := exec (evaluate_budgets_for_month u m y) w in
  In b (budgets w') ->
  in_scope u m y b = true ->
  eval (compute_budget_status b) w' = Ok status ->
  Budget.alert_sent b =
    gt (spent status) (float_of_decimal (Budget.limit_amount b)).
Proof.
  unfold eval at 1, exec.
  destruct (evaluate_budgets_for_month u m y w) as [w1 r] eqn:E.
  apply evaluation_cases in E. cbn [fst snd].
  intros Hr Hin Hsel Hstatus.
  apply eval_compute_budget_status in Hstatus.
  destruct Hstatus as (s' & e' & Hb' & Hspent & _).
  destruct (in_scope_true _ _ _ _ Hsel) as (_ & Hm & Hy).
  rewrite Hm, Hy in Hb'.
  destruct E as [Hu | user err Hu Hb | user s e Hu Hb]; try congruence.
  assert (s' = s /\ e' = e) as [-> ->] by (split; congruence).
  cbn [budgets transactions] in *.
  apply in_map_iff in Hin. destruct Hin as (b0 & <- & Hin).
  unfold settled in *. destruct (in_scope u m y b0) eqn:Hsel0.
  - cbn [Budget.alert_sent Budget.set_alert_sent Budget.limit_amount] in *.
    rewrite Hspent. reflexivity.
  - congruence.
Qed.

Lemma evaluation_settles_the_scope_witness :
  let w := Demo.world_with [Demo.expense 1 12000 (mkdate 2024 6 5)] false in
  Budget.alert_sent (Demo.june_budget true) =
    gt (float_of_decimal 12000) (float_of_decimal 10000).
Proof.
  intros w.
  apply (evaluation_settles_the_scope 1 6 2024 w (Demo.june_budget true)
           (mk_budget_status (float_of_decimal 12000)
              (sub (float_of_decimal 10000) (float_of_decimal 12000)))).
  - reflexivity.
  - left. reflexivity.
  - reflexivity.
  - reflexivity.
Defined.

(** ** Running the handlers *)

Lemma create_transaction_cases today new_id payload w :
  create_transaction today new_id payload w =
  match find (fun u => User.id u =? 1) (users w) with
  | None => (w, Raise (HTTPException 401))
  | Some user =>
      match parse_transaction_payload today payload with
      | inl e => (w, inl e)
      | inr data =>
          let t := Transaction.mk new_id (User.id user) (d_category_id data)
                     (d_amount data) (d_type data) (d_description data)
                     (d_transaction_date data) in
          match evaluate_budgets_for_transaction t
                  (set_transactions (transactions w ++ [t]) w) with
          | (w', inl e) => (w', inl e)
          | (w', inr _) => (w', Ok (201, t))
          end
      end
  end.
Proof.
  unfold create_transaction, get_current_user_id, bind.
  rewrite get_current_user_run.
  destruct (find _ (users w)) as [user |]; [| reflexivity]. cbn [ret].
  unfold lift, modify.
  destruct (parse_transaction_payload today payload) as [e | data];
    [reflexivity |].
  now destruct (evaluate_budgets_for_transaction _ _) as [w' [e | []]].
Qed.

Lemma update_transaction_cases today transaction_id payload w :
  update_transaction today transaction_id payload w =
  match find (fun u => User.id u =? 1) (users w) with
  | None => (w, Raise (HTTPException 401))
  | Some user =>
      match find (transaction_is transaction_id (User.id user)) (transactions w) with
      | None => (w, Raise (HTTPException 404))
      | Some t0 =>
          match parse_transaction_payload today payload with
          | inl e => (w, inl e)
          | inr data =>
              let t := set_transaction_data data t0 in
              match evaluate_budgets_for_transaction t
                      (set_transactions
                         (update_first
                            (transaction_is transaction_id (User.id user))
                            (set_transaction_data data) (transactions w)) w) with
              | (w', inl e) => (w', inl e)
              | (w', inr _) => (w', Ok (200, t))
              end
          end
      end
  end.
Proof.
  unfold update_transaction, get_current_user_id, bind, gets.
  rewrite get_current_user_run.
  destruct (find _ (users w)) as [user |]; [| reflexivity]. cbn [ret].
  destruct (find _ (transactions w)) as [t0 |]; [| reflexivity].
  unfold lift, modify.
  destruct (parse_transaction_payload today payload) as [e | data];
    [reflexivity |].
  now destruct (evaluate_budgets_for_transaction _ _) as [w' [e | []]].
Qed.

Lemma delete_transaction_cases transaction_id w :
  delete_transaction transaction_id w =
  match find (fun u => User.id u =? 1) (users w) with
  | None => (w, Raise (HTTPException 401))
  | Some user =>
      match find (transaction_is transaction_id (User.id user)) (transactions w) with
      | None => (w, Raise (HTTPException 404))
      | Some t0 =>
          match evaluate_budgets_for_month (User.id user)
                  (Calendar.month (Transaction.transaction_date t0))
                  (Calendar.year (Transaction.transaction_date t0))
                  (set_transactions
                     (delete_first
                        (transaction_is transaction_id (User.id user))
                        (transactions w)) w) with
          | (w', inl e) => (w', inl e)
          | (w', inr _) => (w', Ok (200, transaction_id))
          end
      end
  end.
Proof.
  unfold delete_transaction, get_current_user_id, bind, gets.
  rewrite get_current_user_run.
  destruct (find _ (users w)) as [user |]; [| reflexivity]. cbn [ret].
  destruct (find _ (transactions w)) as [t0 |]; [| reflexivity].
  unfold modify.
  now destruct (evaluate_budgets_for_month _ _ _ _) as [w' [e | []]].
Qed.

(** What the budget routes do after their evaluation: reload the budget
    and compute its status, reading only. *)
Lemma respond_run (code : Z) (budget : Budget.t) w :
  (budget <- refresh budget ;;
   status <- compute_budget_status budget ;;
   ret (code, (budget, status))) w =
  (w,
   let b := match find (fun b => Budget.id b =? Budget.id budget) (budgets w) with
            | Some b => b
            | None => budget
            end in
   match eval (compute_budget_status b) w with
   | inl e => inl e
   | inr status => Ok (code, (b, status))
   end).
Proof.
  unfold refresh, gets, eval. unfold bind.
  destruct (find _ (budgets w)) as [b |]; cbn [ret];
    rewrite compute_budget_status_run; cbn [snd];
    now destruct (get_month_bounds _ _) as [e | [s e]].
Qed.

Lemma create_budget_cases new_id payload w :
  create_budget new_id payload w =
  match find (fun u => User.id u =? 1) (users w) with
  | None => (w, Raise (HTTPException 401))
  | Some user =>
      match parse_budget_payload payload with
      | inl e => (w, inl e)
      | inr data =>
          let b := Budget.mk new_id (User.id user) (d_budget_category_id data)
                     (d_month data) (d_year data) (d_limit_amount data) false in
          match evaluate_budgets_for_month (User.id user) (d_month data)
                  (d_year data) (set_budgets (budgets w ++ [b]) w) with
          | (w', inl e) => (w', inl e)
          | (w', inr _) =>
              (budget <- refresh b ;;
               status <- compute_budget_status budget ;;
               ret (201, (budget, status))) w'
          end
      end
  end.
Proof.
  unfold create_budget, get_current_user_id. unfold bind at 1 2.
  rewrite get_current_user_run.
  destruct (find _ (users w)) as [user |]; [| reflexivity]. cbn [ret].
  unfold bind at 1, lift.
  destruct (parse_budget_payload payload) as [e | data]; [reflexivity |].
  unfold bind at 1, modify. unfold bind at 1. cbn [Budget.month Budget.year].
  now destruct (evaluate_budgets_for_month _ _ _ _) as [w' [e | []]].
Qed.

Lemma update_budget_cases budget_id payload w :
  update_budget budget_id payload w =
  match find (fun u => User.id u =? 1) (users w) with
  | None => (w, Raise (HTTPException 401))
  | Some user =>
      match find (budget_is budget_id (User.id user)) (budgets w) with
      | None => (w, Raise (HTTPException 404))
      | Some b0 =>
          match parse_budget_payload payload with
          | inl e => (w, inl e)
          | inr data =>
              match evaluate_budgets_for_month (User.id user) (d_month data)
                      (d_year data)
                      (set_budgets
                         (update_first (budget_is budget_id (User.id user))
                            (set_budget_data data) (budgets w)) w) with
              | (w', inl e) => (w', inl e)
              | (w', inr _) =>
                  (budget <- refresh (set_budget_data data b0) ;;
                   status <- compute_budget_status budget ;;
                   ret (200, (budget, status))) w'
              end
          end
      end
  end.
Proof.
  unfold update_budget, get_current_user_id. unfold bind at 1 2.
  rewrite get_current_user_run.
  destruct (find _ (users w)) as [user |]; [| reflexivity]. cbn [ret].
  unfold bind at 1, gets.
  destruct (find _ (budgets w)) as [b0 |]; [| reflexivity].
  unfold bind at 1, lift.
  destruct (parse_budget_payload payload) as [e | data]; [reflexivity |].
  unfold bind at 1, modify. unfold bind at 1.
  cbn [set_budget_data Budget.month Budget.year].
  now destruct (evaluate_budgets_for_month _ _ _ _) as [w' [e | []]].
Qed.

Lemma delete_budget_cases budget_id w :
  delete_budget budget_id w =
  match find (fun u => User.id u =? 1) (users w) with
  | None => (w, Raise (HTTPException 401))
  | Some user =>
      match find (budget_is budget_id (User.id user)) (budgets w) with
      | None => (w, Raise (HTTPException 404))
      | Some b0 =>
          match evaluate_budgets_for_month (User.id user) (Budget.month b0)
                  (Budget.year b0)
                  (set_budgets
                     (delete_first (budget_is budget_id (User.id user))
                        (budgets w)) w) with
          | (w', inl e) => (w', inl e)
          | (w', inr _) => (w', Ok (200, budget_id))
          end
      end
  end.
Proof.
  unfold delete_budget, get_current_user_id, bind, gets.
  rewrite get_current_user_run.
  destruct (find _ (users w)) as [user |]; [| reflexivity]. cbn [ret].
  destruct (find _ (budgets w)) as [b0 |]; [| reflexivity].
  unfold modify.
  now destruct (evaluate_budgets_for_month _ _ _ _) as [w' [e | []]].
Qed.

Lemma found_user_id w user :
  find (fun u => User.id u =? 1) (users w) = Some user -> User.id user = 1.
Proof. intros H. apply find_some in H. lia. Qed.

(** ** Requests that are refused *)

(** X11.  Without a user 1 every route answers 401 and changes
    nothing. *)
Theorem no_user_no_service (w : world) (today : date) (new_id row_id : Z)
    (payload : option transaction_payload)
    (budget : option budget_payload) (arg_month arg_year : option Z) :
  find (fun u => User.id u =? 1) (users w) = None ->
  create_transaction today new_id payload w = (w, Raise (HTTPException 401)) /\
  update_transaction today row_id payload w = (w, Raise (HTTPException 401)) /\
  delete_transaction row_id w = (w, Raise (HTTPException 401)) /\
  create_budget new_id budget w = (w, Raise (HTTPException 401)) /\
  update_budget row_id budget w = (w, Raise (HTTPException 401)) /\
  delete_budget row_id w = (w, Raise (HTTPException 401)) /\
  monthly_summary today arg_month arg_year w = (w, Raise (HTTPException 401)) /\
  list_categories w = (w, Raise (HTTPException 401)) /\
  list_transactions w = (w, Raise (HTTPException 401)) /\
  list_budgets arg_month arg_year w = (w, Raise (HTTPException 401)).
Proof.
  intros Hu.
  rewrite create_transaction_cases, update_transaction_cases,
    delete_transaction_cases, create_budget_cases, update_budget_cases,
    delete_budget_cases, Hu.
  repeat split;
    unfold monthly_summary, list_categories, list_transactions, list_budgets,
      get_current_user_id, bind;
    now rewrite get_current_user_run, Hu.
Qed.

Lemma no_user_no_service_witness :
  let w := mkworld [] [Demo.food] [Demo.expense 1 5000 (mkdate 2024 6 5)]
             [Demo.june_budget false] [] in
  delete_transaction 1 w = (w, Raise (HTTPException 401)) /\
  monthly_summary Demo.today None None w = (w, Raise (HTTPException 401)).
Proof.
  intros w.
  destruct (no_user_no_service w Demo.today 2 1 None None None None)
    as (_ & _ & Hdelete & _ & _ & _ & Hsummary & _).
  - reflexivity.
  - split; assumption.
Defined.

Lemma evaluation_error_with_user u m y w user w' e :
  find (fun u => User.id u =? 1) (users w) = Some user ->
  evaluate_budgets_for_month u m y w = (w', inl e) ->
  e = ValueError /\ w' = w.
Proof.
  intros Hu E. apply evaluation_cases in E.
  inversion E as [Hu' Hw Hr | user' err Hu' Hb Hw Hr
                 | user' s0 e0 Hu' Hb Hw Hr];
    subst; try congruence.
  split; [| reflexivity].
  destruct (existsb _ _); [| discriminate].
  injection Hr as <-.
  exact (proj2 (get_month_bounds_failure y m) err Hb).
Qed.

Lemma parse_transaction_payload_error today payload e :
  parse_transaction_payload today payload = inl e -> e = HTTPException 400.
Proof.
  unfold parse_transaction_payload.
  destruct payload as [p |]; [| congruence].
  destruct (p_amount p) as [amount |]; [| congruence].
  destruct (p_type p) as [tx_type |]; [| congruence].
  destruct (valid_type _); [| congruence].
  destruct (p_transaction_date p) as [[| c s] |]; try congruence.
  destruct (fromisoformat _); congruence.
Qed.

(** X12.  A transaction route that stops at [abort(code)] has changed
    nothing, and the code is 400 or 401 for POST, 400, 401 or 404 for
    PUT, 401 or 404 for DELETE: every [abort] is made before the first
    write.  (A route can also end in an uncaught exception, answered
    with 500, after its write; this is about [abort] only.) *)
Theorem transaction_routes_refuse_before_writing (today : date)
    (new_id row_id : Z) (payload : option transaction_payload) (w : world)
    (code : Z) :
  (eval (create_transaction today new_id payload) w
     = Raise (HTTPException code) ->
   exec (create_transaction today new_id payload) w = w /\
   (code = 400 \/ code = 401)) /\
  (eval (update_transaction today row_id payload) w
     = Raise (HTTPException code) ->
   exec (update_transaction today row_id payload) w = w /\
   (code = 400 \/ code = 401 \/ code = 404)) /\
  (eval (delete_transaction row_id) w = Raise (HTTPException code) ->
   exec (delete_transaction row_id) w = w /\
   (code = 401 \/ code = 404)).
Proof.
  unfold eval, exec.
  rewrite create_transaction_cases, update_transaction_cases,
    delete_transaction_cases.
  destruct (find _ (users w)) as [user |] eqn:Hu.
  2: { cbn. repeat split; auto; injection H as <-; auto. }
  repeat split.
  - destruct (parse_transaction_payload today payload) as [e | data] eqn:Hp;
      [apply parse_transaction_payload_error in Hp; subst; now cbn |].
    revert H. cbn zeta. unfold evaluate_budgets_for_transaction.
    destruct (evaluate_budgets_for_month _ _ _ _) as [w' [e | []]] eqn:E;
      cbn; [| discriminate].
    apply (evaluation_error_with_user _ _ _ _ user) in E; [| exact Hu].
    destruct E as (-> & _). discriminate.
  - destruct (parse_transaction_payload today payload) as [e | data] eqn:Hp;
      [apply parse_transaction_payload_error in Hp; subst; cbn in H;
       injection H as <-; auto |].
    revert H. cbn zeta. unfold evaluate_budgets_for_transaction.
    destruct (evaluate_budgets_for_month _ _ _ _) as [w' [e | []]] eqn:E;
      cbn; [| discriminate].
    apply (evaluation_error_with_user _ _ _ _ user) in E; [| exact Hu].
    destruct E as (-> & _). discriminate.
  - destruct (find _ (transactions w)) as [t0 |]; [| now cbn].
    destruct (parse_transaction_payload today payload) as [e | data] eqn:Hp;
      [apply parse_transaction_payload_error in Hp; subst; now cbn |].
    revert H. cbn zeta. unfold evaluate_budgets_for_transaction.
    destruct (evaluate_budgets_for_month _ _ _ _) as [w' [e | []]] eqn:E;
      cbn; [| discriminate].
    apply (evaluation_error_with_user _ _ _ _ user) in E; [| exact Hu].
    destruct E as (-> & _). discriminate.
  - destruct (find _ (transactions w)) as [t0 |];
      [| cbn in H; injection H as <-; auto].
    destruct (parse_transaction_payload today payload) as [e | data] eqn:Hp;
      [apply parse_transaction_payload_error in Hp; subst; cbn in H;
       injection H as <-; auto |].
    revert H. cbn zeta. unfold evaluate_budgets_for_transaction.
    destruct (evaluate_budgets_for_month _ _ _ _) as [w' [e | []]] eqn:E;
      cbn; [| discriminate].
    apply (evaluation_error_with_user _ _ _ _ user) in E; [| exact Hu].
    destruct E as (-> & _). discriminate.
  - destruct (find _ (transactions w)) as [t0 |]; [| now cbn].
    revert H.
    destruct (evaluate_budgets_for_month _ _ _ _) as [w' [e | []]] eqn:E;
      cbn; [| discriminate].
    apply (evaluation_error_with_user _ _ _ _ user) in E; [| exact Hu].
    destruct E as (-> & _). discriminate.
  - destruct (find _ (transactions w)) as [t0 |];
      [| cbn in H; injection H as <-; auto].
    revert H.
    destruct (evaluate_budgets_for_month _ _ _ _) as [w' [e | []]] eqn:E;
      cbn; [| discriminate].
    apply (evaluation_error_with_user _ _ _ _ user) in E; [| exact Hu].
    destruct E as (-> & _). discriminate.
Qed.

Lemma respond_error (code : Z) (budget : Budget.t) (w : world) (e : error) :
  eval (budget <- refresh budget ;;
        status <- compute_budget_status budget ;;
        ret (code, (budget, status))) w = inl e ->
  e = ValueError.
Proof.
  unfold eval at 1. rewrite respond_run. cbn [snd].
  unfold eval. rewrite compute_budget_status_run. cbn [snd].
  destruct (get_month_bounds _ _) as [err | [s e']] eqn:Hb; [| discriminate].
  intros H. injection H as <-.
  eapply (proj2 (get_month_bounds_failure _ _)); eassumption.
Qed.

(** X13.  A budget route that stops at [abort(code)] has changed
    nothing, and the code is 400 or 401 for POST, 400, 401 or 404 for
    PUT, 401 or 404 for DELETE.  (A route can also end in an uncaught
    exception, answered with 500: a [TypeError] or [OverflowError] of
    [int()] before its write, a [ValueError] of the evaluation after it;
    this is about [abort] only.) *)
Theorem budget_routes_refuse_before_writing (new_id row_id : Z)
    (payload : option budget_payload) (w : world) (code : Z) :
  (eval (create_budget new_id payload) w = Raise (HTTPException code) ->
   exec (create_budget new_id payload) w = w /\
   (code = 400 \/ code = 401)) /\
  (eval (update_budget row_id payload) w = Raise (HTTPException code) ->
   exec (update_budget row_id payload) w = w /\
   (code = 400 \/ code = 401 \/ code = 404)) /\
  (eval (delete_budget row_id) w = Raise (HTTPException code) ->
   exec (delete_budget row_id) w = w /\
   (code = 401 \/ code = 404)).
Proof.
  assert (Hparse : forall e, parse_budget_payload payload = inl e ->
                             e = HTTPException code -> code = 400).
  { intros e He ->. apply parse_budget_payload_error in He.
    destruct He as [He | [He | He]]; congruence. }
  unfold eval, exec.
  rewrite create_budget_cases, update_budget_cases, delete_budget_cases.
  destruct (find _ (users w)) as [user |] eqn:Hu.
  2: { cbn. repeat split; auto; injection H as <-; auto. }
  split; [| split].
  - destruct (parse_budget_payload payload) as [e | data] eqn:Hp.
    { cbn. intros H. injection H as H. rewrite (Hparse e eq_refl H). auto. }
    cbn zeta.
    destruct (evaluate_budgets_for_month _ _ _ _) as [w' [e | []]] eqn:E.
    + apply (evaluation_error_with_user _ _ _ _ user) in E; [| exact Hu].
      destruct E as (-> & _). discriminate.
    + intros H. apply respond_error in H. discriminate.
  - destruct (find _ (budgets w)) as [b0 |].
    2: { cbn. intros H. injection H as <-. auto. }
    destruct (parse_budget_payload payload) as [e | data] eqn:Hp.
    { cbn. intros H. injection H as H. rewrite (Hparse e eq_refl H). auto. }
    destruct (evaluate_budgets_for_month _ _ _ _) as [w' [e | []]] eqn:E.
    + apply (evaluation_error_with_user _ _ _ _ user) in E; [| exact Hu].
      destruct E as (-> & _). discriminate.
    + intros H. apply respond_error in H. discriminate.
  - destruct (find _ (budgets w)) as [b0 |].
    2: { cbn. intros H. injection H as <-. auto. }
    destruct (evaluate_budgets_for_month _ _ _ _) as [w' [e | []]] eqn:E;
      cbn; [| discriminate].
    apply (evaluation_error_with_user _ _ _ _ user) in E; [| exact Hu].
    destruct E as (-> & _). discriminate.
Qed.

(** ** What the handlers write *)

Lemma exec_respond (code : Z) (budget : Budget.t) (w : world) :
  exec (budget <- refresh budget ;;
        status <- compute_budget_status budget ;;
        ret (code, (budget, status))) w = w.
Proof. unfold exec. now rewrite (respond_run code budget w). Qed.

Lemma create_transaction_effect today new_id payload w :
  exec (create_transaction today new_id payload) w = w \/
  exists user data,
    find (fun u => User.id u =? 1) (users w) = Some user /\
    parse_transaction_payload today payload = Ok data /\
    exec (create_transaction today new_id payload) w =
    exec (evaluate_budgets_for_month (User.id user)
            (Calendar.month (d_transaction_date data))
            (Calendar.year (d_transaction_date data)))
      (set_transactions
         (transactions w ++
          [Transaction.mk new_id (User.id user) (d_category_id data)
             (d_amount data) (d_type data) (d_description data)
             (d_transaction_date data)]) w).
Proof.
  unfold exec. rewrite create_transaction_cases.
  destruct (find _ (users w)) as [user |] eqn:Hu; [| now left].
  destruct (parse_transaction_payload today payload) as [e | data] eqn:Hp;
    [now left |].
  right. exists user, data. repeat split. cbn zeta.
  unfold evaluate_budgets_for_transaction.
  cbn [Transaction.user_id Transaction.transaction_date].
  now destruct (evaluate_budgets_for_month _ _ _ _) as [w' [e | []]].
Qed.

Lemma update_transaction_effect today row_id payload w :
  exec (update_transaction today row_id payload) w = w \/
  exists user t0 data,
    find (fun u => User.id u =? 1) (users w) = Some user /\
    find (transaction_is row_id (User.id user)) (transactions w) = Some t0 /\
    parse_transaction_payload today payload = Ok data /\
    exec (update_transaction today row_id payload) w =
    exec (evaluate_budgets_for_month (User.id user)
            (Calendar.month (d_transaction_date data))
            (Calendar.year (d_transaction_date data)))
      (set_transactions
         (update_first (transaction_is row_id (User.id user))
            (set_transaction_data data) (transactions w)) w).
Proof.
  unfold exec. rewrite update_transaction_cases.
  destruct (find _ (users w)) as [user |] eqn:Hu; [| now left].
  destruct (find _ (transactions w)) as [t0 |] eqn:Ht; [| now left].
  destruct (parse_transaction_payload today payload) as [e | data] eqn:Hp;
    [now left |].
  right. exists user, t0, data. repeat split; try assumption. cbn zeta.
  unfold evaluate_budgets_for_transaction.
  cbn [set_transaction_data Transaction.user_id Transaction.transaction_date].
  assert (Hown : Transaction.user_id t0 = User.id user).
  { apply find_some in Ht. unfold transaction_is in Ht. lia. }
  rewrite Hown.
  now destruct (evaluate_budgets_for_month _ _ _ _) as [w' [e | []]].
Qed.

Lemma delete_transaction_effect row_id w :
  exec (delete_transaction row_id) w = w \/
  exists user t0,
    find (fun u => User.id u =? 1) (users w) = Some user /\
    find (transaction_is row_id (User.id user)) (transactions w) = Some t0 /\
    exec (delete_transaction row_id) w =
    exec (evaluate_budgets_for_month (User.id user)
            (Calendar.month (Transaction.transaction_date t0))
            (Calendar.year (Transaction.transaction_date t0)))
      (set_transactions
         (delete_first (transaction_is row_id (User.id user))
            (transactions w)) w).
Proof.
  unfold exec. rewrite delete_transaction_cases.
  destruct (find _ (users w)) as [user |] eqn:Hu; [| now left].
  destruct (find _ (transactions w)) as [t0 |] eqn:Ht; [| now left].
  right. exists user, t0. repeat split; try assumption.
  now destruct (evaluate_budgets_for_month _ _ _ _) as [w' [e | []]].
Qed.

Lemma create_budget_effect new_id payload w :
  exec (create_budget new_id payload) w = w \/
  exists user data,
    find (fun u => User.id u =? 1) (users w) = Some user /\
    parse_budget_payload payload = Ok data /\
    exec (create_budget new_id payload) w =
    exec (evaluate_budgets_for_month (User.id user) (d_month data)
            (d_year data))
      (set_budgets
         (budgets w ++
          [Budget.mk new_id (User.id user) (d_budget_category_id data)
             (d_month data) (d_year data) (d_limit_amount data) false]) w).
Proof.
  unfold exec. rewrite create_budget_cases.
  destruct (find _ (users w)) as [user |] eqn:Hu; [| now left].
  destruct (parse_budget_payload payload) as [e | data] eqn:Hp; [now left |].
  right. exists user, data. repeat split. cbn zeta.
  destruct (evaluate_budgets_for_month _ _ _ _) as [w' [e | []]];
    [reflexivity |].
  apply exec_respond.
Qed.

Lemma update_budget_effect row_id payload w :
  exec (update_budget row_id payload) w = w \/
  exists user b0 data,
    find (fun u => User.id u =? 1) (users w) = Some user /\
    find (budget_is row_id (User.id user)) (budgets w) = Some b0 /\
    parse_budget_payload payload = Ok data /\
    exec (update_budget row_id payload) w =
    exec (evaluate_budgets_for_month (User.id user) (d_month data)
            (d_year data))
      (set_budgets
         (update_first (budget_is row_id (User.id user))
            (set_budget_data data) (budgets w)) w).
Proof.
  unfold exec. rewrite update_budget_cases.
  destruct (find _ (users w)) as [user |] eqn:Hu; [| now left].
  destruct (find _ (budgets w)) as [b0 |] eqn:Hb; [| now left].
  destruct (parse_budget_payload payload) as [e | data] eqn:Hp; [now left |].
  right. exists user, b0, data. repeat split; try assumption.
  destruct (evaluate_budgets_for_month _ _ _ _) as [w' [e | []]];
    [reflexivity |].
  apply exec_respond.
Qed.

Lemma delete_budget_effect row_id w :
  exec (delete_budget row_id) w = w \/
  exists user b0,
    find (fun u => User.id u =? 1) (users w) = Some user /\
    find (budget_is row_id (User.id user)) (budgets w) = Some b0 /\
    exec (delete_budget row_id) w =
    exec (evaluate_budgets_for_month (User.id user) (Budget.month b0)
            (Budget.year b0))
      (set_budgets
         (delete_first (budget_is row_id (User.id user)) (budgets w)) w).
Proof.
  unfold exec. rewrite delete_budget_cases.
  destruct (find _ (users w)) as [user |] eqn:Hu; [| now left].
  destruct (find _ (budgets w)) as [b0 |] eqn:Hb; [| now left].
  right. exists user, b0. repeat split; try assumption.
  now destruct (evaluate_budgets_for_month _ _ _ _) as [w' [e | []]].
Qed.

(** ** Rows of other users *)

Lemma in_update_first_other {R : Type} (sel : R -> bool) (f : R -> R)
    (rows : list R) (r : R) :
  In r rows -> sel r = false -> In r (update_first sel f rows).
Proof.
  induction rows as [| r0 rows IH]; cbn; [tauto |].
  intros [-> | Hin] Hsel.
  - rewrite Hsel. now left.
  - destruct (sel r0); right; auto.
Qed.

Lemma in_delete_first_other {R : Type} (sel : R -> bool) (rows : list R)
    (r : R) :
  In r rows -> sel r = false -> In r (delete_first sel rows).
Proof.
  induction rows as [| r0 rows IH]; cbn; [tauto |].
  intros [-> | Hin] Hsel.
  - rewrite Hsel. now left.
  - destruct (sel r0); [assumption | right; auto].
Qed.

Lemma evaluate_others_kept user m y w w0 :
  User.id user = 1 ->
  others_kept w w0 ->
  others_kept w (exec (evaluate_budgets_for_month (User.id user) m y) w0).
Proof.
  intros Hid (Htx & Hbs).
  destruct (evaluate_frame (User.id user) m y w0) as (_ & _ & Ht & Hrows & _).
  split.
  - intros t Hin Hu. rewrite Ht. auto.
  - intros b Hin Hu. specialize (Hbs b Hin Hu).
    apply In_nth_error in Hbs. destruct Hbs as (i & Hi).
    apply (nth_error_In _ i). apply Hrows; [assumption |].
    unfold in_scope. lia.
Qed.

(** X14.  No route changes or removes a transaction or a budget of
    another user: after each of the six writing routes every row whose
    [user_id] is not 1 is still in its table, its flag included. *)
Theorem other_users_rows_are_kept (today : date) (new_id row_id : Z)
    (payload : option transaction_payload) (budget : option budget_payload)
    (w : world) :
  others_kept w (exec (create_transaction today new_id payload) w) /\
  others_kept w (exec (update_transaction today row_id payload) w) /\
  others_kept w (exec (delete_transaction row_id) w) /\
  others_kept w (exec (create_budget new_id budget) w) /\
  others_kept w (exec (update_budget row_id budget) w) /\
  others_kept w (exec (delete_budget row_id) w).
Proof.
  assert (Hrefl : others_kept w w) by (split; auto).
  repeat split.
  - destruct (create_transaction_effect today new_id payload w)
      as [-> | (user & data & Hu & _ & ->)]; [apply Hrefl |].
    apply evaluate_others_kept; [eapply found_user_id; eassumption |].
    split; cbn; auto. intros t Hin _. apply in_or_app. now left.
  - destruct (create_transaction_effect today new_id payload w)
      as [-> | (user & data & Hu & _ & ->)]; [apply Hrefl |].
    apply evaluate_others_kept; [eapply found_user_id; eassumption |].
    split; cbn; auto. intros t Hin _. apply in_or_app. now left.
  - destruct (update_transaction_effect today row_id payload w)
      as [-> | (user & t0 & data & Hu & _ & _ & ->)]; [apply Hrefl |].
    pose proof (found_user_id _ _ Hu) as Hid.
    apply evaluate_others_kept; [assumption |].
    split; cbn; auto. intros t Hin Hne. apply in_update_first_other; auto.
    unfold transaction_is. lia.
  - destruct (update_transaction_effect today row_id payload w)
      as [-> | (user & t0 & data & Hu & _ & _ & ->)]; [apply Hrefl |].
    pose proof (found_user_id _ _ Hu) as Hid.
    apply evaluate_others_kept; [assumption |].
    split; cbn; auto. intros t Hin Hne. apply in_update_first_other; auto.
    unfold transaction_is. lia.
  - destruct (delete_transaction_effect row_id w)
      as [-> | (user & t0 & Hu & _ & ->)]; [apply Hrefl |].
    pose proof (found_user_id _ _ Hu) as Hid.
    apply evaluate_others_kept; [assumption |].
    split; cbn; auto. intros t Hin Hne. apply in_delete_first_other; auto.
    unfold transaction_is. lia.
  - destruct (delete_transaction_effect row_id w)
      as [-> | (user & t0 & Hu & _ & ->)]; [apply Hrefl |].
    pose proof (found_user_id _ _ Hu) as Hid.
    apply evaluate_others_kept; [assumption |].
    split; cbn; auto. intros t Hin Hne. apply in_delete_first_other; auto.
    unfold transaction_is. lia.
  - destruct (create_budget_effect new_id budget w)
      as [-> | (user & data & Hu & _ & ->)]; [apply Hrefl |].
    apply evaluate_others_kept; [eapply found_user_id; eassumption |].
    split; cbn; auto. intros b Hin _. apply in_or_app. now left.
  - destruct (create_budget_effect new_id budget w)
      as [-> | (user & data & Hu & _ & ->)]; [apply Hrefl |].
    apply evaluate_others_kept; [eapply found_user_id; eassumption |].
    split; cbn; auto. intros b Hin _. apply in_or_app. now left.
  - destruct (update_budget_effect row_id budget w)
      as [-> | (user & b0 & data & Hu & _ & _ & ->)]; [apply Hrefl |].
    pose proof (found_user_id _ _ Hu) as Hid.
    apply evaluate_others_kept; [assumption |].
    split; cbn; auto. intros b Hin Hne. apply in_update_first_other; auto.
    unfold budget_is. lia.
  - destruct (update_budget_effect row_id budget w)
      as [-> | (user & b0 & data & Hu & _ & _ & ->)]; [apply Hrefl |].
    pose proof (found_user_id _ _ Hu) as Hid.
    apply evaluate_others_kept; [assumption |].
    split; cbn; auto. intros b Hin Hne. apply in_update_first_other; auto.
    unfold budget_is. lia.
  - destruct (delete_budget_effect row_id w)
      as [-> | (user & b0 & Hu & _ & ->)]; [apply Hrefl |].
    pose proof (found_user_id _ _ Hu) as Hid.
    apply evaluate_others_kept; [assumption |].
    split; cbn; auto. intros b Hin Hne. apply in_delete_first_other; auto.
    unfold budget_is. lia.
  - destruct (delete_budget_effect row_id w)
      as [-> | (user & b0 & Hu & _ & ->)]; [apply Hrefl |].
    pose proof (found_user_id _ _ Hu) as Hid.
    apply evaluate_others_kept; [assumption |].
    split; cbn; auto. intros b Hin Hne. apply in_delete_first_other; auto.
    unfold budget_is. lia.
Qed.

(** ** Conditions the routes keep *)

Lemma parse_transaction_payload_ok today payload data :
  valid_date today ->
  parse_transaction_payload today payload = Ok data ->
  valid_type (Some (d_type data)) = true /\
  valid_date (d_transaction_date data).
Proof.
  intros Htoday. unfold parse_transaction_payload.
  destruct payload as [p |]; [| discriminate].
  destruct (p_amount p) as [amount |]; [| discriminate].
  destruct (p_type p) as [tx_type |]; [| discriminate].
  destruct (valid_type (Some tx_type)) eqn:Hv; [| discriminate].
  destruct (p_transaction_date p) as [[| c s] |].
  - intros H. injection H as <-. auto.
  - destruct (fromisoformat (String c s)) as [e | d] eqn:Hiso; [discriminate |].
    intros H. injection H as <-. split; [exact Hv |].
    eapply fromisoformat_valid; eassumption.
  - intros H. injection H as <-. auto.
Qed.

Lemma parse_budget_payload_month payload data :
  parse_budget_payload payload = Ok data -> 1 <= d_month data <= 12.
Proof.
  destruct payload as [q |]; [| discriminate].
  intros H. now apply parse_budget_payload_inv in H.
Qed.

Lemma Forall_update_first {R : Type} (P : R -> Prop) (sel : R -> bool)
    (f : R -> R) (rows : list R) :
  (forall r, P (f r)) -> Forall P rows -> Forall P (update_first sel f rows).
Proof.
  intros Hf. induction 1 as [| r rows Hr Hrows IH]; cbn; [constructor |].
  destruct (sel r); constructor; auto.
Qed.

Lemma Forall_delete_first {R : Type} (P : R -> Prop) (sel : R -> bool)
    (rows : list R) :
  Forall P rows -> Forall P (delete_first sel rows).
Proof.
  induction 1 as [| r rows Hr Hrows IH]; cbn; [constructor |].
  destruct (sel r); [assumption | now constructor].
Qed.

Lemma budget_ok_without_flag (l l' : list Budget.t) :
  map without_flag l' = map without_flag l ->
  Forall budget_ok l -> Forall budget_ok l'.
Proof.
  intros Hmap Hl. apply Forall_forall. intros b' Hin.
  assert (H : In (without_flag b') (map without_flag l))
    by (rewrite <- Hmap; now apply in_map).
  apply in_map_iff in H. destruct H as (b & Heq & Hb).
  pose proof (proj1 (Forall_forall _ _) Hl b Hb) as Hok.
  apply (f_equal Budget.month) in Heq. cbn in Heq.
  unfold budget_ok in *. now rewrite <- Heq.
Qed.

Lemma evaluate_rows_ok u m y w :
  rows_ok w -> rows_ok (exec (evaluate_budgets_for_month u m y) w).
Proof.
  intros (Htx & Hbs).
  destruct (evaluate_keeps u m y w) as (_ & _ & Ht & Hb & _).
  split; [now rewrite Ht |].
  eapply budget_ok_without_flag; eassumption.
Qed.

(** X15.  The routes keep the tables well formed: if every transaction
    has a type of income or expense and a date of the calendar, and every
    budget a month in 1..12, the same holds after each of the six writing
    routes, whatever the request and however it is answered. *)
Theorem routes_keep_rows_ok (today : date) (new_id row_id : Z)
    (payload : option transaction_payload) (budget : option budget_payload)
    (w : world) :
  valid_date today ->
  rows_ok w ->
  rows_ok (exec (create_transaction today new_id payload) w) /\
  rows_ok (exec (update_transaction today row_id payload) w) /\
  rows_ok (exec (delete_transaction row_id) w) /\
  rows_ok (exec (create_budget new_id budget) w) /\
  rows_ok (exec (update_budget row_id budget) w) /\
  rows_ok (exec (delete_budget row_id) w).
Proof.
  intros Htoday Hw. pose proof Hw as (Htx & Hbs).
  split; [| split; [| split; [| split; [| split]]]].
  - destruct (create_transaction_effect today new_id payload w)
      as [-> | (user & data & _ & Hp & ->)]; [exact Hw |].
    apply evaluate_rows_ok. split; cbn; [| exact Hbs].
    apply Forall_app. split; [exact Htx |]. constructor; [| constructor].
    exact (parse_transaction_payload_ok _ _ _ Htoday Hp).
  - destruct (update_transaction_effect today row_id payload w)
      as [-> | (user & t0 & data & _ & _ & Hp & ->)]; [exact Hw |].
    apply evaluate_rows_ok. split; cbn; [| exact Hbs].
    apply Forall_update_first; [| exact Htx]. intros t.
    exact (parse_transaction_payload_ok _ _ _ Htoday Hp).
  - destruct (delete_transaction_effect row_id w)
      as [-> | (user & t0 & _ & _ & ->)]; [exact Hw |].
    apply evaluate_rows_ok. split; cbn; [| exact Hbs].
    now apply Forall_delete_first.
  - destruct (create_budget_effect new_id budget w)
      as [-> | (user & data & _ & Hp & ->)]; [exact Hw |].
    apply evaluate_rows_ok. split; cbn; [exact Htx |].
    apply Forall_app. split; [exact Hbs |]. constructor; [| constructor].
    exact (parse_budget_payload_month _ _ Hp).
  - destruct (update_budget_effect row_id budget w)
      as [-> | (user & b0 & data & _ & _ & Hp & ->)]; [exact Hw |].
    apply evaluate_rows_ok. split; cbn; [exact Htx |].
    apply Forall_update_first; [| exact Hbs]. intros b.
    exact (parse_budget_payload_month _ _ Hp).
  - destruct (delete_budget_effect row_id w)
      as [-> | (user & b0 & _ & _ & ->)]; [exact Hw |].
    apply evaluate_rows_ok. split; cbn; [exact Htx |].
    now apply Forall_delete_first.
Qed.

Lemma routes_keep_rows_ok_witness :
  let w := Demo.world_with [Demo.expense 1 5000 (mkdate 2024 6 5)] false in
  rows_ok (exec (create_transaction Demo.today 2
                   (Demo.payload 6000 "2024-06-10")) w) /\
  rows_ok (exec (update_budget 1
                   (Some (mk_budget_payload (Some (JInt 7)) (Some (JInt 0))
                            (Some 100) None))) w).
Proof.
  intros w.
  destruct (routes_keep_rows_ok Demo.today 2 1
              (Demo.payload 6000 "2024-06-10")
              (Some (mk_budget_payload (Some (JInt 7)) (Some (JInt 0))
                       (Some 100) None)) w)
    as (Hcreate & _ & _ & _ & Hupdate & _).
  - reflexivity.
  - split.
    + constructor; [split; reflexivity | constructor].
    + constructor; [unfold budget_ok; cbn; lia | constructor].
  - split; assumption.
Defined.

(** ** What a transaction route writes *)

(** X16.  POST /api/transactions with a payload that parses into a row
    the database accepts (an amount within [Numeric(10, 2)], a category
    that is null or has a row) appends one row, made of the new id, the
    user and the parsed data, and changes no other row, no category and
    of the budgets only flags.  It answers 201 with that row, or it
    raises [ValueError] in the evaluation: then the row is stored all the
    same, and no flag and no output has changed. *)
Theorem create_transaction_appends_one_row (today : date) (new_id : Z)
    (payload : option transaction_payload) (w : world) (uid : Z)
    (data : transaction_data) :
  eval get_current_user_id w = Ok uid ->
  parse_transaction_payload today payload = Ok data ->
  storable_transaction w data ->
  let t := Transaction.mk new_id uid (d_category_id data) (d_amount data)
             (d_type data) (d_description data) (d_transaction_date data) in
  let w' := exec (create_transaction today new_id payload) w in
  transactions w' = transactions w ++ [t] /\
  users w' = users w /\ categories w' = categories w /\
  map without_flag (budgets w') = map without_flag (budgets w) /\
  (eval (create_transaction today new_id payload) w = Ok (201, t) \/
   eval (create_transaction today new_id payload) w = Raise ValueError /\
   budgets w' = budgets w /\ stdout w' = stdout w).
Proof.
  intros Huid Hp _ t w'.
  apply eval_get_current_user_id in Huid. destruct Huid as (user & Hu & Hid).
  unfold w', exec, eval. rewrite create_transaction_cases, Hu, Hp.
  rewrite Hid. fold t. cbn zeta.
  unfold evaluate_budgets_for_transaction.
  cbn [Transaction.user_id Transaction.transaction_date t].
  set (w0 := set_transactions (transactions w ++ [t]) w).
  destruct (evaluate_keeps uid (Calendar.month (d_transaction_date data))
              (Calendar.year (d_transaction_date data)) w0)
    as (Hus & Hcs & Hts & Hbs & _).
  unfold exec in Hus, Hcs, Hts, Hbs.
  destruct (evaluate_budgets_for_month uid _ _ w0) as [w1 [e | []]] eqn:E;
    cbn [fst snd] in *.
  - repeat split; auto. right.
    apply (evaluation_error_with_user _ _ _ _ user) in E; [| exact Hu].
    destruct E as (-> & ->). auto.
  - repeat split; auto.
Qed.

Lemma create_transaction_appends_one_row_witness :
  let w := mkworld [Demo.user] [Demo.food] []
             [Budget.mk 1 1 None 12 9999 10000 false] [] in
  let post := create_transaction Demo.today 1 (Demo.payload 500 "9999-12-31") in
  transactions (exec post w) = [Demo.expense 1 500 (mkdate 9999 12 31)] /\
  eval post w = Raise ValueError.
Proof.
  intros w post.
  destruct (create_transaction_appends_one_row Demo.today 1
              (Demo.payload 500 "9999-12-31") w 1
              (mk_transaction_data 500 "expense" (Some 1) None
                 (mkdate 9999 12 31)))
    as (Htx & _ & _ & _ & _).
  - reflexivity.
  - reflexivity.
  - split; [unfold numeric_10_2; cbn; lia | left; reflexivity].
  - split; [exact Htx | reflexivity].
Defined.

Lemma map_update_first {R S : Type} (g : R -> S) (sel : R -> bool)
    (f : R -> R) (rows : list R) :
  (forall r, g (f r) = g r) ->
  map g (update_first sel f rows) = map g rows.
Proof.
  intros Hg. induction rows as [| r rows IH]; cbn; [reflexivity |].
  destruct (sel r); cbn; congruence.
Qed.

(** X17.  PUT /api/transactions/<id> changes neither the id nor the owner
    of any transaction, adds and removes none, and leaves every
    transaction with another id as it was, whatever the payload and the
    answer. *)
Theorem update_transaction_keeps_ids_and_owners (today : date) (row_id : Z)
    (payload : option transaction_payload) (w : world) :
  let w' := exec (update_transaction today row_id payload) w in
  map Transaction.id (transactions w') = map Transaction.id (transactions w) /\
  map Transaction.user_id (transactions w')
    = map Transaction.user_id (transactions w) /\
  forall i t, nth_error (transactions w) i = Some t ->
              Transaction.id t <> row_id ->
              nth_error (transactions w') i = Some t.
Proof.
  intros w'. unfold w'.
  destruct (update_transaction_effect today row_id payload w)
    as [-> | (user & t0 & data & _ & _ & _ & ->)]; [auto |].
  match goal with |- context [exec (evaluate_budgets_for_month ?u ?m ?y) ?w0] =>
    destruct (evaluate_keeps u m y w0) as (_ & _ & -> & _)
  end.
  cbn [transactions set_transactions]. repeat split.
  - now apply map_update_first.
  - now apply map_update_first.
  - intros i t Hi Hne. apply nth_error_update_first; [assumption |].
    unfold transaction_is. lia.
Qed.

Lemma delete_first_pk {R : Type} (id : R -> Z) (sel : R -> bool) (k : Z)
    (rows : list R) (r0 : R) :
  pk_unique id rows ->
  (forall r, sel r = true -> id r = k) ->
  find sel rows = Some r0 ->
  delete_first sel rows = filter (fun r => negb (id r =? k)) rows.
Proof.
  unfold pk_unique. intros Hpk Hsel.
  induction rows as [| r rows IH]; cbn; [discriminate |].
  inversion Hpk as [| ? ? Hnotin Hpk']; subst.
  destruct (sel r) eqn:E.
  - intros _. rewrite (Hsel r E), Z.eqb_refl. cbn.
    symmetry. apply forallb_filter_id. apply forallb_forall.
    intros r' Hin. apply negb_true_iff. apply Z.eqb_neq. intros Heq.
    apply Hnotin. rewrite (Hsel r E), <- Heq. now apply in_map.
  - intros Hfind. pose proof (find_some _ _ Hfind) as (Hin & Hr0).
    assert (Hne : id r <> k).
    { intros Heq. apply Hnotin. rewrite Heq, <- (Hsel r0 Hr0). now apply in_map. }
    apply Z.eqb_neq in Hne. rewrite Hne. cbn. f_equal. now apply IH.
Qed.

(** X18.  DELETE /api/transactions/<id> of a transaction of the user
    removes that row and no other, its id being a primary key, and then
    evaluates the month and year the deleted transaction had. *)
Theorem delete_transaction_removes_the_row (row_id : Z) (w : world) (uid : Z)
    (t0 : Transaction.t) :
  pk_unique Transaction.id (transactions w) ->
  eval get_current_user_id w = Ok uid ->
  find (transaction_is row_id uid) (transactions w) = Some t0 ->
  let w' := exec (delete_transaction row_id) w in
  let rest := filter (fun t => negb (Transaction.id t =? row_id))
                (transactions w) in
  transactions w' = rest /\
  ~ In row_id (map Transaction.id (transactions w')) /\
  w' = exec (evaluate_budgets_for_month uid
               (Calendar.month (Transaction.transaction_date t0))
               (Calendar.year (Transaction.transaction_date t0)))
         (set_transactions rest w).
Proof.
  intros Hpk Huid Ht w' rest.
  apply eval_get_current_user_id in Huid. destruct Huid as (user & Hu & Hid).
  assert (Hw' : w' = exec (evaluate_budgets_for_month uid
                             (Calendar.month (Transaction.transaction_date t0))
                             (Calendar.year (Transaction.transaction_date t0)))
                       (set_transactions rest w)).
  { unfold w', exec. rewrite delete_transaction_cases, Hu, Hid, Ht.
    rewrite (delete_first_pk Transaction.id _ row_id _ t0 Hpk); [| | exact Ht].
    - fold rest.
      now destruct (evaluate_budgets_for_month _ _ _ _) as [w1 [e | []]].
    - intros r Hr. unfold transaction_is in Hr. lia. }
  assert (Htx : transactions w' = rest).
  { rewrite Hw'.
    match goal with |- context [exec (evaluate_budgets_for_month ?u ?m ?y) ?w0] =>
      destruct (evaluate_keeps u m y w0) as (_ & _ & -> & _)
    end. reflexivity. }
  repeat split; [exact Htx | | exact Hw'].
  rewrite Htx. unfold rest. rewrite in_map_iff. intros (t & Hid' & Hin).
  apply filter_In in Hin. destruct Hin as (_ & Hne).
  apply negb_true_iff in Hne. apply Z.eqb_neq in Hne. contradiction.
Qed.

Lemma delete_transaction_removes_the_row_witness :
  let w := Demo.world_with
             [Demo.expense 1 5000 (mkdate 2024 6 5);
              Demo.expense 2 6000 (mkdate 2024 6 10)] true in
  transactions (exec (delete_transaction 2) w)
    = [Demo.expense 1 5000 (mkdate 2024 6 5)] /\
  ~ In 2 (map Transaction.id (transactions (exec (delete_transaction 2) w))).
Proof.
  intros w.
  destruct (delete_transaction_removes_the_row 2 w 1
              (Demo.expense 2 6000 (mkdate 2024 6 10)))
    as (Htx & Hgone & _).
  - repeat constructor; cbn; intuition discriminate.
  - reflexivity.
  - reflexivity.
  - split; [exact Htx | exact Hgone].
Defined.

Lemma find_none_iff {R : Type} (p : R -> bool) (rows : list R) :
  (forall r, In r rows -> p r = false) -> find p rows = None.
Proof.
  induction rows as [| r rows IH]; cbn; [reflexivity |].
  intros H. rewrite (H r) by now left. apply IH. intros r' Hin. apply H.
  now right.
Qed.

(** X19.  A row that does not exist and a row of another user are the
    same to PUT and DELETE: with no row of that id owned by user 1 they
    answer 404, for transactions and for budgets. *)
Theorem foreign_rows_are_not_found (today : date) (row_id : Z)
    (payload : option transaction_payload) (budget : option budget_payload)
    (w : world) (user : User.t) :
  eval get_current_user w = Ok user ->
  ((forall t, In t (transactions w) -> Transaction.id t = row_id ->
              Transaction.user_id t <> 1) ->
   eval (update_transaction today row_id payload) w
     = Raise (HTTPException 404) /\
   eval (delete_transaction row_id) w = Raise (HTTPException 404)) /\
  ((forall b, In b (budgets w) -> Budget.id b = row_id ->
              Budget.user_id b <> 1) ->
   eval (update_budget row_id budget) w = Raise (HTTPException 404) /\
   eval (delete_budget row_id) w = Raise (HTTPException 404)).
Proof.
  intros Hu. apply eval_get_current_user in Hu.
  pose proof (found_user_id _ _ Hu) as Hid.
  unfold eval.
  rewrite update_transaction_cases, delete_transaction_cases,
    update_budget_cases, delete_budget_cases, Hu, Hid.
  split; intros Hnone.
  - rewrite (find_none_iff (transaction_is row_id 1) (transactions w)); auto.
    intros t Hin. specialize (Hnone t Hin). unfold transaction_is. lia.
  - rewrite (find_none_iff (budget_is row_id 1) (budgets w)); auto.
    intros b Hin. specialize (Hnone b Hin). unfold budget_is. lia.
Qed.

Lemma foreign_rows_are_not_found_witness :
  let w := mkworld [Demo.user] [Demo.food]
             [Transaction.mk 7 2 None 100 "expense" None (mkdate 2024 6 5)]
             [Budget.mk 7 2 None 6 2024 100 false] [] in
  eval (delete_transaction 7) w = Raise (HTTPException 404) /\
  eval (delete_budget 7) w = Raise (HTTPException 404).
Proof.
  intros w.
  destruct (foreign_rows_are_not_found Demo.today 7 None None w Demo.user)
    as (Htx & Hbs).
  - reflexivity.
  - split.
    + apply Htx. intros t [<- | []] _. discriminate.
    + apply Hbs. intros b [<- | []] _. discriminate.
Defined.

(** ** What a budget route writes and answers *)

Lemma find_app_fresh {R : Type} (p : R -> bool) (rows : list R) (r : R) :
  (forall r', In r' rows -> p r' = false) -> p r = true ->
  find p (rows ++ [r]) = Some r.
Proof.
  induction rows as [| r0 rows IH]; cbn; intros Hrows Hr.
  - now rewrite Hr.
  - rewrite (Hrows r0) by now left. apply IH; auto.
Qed.

Lemma find_map_keeps {R : Type} (p : R -> bool) (f : R -> R) (rows : list R) :
  (forall r, p (f r) = p r) ->
  find p (map f rows) = option_map f (find p rows).
Proof.
  intros Hp. induction rows as [| r rows IH]; cbn; [reflexivity |].
  rewrite Hp. now destruct (p r).
Qed.

(** X20.  The answer of POST /api/budgets, when it is a response, is 201
    with the new budget as the evaluation left it: the id given, the
    user, the data of the payload, and a flag that already says whether
    the budget is over its limit, for the [spent] of the same response. *)
Theorem create_budget_answers_the_evaluated_budget (new_id : Z)
    (payload : option budget_payload) (w : world) (uid : Z)
    (data : budget_data) (code : Z) (b : Budget.t) (status : budget_status) :
  ~ In new_id (map Budget.id (budgets w)) ->
  eval get_current_user_id w = Ok uid ->
  parse_budget_payload payload = Ok data ->
  eval (create_budget new_id payload) w = Ok (code, (b, status)) ->
  code = 201 /\
  b = Budget.mk new_id uid (d_budget_category_id data) (d_month data)
        (d_year data) (d_limit_amount data)
        (gt (spent status) (float_of_decimal (d_limit_amount data))) /\
  remaining status = sub (float_of_decimal (d_limit_amount data)) (spent status) /\
  In b (budgets (exec (create_budget new_id payload) w)).
Proof.
  intros Hfresh Huid Hp.
  apply eval_get_current_user_id in Huid. destruct Huid as (user & Hu & Hid).
  unfold eval at 1, exec. rewrite create_budget_cases, Hu, Hp, Hid. cbn zeta.
  set (b0 := Budget.mk new_id uid (d_budget_category_id data) (d_month data)
               (d_year data) (d_limit_amount data) false).
  set (w0 := set_budgets (budgets w ++ [b0]) w).
  destruct (evaluate_budgets_for_month uid (d_month data) (d_year data) w0)
    as [w1 [e | []]] eqn:E; [discriminate |].
  rewrite respond_run. cbn [fst snd].
  assert (Hsel : in_scope uid (d_month data) (d_year data) b0 = true).
  { unfold in_scope, b0. cbn. now rewrite !Z.eqb_refl. }
  apply evaluation_cases in E.
  inversion E as [Hu' Hw Hr | user' err Hu' Hb Hw Hr | user' s e Hu' Hb Hw Hr];
    subst w1.
  { exfalso. revert Hr. unfold w0. cbn [budgets set_budgets].
    rewrite existsb_app. cbn [existsb]. rewrite Hsel, orb_true_r. discriminate. }
  clear Hr E. subst w0.
  cbn [budgets transactions categories users stdout set_budgets].
  rewrite (find_map_keeps (fun b1 => Budget.id b1 =? Budget.id b0)
             (settled (in_scope uid (d_month data) (d_year data)) s e
                (transactions w))).
  2: { intros r. unfold settled. now destruct (in_scope _ _ _ r). }
  rewrite find_app_fresh.
  2: { intros r Hin. apply Z.eqb_neq. intros Heq. apply Hfresh.
       unfold b0 in Heq. cbn in Heq. rewrite <- Heq. now apply in_map. }
  2: { cbn. apply Z.eqb_refl. }
  cbn [option_map]. unfold settled at 1 2. rewrite Hsel.
  unfold eval. rewrite compute_budget_status_run.
  cbn [snd Budget.year Budget.month Budget.set_alert_sent b0].
  rewrite Hb. cbn [transactions].
  intros H. injection H as <- <- <-. cbn [spent remaining].
  split; [reflexivity |]. split; [| split; [reflexivity |]].
  - unfold settled. rewrite Hsel. reflexivity.
  - apply in_map_iff. exists b0. split; [reflexivity |].
    apply in_or_app. right. now left.
Qed.

Lemma create_budget_answers_the_evaluated_budget_witness :
  let w := Demo.world_with [Demo.expense 1 5000 (mkdate 2024 6 5)] false in
  let b := Budget.mk 2 1 None 6 2024 4000 true in
  eval (create_budget 2
          (Some (mk_budget_payload (Some (JInt 6)) (Some (JInt 2024))
                   (Some 4000) None))) w
    = Ok (201, (b, mk_budget_status (float_of_decimal 5000)
                     (sub (float_of_decimal 4000) (float_of_decimal 5000)))) /\
  In b (budgets (exec (create_budget 2
                         (Some (mk_budget_payload (Some (JInt 6))
                                  (Some (JInt 2024)) (Some 4000) None))) w)).
Proof.
  intros w b. split; [reflexivity |].
  destruct (create_budget_answers_the_evaluated_budget 2
              (Some (mk_budget_payload (Some (JInt 6)) (Some (JInt 2024))
                       (Some 4000) None))
              w 1 (mk_budget_data 6 2024 4000 None) 201 b
              (mk_budget_status (float_of_decimal 5000)
                 (sub (float_of_decimal 4000) (float_of_decimal 5000))))
    as (_ & _ & _ & Hin).
  - cbn. intuition discriminate.
  - reflexivity.
  - reflexivity.
  - reflexivity.
  - exact Hin.
Defined.

(** ** Sorting and listing *)

Lemma insert_by_perm {R : Type} (leb : R -> R -> bool) r rows :
  Permutation (insert_by leb r rows) (r :: rows).
Proof.
  induction rows as [| r' rows IH]; cbn; [reflexivity |].
  destruct (leb r r'); [reflexivity |].
  rewrite IH. apply perm_swap.
Qed.

Lemma order_by_perm {R : Type} (leb : R -> R -> bool) rows :
  Permutation (order_by leb rows) rows.
Proof.
  induction rows as [| r rows IH]; cbn; [reflexivity |].
  rewrite insert_by_perm. now constructor.
Qed.

Lemma insert_by_sorted {R : Type} (leb : R -> R -> bool) r rows :
  (forall a b, leb a b = false -> leb b a = true) ->
  Sorted (fun a b => leb a b = true) rows ->
  Sorted (fun a b => leb a b = true) (insert_by leb r rows).
Proof.
  intros Htotal. induction 1 as [| r' rows Hs IH Hhd]; cbn.
  - repeat constructor.
  - destruct (leb r r') eqn:E.
    + constructor; [now constructor | now constructor].
    + constructor; [exact IH |].
      destruct rows as [| r'' rows]; cbn.
      * constructor. now apply Htotal.
      * destruct (leb r r''); constructor; [now apply Htotal |].
        now inversion Hhd.
Qed.

Lemma order_by_sorted {R : Type} (leb : R -> R -> bool) rows :
  (forall a b, leb a b = false -> leb b a = true) ->
  Sorted (fun a b => leb a b = true) (order_by leb rows).
Proof.
  intros Htotal. induction rows as [| r rows IH]; cbn; [constructor |].
  now apply insert_by_sorted.
Qed.

Lemma date_compare_swap a b : date_compare b a = CompOpp (date_compare a b).
Proof.
  unfold date_compare.
  rewrite (Z.compare_antisym (Calendar.year a) (Calendar.year b)),
    (Z.compare_antisym (Calendar.month a) (Calendar.month b)),
    (Z.compare_antisym (Calendar.day a) (Calendar.day b)).
  destruct (Calendar.year a ?= Calendar.year b); try reflexivity.
  destruct (Calendar.month a ?= Calendar.month b); reflexivity.
Qed.

Lemma transaction_leb_total a b :
  transaction_leb a b = false -> transaction_leb b a = true.
Proof.
  unfold transaction_leb, date_leb.
  rewrite (date_compare_swap (Transaction.transaction_date b)
             (Transaction.transaction_date a)).
  now destruct (date_compare _ _).
Qed.

Lemma category_leb_total a b :
  category_leb a b = false -> category_leb b a = true.
Proof.
  unfold category_leb.
  rewrite (String.compare_antisym (Category.type b) (Category.type a)).
  destruct (String.compare (Category.type a) (Category.type b)); cbn;
    try congruence.
  intros H. destruct (String.leb_total (Category.name a) (Category.name b));
    congruence.
Qed.

Lemma budget_leb_total a b : budget_leb a b = false -> budget_leb b a = true.
Proof. unfold budget_leb. lia. Qed.

(** X21.  GET /api/transactions, with a user 1, answers the transactions
    of that user and no other, each once, with no date before the date
    of the row that follows it; it changes nothing. *)
Theorem list_transactions_lists_by_date (w : world) (user : User.t) :
  eval get_current_user w = Ok user ->
  exists rows,
    list_transactions w = (w, Ok rows) /\
    Permutation rows
      (filter (fun t => Transaction.user_id t =? 1) (transactions w)) /\
    Sorted (fun a b => date_leb (Transaction.transaction_date b)
                         (Transaction.transaction_date a) = true) rows.
Proof.
  intros Hu. apply eval_get_current_user in Hu.
  pose proof (found_user_id _ _ Hu) as Hid.
  eexists. split; [| split].
  - unfold list_transactions, get_current_user_id, bind, gets.
    rewrite get_current_user_run, Hu. cbn [ret]. rewrite Hid. reflexivity.
  - apply order_by_perm.
  - apply (order_by_sorted transaction_leb). apply transaction_leb_total.
Qed.

Lemma list_transactions_lists_by_date_witness :
  list_transactions
    (Demo.world_with [Demo.expense 1 5000 (mkdate 2024 6 5);
                      Demo.expense 2 6000 (mkdate 2024 6 10)] false)
  = (Demo.world_with [Demo.expense 1 5000 (mkdate 2024 6 5);
                      Demo.expense 2 6000 (mkdate 2024 6 10)] false,
     Ok [Demo.expense 2 6000 (mkdate 2024 6 10);
         Demo.expense 1 5000 (mkdate 2024 6 5)]).
Proof.
  destruct (list_transactions_lists_by_date
              (Demo.world_with [Demo.expense 1 5000 (mkdate 2024 6 5);
                                Demo.expense 2 6000 (mkdate 2024 6 10)] false)
              Demo.user)
    as (rows & Hrun & _).
  - reflexivity.
  - reflexivity.
Defined.

Lemma Sorted_impl {R : Type} (P Q : R -> R -> Prop) (rows : list R) :
  (forall a b, P a b -> Q a b) -> Sorted P rows -> Sorted Q rows.
Proof.
  intros HPQ. induction 1 as [| r rows Hs IH Hhd]; constructor; [exact IH |].
  destruct Hhd; constructor. now apply HPQ.
Qed.

(** X22.  GET /api/categories, with a user 1, answers the categories of
    that user and no other, each once, ordered by type descending and,
    within a type, by name ascending; it changes nothing. *)
Theorem list_categories_lists_by_type_and_name (w : world) (user : User.t) :
  eval get_current_user w = Ok user ->
  exists rows,
    list_categories w = (w, Ok rows) /\
    Permutation rows
      (filter (fun c => opt_eqb (Category.user_id c) 1) (categories w)) /\
    Sorted (fun a b =>
              String.compare (Category.type a) (Category.type b) = Gt \/
              Category.type a = Category.type b /\
              String.leb (Category.name a) (Category.name b) = true) rows.
Proof.
  intros Hu. apply eval_get_current_user in Hu.
  pose proof (found_user_id _ _ Hu) as Hid.
  eexists. split; [| split].
  - unfold list_categories, get_current_user_id, bind, gets.
    rewrite get_current_user_run, Hu. cbn [ret]. rewrite Hid. reflexivity.
  - apply order_by_perm.
  - apply (Sorted_impl (fun a b => category_leb a b = true)).
    + intros a b. unfold category_leb.
      destruct (String.compare (Category.type a) (Category.type b)) eqn:E;
        [| discriminate | auto].
      apply String.compare_eq_iff in E. auto.
    + apply order_by_sorted. apply category_leb_total.
Qed.

Lemma list_categories_lists_by_type_and_name_witness :
  let salary := Category.mk 3 (Some 1) "Salary" "income" in
  let w := mkworld [Demo.user] [Demo.rent; salary; Demo.food] [] [] [] in
  list_categories w = (w, Ok [salary; Demo.food; Demo.rent]).
Proof.
  intros salary w.
  destruct (list_categories_lists_by_type_and_name w Demo.user)
    as (rows & Hrun & _).
  - reflexivity.
  - reflexivity.
Defined.

(** ** Comprehensions over budgets *)

Lemma mapM_pure {A B : Type} (f : A -> M B) (r : A -> result B) (w : world)
    (xs : list A) :
  (forall x, f x w = (w, r x)) -> mapM f xs w = (w, traverse r xs).
Proof.
  intros Hf. induction xs as [| x xs IH]; [reflexivity |].
  cbn [mapM traverse]. unfold bind at 1. rewrite Hf.
  destruct (r x) as [e | y]; [reflexivity |].
  unfold bind. rewrite IH.
  now destruct (traverse r xs).
Qed.

Lemma traverse_ok {A B : Type} (r : A -> result B) (xs : list A) : forall ys,
  traverse r xs = Ok ys -> Forall2 (fun x y => r x = Ok y) xs ys.
Proof.
  induction xs as [| x xs IH]; cbn; intros ys H.
  - injection H as <-. constructor.
  - destruct (r x) as [e | y] eqn:Hx; [discriminate |].
    destruct (traverse r xs) as [e | ys']; [discriminate |].
    injection H as <-. constructor; auto.
Qed.

Lemma traverse_error {A B : Type} (r : A -> result B) (xs : list A) e :
  traverse r xs = inl e -> exists x, In x xs /\ r x = inl e.
Proof.
  induction xs as [| x xs IH]; cbn; [discriminate |].
  destruct (r x) as [e' | y] eqn:Hx.
  - intros H. injection H as <-. exists x. auto.
  - destruct (traverse r xs) as [e' | ys]; [| discriminate].
    intros H. injection H as <-. destruct (IH eq_refl) as (x' & Hin & Hx').
    exists x'. auto.
Qed.

Lemma traverse_fails {A B : Type} (r : A -> result B) (xs : list A) x e :
  In x xs -> r x = inl e -> exists e', traverse r xs = inl e'.
Proof.
  induction xs as [| x0 xs IH]; cbn; [tauto |].
  intros [-> | Hin] Hx.
  - rewrite Hx. eauto.
  - destruct (r x0); [eauto |].
    destruct (IH Hin Hx) as (e' & ->). eauto.
Qed.

Lemma status_of_error w b e :
  status_of w b = inl e ->
  e = ValueError /\
  get_month_bounds (Budget.year b) (Budget.month b) = Raise ValueError.
Proof.
  unfold status_of, eval. rewrite compute_budget_status_run. cbn [snd].
  destruct (get_month_bounds _ _) as [err | [s e']] eqn:Hb; [| discriminate].
  intros H. injection H as <-.
  pose proof (proj2 (get_month_bounds_failure _ _) err Hb) as ->. auto.
Qed.

Lemma status_of_raises w b :
  get_month_bounds (Budget.year b) (Budget.month b) = Raise ValueError ->
  status_of w b = Raise ValueError.
Proof.
  intros Hb. unfold status_of, eval.
  now rewrite compute_budget_status_run, Hb.
Qed.

Lemma with_status_run w b :
  (status <- compute_budget_status b ;; ret (b, status)) w =
  (w, match status_of w b with
      | inl e => inl e
      | inr status => Ok (b, status)
      end).
Proof.
  unfold bind, status_of, eval. rewrite compute_budget_status_run. cbn [snd].
  now destruct (get_month_bounds _ _) as [e | [s e]].
Qed.

Lemma traverse_with_status w (bs : list Budget.t) rows :
  traverse (fun b => match status_of w b with
                     | inl e => inl e
                     | inr status => Ok (b, status)
                     end) bs = Ok rows ->
  map fst rows = bs /\
  forall b status, In (b, status) rows -> status_of w b = Ok status.
Proof.
  intros H. apply traverse_ok in H.
  induction H as [| b [b' st] bs rows Hb _ IH];
    [split; [reflexivity | intros b status []] |].
  destruct IH as (Hfst & Hst).
  destruct (status_of w b) as [e | st'] eqn:E; [discriminate |].
  injection Hb as <- <-. split; [cbn; now rewrite Hfst |].
  intros b0 st0 [Heq | Hin]; [injection Heq as <- <-; exact E | auto].
Qed.

Lemma list_budgets_run arg_month arg_year w user :
  find (fun u => User.id u =? 1) (users w) = Some user ->
  list_budgets arg_month arg_year w =
  (w, traverse (fun b => match status_of w b with
                         | inl e => inl e
                         | inr status => Ok (b, status)
                         end)
        (order_by budget_leb
           (filter (listed 1 arg_month arg_year) (budgets w)))).
Proof.
  intros Hu. unfold list_budgets, get_current_user_id. unfold bind at 1 2.
  rewrite get_current_user_run, Hu. cbn [ret]. unfold bind at 1, gets.
  rewrite (found_user_id _ _ Hu).
  apply mapM_pure. intros b. apply with_status_run.
Qed.

(** X23.  GET /api/budgets, with a user 1, changes nothing.  It raises
    [ValueError], and nothing else, exactly when one of the budgets it
    selects has a month and year without window.  Otherwise it answers
    the selected budgets, each once and each with its status, most recent
    year first and, within a year, most recent month first.  The
    selection is by user and by the month and year given, an argument of
    0 selecting like an absent one. *)
Theorem list_budgets_lists_by_recency (arg_month arg_year : option Z)
    (w : world) (user : User.t) :
  eval get_current_user w = Ok user ->
  let selected := filter (listed 1 arg_month arg_year) (budgets w) in
  exec (list_budgets arg_month arg_year) w = w /\
  (forall e, eval (list_budgets arg_month arg_year) w = inl e ->
             e = ValueError) /\
  (eval (list_budgets arg_month arg_year) w = Raise ValueError <->
   exists b, In b selected /\
             get_month_bounds (Budget.year b) (Budget.month b)
               = Raise ValueError) /\
  (forall rows,
     eval (list_budgets arg_month arg_year) w = Ok rows ->
     Permutation (map fst rows) selected /\
     Sorted (fun a b => Budget.year b < Budget.year a \/
                        Budget.year b = Budget.year a /\
                        Budget.month b <= Budget.month a) (map fst rows) /\
     forall b status, In (b, status) rows -> status_of w b = Ok status) /\
  list_budgets (Some 0) arg_year w = list_budgets None arg_year w /\
  list_budgets arg_month (Some 0) w = list_budgets arg_month None w.
Proof.
  intros Hu selected. apply eval_get_current_user in Hu.
  unfold exec, eval. rewrite !(list_budgets_run _ _ w user Hu).
  fold selected. cbn [fst snd].
  split; [reflexivity |]. split; [| split; [| split; [| split]]].
  - intros e He. apply traverse_error in He. destruct He as (b & _ & Hb).
    destruct (status_of w b) as [e' | st] eqn:E; [| discriminate].
    injection Hb as <-. now apply status_of_error in E.
  - split.
    + intros He. apply traverse_error in He. destruct He as (b & Hin & Hb).
      exists b. split.
      * apply (Permutation_in b (order_by_perm budget_leb selected) Hin).
      * destruct (status_of w b) as [e' | st] eqn:E; [| discriminate].
        now apply status_of_error in E.
    + intros (b & Hin & Hb).
      destruct (traverse_fails
                  (fun b => match status_of w b with
                            | inl e => inl e
                            | inr status => Ok (b, status)
                            end)
                  (order_by budget_leb selected) b ValueError) as (e' & He').
      * apply (Permutation_in b (Permutation_sym (order_by_perm budget_leb selected)) Hin).
      * now rewrite (status_of_raises w b Hb).
      * rewrite He'. f_equal.
        apply traverse_error in He'. destruct He' as (b' & _ & Hb').
        destruct (status_of w b') as [e'' | st] eqn:E; [| discriminate].
        injection Hb' as <-. now apply status_of_error in E.
  - intros rows Hrows. apply traverse_with_status in Hrows.
    destruct Hrows as (Hfst & Hst). rewrite Hfst.
    split; [apply order_by_perm |]. split; [| exact Hst].
    apply (Sorted_impl (fun a b => budget_leb a b = true)).
    + intros a b. unfold budget_leb. lia.
    + apply order_by_sorted. apply budget_leb_total.
  - reflexivity.
  - reflexivity.
Qed.

Lemma list_budgets_lists_by_recency_witness :
  let w := mkworld [Demo.user] [Demo.food] []
             [Demo.june_budget false; Budget.mk 2 1 None 7 0 100 false] [] in
  eval (list_budgets None None) w = Raise ValueError /\
  exists rows, eval (list_budgets None (Some 2024)) w = Ok rows.
Proof.
  intros w.
  destruct (list_budgets_lists_by_recency None None w Demo.user)
    as (_ & _ & Hraise & _).
  - reflexivity.
  - split.
    + apply Hraise. exists (Budget.mk 2 1 None 7 0 100 false).
      split; [right; left; reflexivity | reflexivity].
    + eexists. reflexivity.
Defined.

(** X24.  POST /api/budgets does not check that the month and year have
    a window.  With a payload that parses to a year outside the calendar,
    and into a row the database accepts (a year within [INTEGER], a limit
    within [Numeric(10, 2)], a category that is null or has a row), it
    raises [ValueError] in the evaluation, after the budget was stored:
    the table has the new row, no flag and no output changed, and from
    then on the unfiltered GET /api/budgets raises [ValueError]. *)
Theorem budget_without_window_is_stored (new_id : Z)
    (payload : option budget_payload) (w : world) (uid : Z)
    (data : budget_data) :
  eval get_current_user_id w = Ok uid ->
  Forall stored_budget (budgets w) ->
  parse_budget_payload payload = Ok data ->
  storable_budget w data ->
  get_month_bounds (d_year data) (d_month data) = Raise ValueError ->
  let w' := exec (create_budget new_id payload) w in
  eval (create_budget new_id payload) w = Raise ValueError /\
  w' = set_budgets
         (budgets w ++
          [Budget.mk new_id uid (d_budget_category_id data) (d_month data)
             (d_year data) (d_limit_amount data) false]) w /\
  eval (list_budgets None None) w' = Raise ValueError.
Proof.
  intros Huid _ Hp _ Hb w'.
  apply eval_get_current_user_id in Huid. destruct Huid as (user & Hu & Hid).
  pose proof (found_user_id _ _ Hu) as H1.
  set (b0 := Budget.mk new_id uid (d_budget_category_id data) (d_month data)
               (d_year data) (d_limit_amount data) false).
  set (w0 := set_budgets (budgets w ++ [b0]) w).
  assert (Hsel : in_scope uid (d_month data) (d_year data) b0 = true).
  { unfold in_scope, b0. cbn. now rewrite !Z.eqb_refl. }
  assert (Hrun : create_budget new_id payload w = (w0, Raise ValueError)).
  { rewrite create_budget_cases, Hu, Hp, Hid. cbn zeta. fold b0 w0.
    destruct (evaluate_budgets_for_month uid (d_month data) (d_year data) w0)
      as [w1 r] eqn:E.
    apply evaluation_cases in E.
    inversion E as [Hu' Hw Hr | user' err Hu' Hb' Hw Hr
                   | user' s e Hu' Hb' Hw Hr].
    - cbn in Hu'. congruence.
    - assert (Hex : existsb (in_scope uid (d_month data) (d_year data))
                      (budgets w0) = true).
      { unfold w0. cbn [budgets set_budgets]. rewrite existsb_app. cbn.
        now rewrite Hsel, orb_true_r. }
      rewrite Hex. congruence.
    - congruence. }
  unfold w', exec, eval. rewrite Hrun. cbn [fst snd].
  split; [reflexivity |]. split; [reflexivity |].
  assert (Hu0 : find (fun u => User.id u =? 1) (users w0) = Some user)
    by exact Hu.
  rewrite (list_budgets_run None None w0 user Hu0). cbn [snd].
  assert (Hin : In b0 (order_by budget_leb
                         (filter (listed 1 None None) (budgets w0)))).
  { apply (Permutation_in b0 (Permutation_sym (order_by_perm budget_leb _))).
    apply filter_In. split.
    - unfold w0. cbn. apply in_or_app. right. now left.
    - unfold listed, b0. cbn. rewrite <- Hid, H1. reflexivity. }
  destruct (traverse_fails
              (fun b => match status_of w0 b with
                        | inl e => inl e
                        | inr status => Ok (b, status)
                        end) _ b0 ValueError Hin) as (e' & He').
  { now rewrite (status_of_raises w0 b0 Hb). }
  rewrite He'. f_equal.
  apply traverse_error in He'. destruct He' as (b' & _ & Hb').
  destruct (status_of w0 b') as [e'' | st] eqn:E; [| discriminate].
  injection Hb' as <-. now apply status_of_error in E.
Qed.

Lemma budget_without_window_is_stored_witness :
  let w := Demo.world_with [] false in
  let post := create_budget 2
                (Some (mk_budget_payload (Some (JInt 7)) (Some (JInt 0))
                         (Some 100) None)) in
  eval post w = Raise ValueError /\
  budgets (exec post w)
    = [Demo.june_budget false; Budget.mk 2 1 None 7 0 100 false] /\
  eval (list_budgets None None) (exec post w) = Raise ValueError.
Proof.
  intros w post.
  destruct (budget_without_window_is_stored 2
              (Some (mk_budget_payload (Some (JInt 7)) (Some (JInt 0))
                       (Some 100) None))
              w 1 (mk_budget_data 7 0 100 None))
    as (Hraise & Hw' & Hlist).
  - reflexivity.
  - constructor; [| constructor].
    split; unfold c_int; cbn; lia.
  - reflexivity.
  - split; [unfold c_int; cbn; lia |].
    split; [unfold numeric_10_2; cbn; lia | exact I].
  - reflexivity.
  - split; [exact Hraise |]. split; [| exact Hlist].
    unfold post. rewrite Hw'. reflexivity.
Defined.

(** X25.  DELETE /api/budgets/<id> of a budget of the user removes that
    row and no other, its id being a primary key, and then evaluates the
    month and year the deleted budget had: the remaining budgets keep
    everything but, in that scope, their flags. *)
Theorem delete_budget_removes_the_row (row_id : Z) (w : world) (uid : Z)
    (b0 : Budget.t) :
  pk_unique Budget.id (budgets w) ->
  eval get_current_user_id w = Ok uid ->
  find (budget_is row_id uid) (budgets w) = Some b0 ->
  let w' := exec (delete_budget row_id) w in
  let rest := filter (fun b => negb (Budget.id b =? row_id)) (budgets w) in
  w' = exec (evaluate_budgets_for_month uid (Budget.month b0) (Budget.year b0))
         (set_budgets rest w) /\
  map without_flag (budgets w') = map without_flag rest /\
  ~ In row_id (map Budget.id (budgets w')) /\
  transactions w' = transactions w.
Proof.
  intros Hpk Huid Hb w' rest.
  apply eval_get_current_user_id in Huid. destruct Huid as (user & Hu & Hid).
  assert (Hw' : w' = exec (evaluate_budgets_for_month uid (Budget.month b0)
                             (Budget.year b0)) (set_budgets rest w)).
  { unfold w', exec. rewrite delete_budget_cases, Hu, Hid, Hb.
    rewrite (delete_first_pk Budget.id _ row_id _ b0 Hpk); [| | exact Hb].
    - fold rest.
      now destruct (evaluate_budgets_for_month _ _ _ _) as [w1 [e | []]].
    - intros r Hr. unfold budget_is in Hr. lia. }
  destruct (evaluate_keeps uid (Budget.month b0) (Budget.year b0)
              (set_budgets rest w)) as (_ & _ & Ht & Hbs & _).
  rewrite <- Hw' in Ht, Hbs. cbn [budgets transactions set_budgets] in Ht, Hbs.
  repeat split; auto.
  intros Hin. apply in_map_iff in Hin. destruct Hin as (b & Hidb & Hin).
  assert (Hin' : In (without_flag b) (map without_flag rest))
    by (rewrite <- Hbs; now apply in_map).
  apply in_map_iff in Hin'. destruct Hin' as (b' & Heq & Hin').
  apply filter_In in Hin'. destruct Hin' as (_ & Hne).
  apply negb_true_iff in Hne. apply Z.eqb_neq in Hne.
  apply (f_equal Budget.id) in Heq. cbn in Heq. congruence.
Qed.

Lemma delete_budget_removes_the_row_witness :
  let w := mkworld [Demo.user] [Demo.food]
             [Demo.expense 1 5000 (mkdate 2024 6 5)]
             [Demo.june_budget false; Budget.mk 2 1 None 6 2024 4000 false] [] in
  budgets (exec (delete_budget 1) w) = [Budget.mk 2 1 None 6 2024 4000 true] /\
  ~ In 1 (map Budget.id (budgets (exec (delete_budget 1) w))).
Proof.
  intros w.
  destruct (delete_budget_removes_the_row 1 w 1 (Demo.june_budget false))
    as (_ & _ & Hgone & _).
  - repeat constructor; cbn; intuition discriminate.
  - reflexivity.
  - reflexivity.
  - split; [reflexivity | exact Hgone].
Defined.

(** ** The summary, continued *)

Lemma monthly_summary_run today arg_month arg_year w user :
  find (fun u => User.id u =? 1) (users w) = Some user ->
  let month := arg_or arg_month (Calendar.month today) in
  let year := arg_or arg_year (Calendar.year today) in
  monthly_summary today arg_month arg_year w =
  (w,
   match get_month_bounds year month with
   | inl e => inl e
   | inr (s, e) =>
       let income :=
         float_of_decimal
           (sum_amount (total_rows "income" 1 s e None (transactions w))) in
       let expense :=
         float_of_decimal
           (sum_amount (total_rows "expense" 1 s e None (transactions w))) in
       match traverse (fun b => match status_of w b with
                                | inl e => inl e
                                | inr status => Ok (b, status)
                                end)
               (overall_first (filter (in_scope 1 month year) (budgets w)))
       with
       | inl e => inl e
       | inr payload =>
           Ok (mk_summary month year income expense (sub income expense)
                 (by_category 1 s e (categories w) (transactions w)) payload)
       end
   end).
Proof.
  intros Hu month year.
  unfold monthly_summary, get_current_user_id. unfold bind at 1 2.
  rewrite get_current_user_run, Hu. cbn [ret].
  rewrite (found_user_id _ _ Hu). fold month year.
  unfold bind at 1, lift.
  destruct (get_month_bounds year month) as [err | [s e]] eqn:Hb;
    [reflexivity |].
  unfold bind at 1. rewrite get_income_total_run, Hb.
  unfold bind at 1. rewrite get_expense_total_run, Hb.
  unfold bind at 1 2 3, gets. unfold bind at 1.
  rewrite (mapM_pure _ (fun b => match status_of w b with
                                 | inl e => inl e
                                 | inr status => Ok (b, status)
                                 end) w)
    by (intros b; apply with_status_run).
  now destruct (traverse _ _).
Qed.

Lemma partition_perm {R : Type} (p : R -> bool) (rows : list R) :
  Permutation (filter p rows ++ filter (fun r => negb (p r)) rows) rows.
Proof.
  induction rows as [| r rows IH]; cbn; [constructor |].
  destruct (p r); cbn.
  - now constructor.
  - rewrite <- Permutation_middle. now constructor.
Qed.

(** X26.  GET /api/summary/monthly, with a user 1 and a month and year
    that fit a C [int], fails exactly when the month and year asked for
    have no window, and then with [ValueError]; no row of the tables can
    make it fail.  (Beyond a C [int], [date] raises [OverflowError], on
    which nothing is said here.)  Its answer carries the month
    and year asked for, today's for an argument that is absent or 0, the
    net as the float difference of income and expense, and the budgets of
    that user, month and year, each once and each with its status, those
    without category before the others; an overall budget (no category,
    or category 0) has a [spent] equal to the total expense. *)
Theorem monthly_summary_answers (today : date) (arg_month arg_year : option Z)
    (w : world) (user : User.t) :
  eval get_current_user w = Ok user ->
  let month := arg_or arg_month (Calendar.month today) in
  let year := arg_or arg_year (Calendar.year today) in
  (arg_month = None \/ arg_month = Some 0 -> month = Calendar.month today) /\
  (c_int month -> c_int year ->
   (eval (monthly_summary today arg_month arg_year) w = Raise ValueError <->
    get_month_bounds year month = Raise ValueError) /\
   (forall e, eval (monthly_summary today arg_month arg_year) w = inl e ->
              e = ValueError)) /\
  forall resp,
    eval (monthly_summary today arg_month arg_year) w = Ok resp ->
    s_month resp = month /\ s_year resp = year /\
    s_net resp = sub (s_total_income resp) (s_total_expense resp) /\
    Permutation (map fst (s_budgets resp))
      (filter (in_scope 1 month year) (budgets w)) /\
    (exists overall others,
        map fst (s_budgets resp) = overall ++ others /\
        Forall (fun b => Budget.category_id b = None) overall /\
        Forall (fun b => Budget.category_id b <> None) others) /\
    forall b status,
      In (b, status) (s_budgets resp) ->
      status_of w b = Ok status /\
      (truthy (Budget.category_id b) = false ->
       spent status = s_total_expense resp).
Proof.
  intros Hu month year. apply eval_get_current_user in Hu.
  unfold eval. rewrite (monthly_summary_run today arg_month arg_year w user Hu).
  fold month year. cbn [snd].
  split.
  { intros [-> | ->]; reflexivity. }
  destruct (get_month_bounds year month) as [err | [s e]] eqn:Hb.
  { pose proof (proj2 (get_month_bounds_failure _ _) err Hb) as ->.
    split; [intros _ _; repeat split; congruence |]. discriminate. }
  set (scope := filter (in_scope 1 month year) (budgets w)).
  destruct (traverse _ (overall_first scope)) as [err | payload] eqn:Ht.
  { exfalso. apply traverse_error in Ht. destruct Ht as (b & Hin & Hst).
    destruct (status_of w b) as [e' | st] eqn:E; [| discriminate].
    apply status_of_error in E. destruct E as (_ & E).
    assert (Hscope : In b scope).
    { apply (Permutation_in b (partition_perm is_overall scope)). exact Hin. }
    apply filter_In in Hscope. destruct Hscope as (_ & Hsel).
    apply in_scope_true in Hsel. destruct Hsel as (_ & Hm & Hy).
    rewrite Hm, Hy in E. congruence. }
  apply traverse_with_status in Ht. destruct Ht as (Hfst & Hst).
  split; [intros _ _; split; [split |]; congruence |].
  intros resp H. injection H as <-. cbn.
  repeat split.
  - rewrite Hfst. apply partition_perm.
  - exists (filter is_overall scope),
      (filter (fun b => negb (is_overall b)) scope).
    split; [exact Hfst |]. split; apply Forall_forall; intros b Hin;
      apply filter_In in Hin; destruct Hin as (_ & Hin);
      unfold is_overall in Hin; destruct (Budget.category_id b);
      cbn in Hin; congruence.
  - now apply Hst.
  - intros Hfalsy. pose proof (Hst b status H) as Hb'.
    assert (Hscope : In b scope).
    { apply (Permutation_in b (partition_perm is_overall scope)).
      change (In b (overall_first scope)).
      rewrite <- Hfst. apply (in_map fst _ _ H). }
    apply filter_In in Hscope. destruct Hscope as (_ & Hsel).
    apply in_scope_true in Hsel. destruct Hsel as (Hown & Hm & Hy).
    apply eval_compute_budget_status in Hb'.
    destruct Hb' as (s' & e' & Hb'' & -> & _).
    rewrite Hm, Hy, Hb in Hb''. injection Hb'' as <- <-.
    rewrite Hown. unfold total_rows.
    destruct (Budget.category_id b) as [c |]; [| reflexivity].
    now rewrite Hfalsy.
Qed.

Lemma monthly_summary_answers_witness :
  let w := mkworld [Demo.user] [Demo.food]
             [Demo.expense 1 5000 (mkdate 2024 6 5)]
             [Demo.june_budget false; Budget.mk 2 1 None 6 2024 4000 true] [] in
  (exists resp,
     eval (monthly_summary Demo.today (Some 0) None) w = Ok resp /\
     s_month resp = 6 /\ s_year resp = 2024) /\
  c_int 13 /\ c_int 2024 /\
  eval (monthly_summary Demo.today (Some 13) None) w = Raise ValueError.
Proof.
  intros w. split.
  - destruct (monthly_summary_answers Demo.today (Some 0) None w Demo.user)
      as (_ & _ & Hresp).
    + reflexivity.
    + eexists. split; [reflexivity |].
      destruct (Hresp _ eq_refl) as (Hm & Hy & _). auto.
  - assert (H13 : c_int 13) by (unfold c_int; lia).
    assert (H2024 : c_int 2024) by (unfold c_int; lia).
    split; [exact H13 |]. split; [exact H2024 |].
    destruct (monthly_summary_answers Demo.today (Some 13) None w Demo.user)
      as (_ & Hfail & _).
    + reflexivity.
    + apply (proj1 (Hfail H13 H2024)). reflexivity.
Defined.

Lemma order_by_name_is_order_by cs :
  order_by_name cs =
  order_by (fun a b => String.leb (Category.name a) (Category.name b)) cs.
Proof.
  unfold order_by_name, order_by. induction cs as [| c cs IH]; cbn;
    [reflexivity |].
  rewrite IH. generalize (fold_right
    (insert_by (fun a b => String.leb (Category.name a) (Category.name b)))
    [] cs).
  intros l. induction l as [| c' l IHl]; cbn; [reflexivity |].
  now rewrite IHl.
Qed.

Lemma Sorted_map {R S : Type} (f : R -> S) (P : S -> S -> Prop)
    (rows : list R) :
  Sorted (fun a b => P (f a) (f b)) rows -> Sorted P (map f rows).
Proof.
  induction 1 as [| r rows Hs IH Hhd]; cbn; constructor; [exact IH |].
  destruct Hhd; cbn; now constructor.
Qed.

(** X27.  The per-category breakdown of a monthly summary is ordered by
    category name, ascending. *)
Theorem by_category_is_ordered_by_name (today : date)
    (arg_month arg_year : option Z) (w : world) (resp : summary) :
  eval (monthly_summary today arg_month arg_year) w = Ok resp ->
  Sorted (fun a b => String.leb (ct_category_name a) (ct_category_name b) = true)
    (s_by_category resp).
Proof.
  intros H. apply eval_monthly_summary in H.
  destruct H as (user & s & e & _ & _ & ->).
  unfold by_category. apply Sorted_map. cbn [ct_category_name].
  rewrite order_by_name_is_order_by.
  apply (order_by_sorted
           (fun a b => String.leb (Category.name a) (Category.name b))).
  intros a b Hab.
  destruct (String.leb_total (Category.name a) (Category.name b)); congruence.
Qed.

Lemma by_category_is_ordered_by_name_witness :
  let salary := Category.mk 3 (Some 1) "Salary" "income" in
  let w := mkworld [Demo.user] [salary; Demo.rent; Demo.food] [] [] [] in
  exists resp,
    eval (monthly_summary Demo.today None None) w = Ok resp /\
    map ct_category_name (s_by_category resp) = ["Food"; "Housing"; "Salary"] /\
    Sorted (fun a b => String.leb (ct_category_name a) (ct_category_name b) = true)
      (s_by_category resp).
Proof.
  intros salary w. eexists. split; [reflexivity |]. split; [reflexivity |].
  apply (by_category_is_ordered_by_name Demo.today None None w). reflexivity.
Defined.

(** ** What counts as spent *)

Lemma total_rows_app tx_type u s e c l l' :
  total_rows tx_type u s e c (l ++ l') =
  total_rows tx_type u s e c l ++ total_rows tx_type u s e c l'.
Proof.
  unfold total_rows. rewrite filter_app.
  destruct c as [k |]; [| reflexivity].
  destruct (truthy (Some k)); [| reflexivity].
  apply filter_app.
Qed.

Lemma in_window_month y m s e d :
  get_month_bounds y m = Ok (s, e) -> valid_date d ->
  (in_window s e d = true <-> Calendar.year d = y /\ Calendar.month d = m).
Proof.
  intros Hb Hd. apply get_month_bounds_inv in Hb.
  destruct Hb as (_ & Hm & _ & -> & ->).
  apply valid_date_bounds in Hd. apply in_window_iff; lia.
Qed.

(** X28.  What a new transaction does to the status of a budget.  A
    transaction that is not an expense, or of another user, or dated in
    another month or year, or, for a budget with a category, of another
    category, leaves the status as it was.  An expense of the budget's
    user, month and year, and of its category if it has one, adds its
    amount to the decimal sum behind [spent], exactly. *)
Theorem what_counts_as_spent (b : Budget.t) (w : world) (t : Transaction.t)
    (status : budget_status) :
  valid_date (Transaction.transaction_date t) ->
  status_of w b = Ok status ->
  let w' := set_transactions (transactions w ++ [t]) w in
  let d := Transaction.transaction_date t in
  (Transaction.type t <> "expense" \/
   Transaction.user_id t <> Budget.user_id b \/
   Calendar.year d <> Budget.year b \/
   Calendar.month d <> Budget.month b \/
   (exists c, Budget.category_id b = Some c /\ c <> 0 /\
              Transaction.category_id t <> Some c) ->
   status_of w' b = Ok status) /\
  (Transaction.type t = "expense" ->
   Transaction.user_id t = Budget.user_id b ->
   Calendar.year d = Budget.year b ->
   Calendar.month d = Budget.month b ->
   (Budget.category_id b = None \/ Budget.category_id b = Some 0 \/
    Transaction.category_id t = Budget.category_id b) ->
   exists cents,
     spent status = float_of_decimal cents /\
     status_of w' b =
       Ok (mk_budget_status (float_of_decimal (cents + Transaction.amount t))
             (sub (float_of_decimal (Budget.limit_amount b))
                (float_of_decimal (cents + Transaction.amount t))))).
Proof.
  intros Hd Hstatus w' d.
  unfold status_of in *. apply eval_compute_budget_status in Hstatus.
  destruct Hstatus as (s & e & Hb & Hspent & Hrem).
  unfold eval, w'. rewrite compute_budget_status_run, Hb.
  cbn [snd transactions set_transactions].
  rewrite total_rows_app, sum_amount_app.
  pose proof (in_window_month _ _ s e d Hb Hd) as Hwin. fold d in Hwin.
  assert (Hone : forall c,
             total_rows "expense" (Budget.user_id b) s e c [t] =
             if (Transaction.user_id t =? Budget.user_id b)
                && String.eqb (Transaction.type t) "expense"
                && in_window s e d
                && (negb (truthy c)
                    || match c with
                       | Some k => opt_eqb (Transaction.category_id t) k
                       | None => false
                       end)
             then [t] else []).
  { intros c. unfold total_rows. cbn [filter]. fold d.
    destruct ((Transaction.user_id t =? Budget.user_id b)
              && String.eqb (Transaction.type t) "expense"
              && in_window s e d); cbn [andb].
    - destruct c as [k |]; [| reflexivity].
      destruct (truthy (Some k)); cbn [negb orb filter]; [| reflexivity].
      now destruct (opt_eqb (Transaction.category_id t) k).
    - destruct c as [k |]; [| reflexivity].
      now destruct (truthy (Some k)). }
  rewrite Hone. split.
  - intros Hout.
    assert (Hcond : (Transaction.user_id t =? Budget.user_id b)
                    && String.eqb (Transaction.type t) "expense"
                    && in_window s e d
                    && (negb (truthy (Budget.category_id b))
                        || match Budget.category_id b with
                           | Some k => opt_eqb (Transaction.category_id t) k
                           | None => false
                           end) = false).
    { destruct Hout as [H | [H | [H | [H | (c & Hc & Hc0 & Hne)]]]].
      - apply String.eqb_neq in H. rewrite H. now rewrite andb_false_r.
      - apply Z.eqb_neq in H. now rewrite H.
      - destruct (in_window s e d) eqn:E;
          [destruct (proj1 Hwin eq_refl); tauto | now rewrite !andb_false_r].
      - destruct (in_window s e d) eqn:E;
          [destruct (proj1 Hwin eq_refl); tauto | now rewrite !andb_false_r].
      - rewrite Hc. cbn [truthy]. apply Z.eqb_neq in Hc0. rewrite Hc0.
        cbn [negb orb].
        destruct (Transaction.category_id t) as [k |]; cbn [opt_eqb].
        + assert (k <> c) by congruence.
          rewrite (proj2 (Z.eqb_neq k c)) by assumption.
          now rewrite andb_false_r.
        + now rewrite andb_false_r. }
    rewrite Hcond. cbn [sum_amount fold_right]. rewrite Z.add_0_r.
    rewrite <- Hspent, <- Hrem. now destruct status.
  - intros Htype Huser Hy Hm Hcat.
    assert (Hcond : (Transaction.user_id t =? Budget.user_id b)
                    && String.eqb (Transaction.type t) "expense"
                    && in_window s e d
                    && (negb (truthy (Budget.category_id b))
                        || match Budget.category_id b with
                           | Some k => opt_eqb (Transaction.category_id t) k
                           | None => false
                           end) = true).
    { rewrite Huser, Z.eqb_refl, Htype, String.eqb_refl.
      rewrite (proj2 Hwin) by auto. cbn [andb].
      destruct Hcat as [-> | [-> | Heq]]; try reflexivity.
      destruct (Budget.category_id b) as [k |]; [| reflexivity].
      rewrite Heq. cbn [opt_eqb]. rewrite Z.eqb_refl. apply orb_true_r. }
    rewrite Hcond. cbn [sum_amount fold_right]. rewrite Z.add_0_r.
    eexists. split; [exact Hspent | reflexivity].
Qed.

Lemma what_counts_as_spent_witness :
  let w := Demo.world_with [Demo.expense 1 5000 (mkdate 2024 6 5)] false in
  let salary := Transaction.mk 2 1 None 900000 "income" None (mkdate 2024 6 1) in
  status_of (set_transactions (transactions w ++ [salary]) w)
    (Demo.june_budget false)
  = Ok (mk_budget_status (float_of_decimal 5000)
          (sub (float_of_decimal 10000) (float_of_decimal 5000))).
Proof.
  intros w salary.
  destruct (what_counts_as_spent (Demo.june_budget false) w salary
              (mk_budget_status (float_of_decimal 5000)
                 (sub (float_of_decimal 10000) (float_of_decimal 5000))))
    as (Hout & _).
  - reflexivity.
  - reflexivity.
  - apply Hout. left. discriminate.
Defined.

(** ** What PUT on a budget keeps *)

Lemma map_without_flag (g : Budget.t -> Z) (l l' : list Budget.t) :
  (forall b, g (without_flag b) = g b) ->
  map without_flag l' = map without_flag l -> map g l' = map g l.
Proof.
  intros Hg H. apply (f_equal (map g)) in H. rewrite !map_map in H.
  rewrite (map_ext _ g Hg l'), (map_ext _ g Hg l) in H. exact H.
Qed.

Lemma nth_error_without_flag (l l' : list Budget.t) i b :
  map without_flag l' = map without_flag l ->
  nth_error l i = Some b ->
  exists b', nth_error l' i = Some b' /\ without_flag b' = without_flag b.
Proof.
  intros H Hi.
  assert (Hn : nth_error (map without_flag l') i = Some (without_flag b)).
  { rewrite H, nth_error_map, Hi. reflexivity. }
  rewrite nth_error_map in Hn.
  destruct (nth_error l' i) as [b' |]; [| discriminate].
  cbn [option_map] in Hn. exists b'. split; [reflexivity | congruence].
Qed.

(** X29.  PUT /api/budgets/<id> changes neither the id nor the owner of
    any budget, adds and removes none, and of a budget with another id it
    changes at most the flag, whatever the payload and the answer. *)
Theorem update_budget_keeps_ids_and_owners (row_id : Z)
    (payload : option budget_payload) (w : world) :
  let w' := exec (update_budget row_id payload) w in
  map Budget.id (budgets w') = map Budget.id (budgets w) /\
  map Budget.user_id (budgets w') = map Budget.user_id (budgets w) /\
  transactions w' = transactions w /\
  forall i b, nth_error (budgets w) i = Some b ->
              Budget.id b <> row_id ->
              exists b', nth_error (budgets w') i = Some b' /\
                         without_flag b' = without_flag b.
Proof.
  intros w'. unfold w'.
  destruct (update_budget_effect row_id payload w)
    as [-> | (user & b0 & data & _ & _ & _ & ->)].
  { repeat split; auto. intros i b Hi _. exists b. auto. }
  match goal with |- context [exec (evaluate_budgets_for_month ?u ?m ?y) ?w0] =>
    destruct (evaluate_keeps u m y w0) as (_ & _ & Ht & Hb & _)
  end.
  cbn [budgets transactions set_budgets] in Ht, Hb.
  repeat split.
  - rewrite (map_without_flag Budget.id _ _ (fun b => eq_refl) Hb).
    now apply map_update_first.
  - rewrite (map_without_flag Budget.user_id _ _ (fun b => eq_refl) Hb).
    now apply map_update_first.
  - exact Ht.
  - intros i b Hi Hne.
    apply (nth_error_without_flag _ _ i b Hb).
    apply nth_error_update_first; [assumption |].
    unfold budget_is. lia.
Qed.
